(** * The generation relay: [functions/api/generate.js] and [functions/_middleware.js]

    Both files implement the same routine: validate a prompt, submit one
    asynchronous image job to the remote service, poll it on a fixed
    interval, and push progress frames to the caller.  [generate.js] is the
    native edge handler ([onRequestPost]); [_middleware.js] holds the Express
    route built by [getRouteHandler], the [fakeRes] shim that turns the route's
    calls into a platform response, and the [module.exports] entry point.

    The embedding is shallow.  A handler is a function from its inputs (the
    request body, the configured key, the scripted remote replies) to its
    result and the chronological trace of what it did: frames written, the
    stream being closed, remote calls, sleeps, and the calls made on the
    Express response object.

    What lies outside the two files is taken as follows.
    - The remote service is a script: what the submit call and the k-th poll
      call come back with, a rejection of [fetch] included.
    - Writing a frame and closing the stream succeed: the caller stays
      connected and reads.
    - The Express router calls the route with the response object it was
      given and with the [req.body] the body parsers left; the route is
      parametrised by the set of methods that object has, so that it can be
      run both on a response object offering what the route calls and on
      [fakeRes] as the file defines it.
    - The wording of the TypeErrors the engine raises is a parameter
      ([describe]). *)

From Stdlib Require Import List NArith Arith Bool Ascii String Lia.
Import ListNotations.

Set Implicit Arguments.
Set Warnings "-register-all".

(* ================================================================== *)
(** ** JavaScript strings *)

(** A JavaScript string is a sequence of UTF-16 code units. *)
Definition jsstring := list N.

Fixpoint jseq (s t : jsstring) : bool :=
  match s, t with
  | [], [] => true
  | a :: s', b :: t' => N.eqb a b && jseq s' t'
  | _, _ => false
  end.

Definition is_empty (s : jsstring) : bool :=
  match s with [] => true | _ => false end.

(** Code units of a code point (surrogate pair above the BMP). *)
Definition units_of_code_point (c : N) : list N :=
  if (c <? 65536)%N then [c]
  else [(55296 + (c - 65536) / 1024)%N; (56320 + (c - 65536) mod 1024)%N].

(** Decoder for the UTF-8 bytes of a source literal. *)
Fixpoint utf16_of_utf8 (bs : list N) : jsstring :=
  match bs with
  | [] => []
  | b0 :: r0 =>
    if (b0 <? 128)%N then b0 :: utf16_of_utf8 r0 else
    match r0 with
    | [] => []
    | b1 :: r1 =>
      if (b0 <? 224)%N
      then ((b0 - 192) * 64 + (b1 - 128))%N :: utf16_of_utf8 r1 else
      match r1 with
      | [] => []
      | b2 :: r2 =>
        if (b0 <? 240)%N
        then ((b0 - 224) * 4096 + (b1 - 128) * 64 + (b2 - 128))%N
               :: utf16_of_utf8 r2 else
        match r2 with
        | [] => []
        | b3 :: r3 =>
          units_of_code_point
            ((b0 - 240) * 262144 + (b1 - 128) * 4096
             + (b2 - 128) * 64 + (b3 - 128))%N ++ utf16_of_utf8 r3
        end
      end
    end
  end.

Fixpoint bytes_of_string (s : string) : list N :=
  match s with
  | EmptyString => []
  | String c s' => N_of_ascii c :: bytes_of_string s'
  end.

(** [js "..."] is the JavaScript string written by that source literal. *)
Definition js (s : string) : jsstring := utf16_of_utf8 (bytes_of_string s).

(** Decimal rendering of a non-negative integer (template literals and
    string concatenation of integer-valued numbers). *)
Fixpoint digits_of_uint (u : Decimal.uint) : jsstring :=
  match u with
  | Decimal.Nil => []
  | Decimal.D0 u' => 48%N :: digits_of_uint u'
  | Decimal.D1 u' => 49%N :: digits_of_uint u'
  | Decimal.D2 u' => 50%N :: digits_of_uint u'
  | Decimal.D3 u' => 51%N :: digits_of_uint u'
  | Decimal.D4 u' => 52%N :: digits_of_uint u'
  | Decimal.D5 u' => 53%N :: digits_of_uint u'
  | Decimal.D6 u' => 54%N :: digits_of_uint u'
  | Decimal.D7 u' => 55%N :: digits_of_uint u'
  | Decimal.D8 u' => 56%N :: digits_of_uint u'
  | Decimal.D9 u' => 57%N :: digits_of_uint u'
  end.

Definition decimal (n : nat) : jsstring := digits_of_uint (Nat.to_uint n).

(** The same for a number kept in binary (HTTP status codes). *)
Definition decimalN (n : N) : jsstring := digits_of_uint (N.to_uint n).

(** [String.prototype.trim]: the code units that are WhiteSpace or
    LineTerminator in ECMAScript. *)
Definition is_white_space (c : N) : bool :=
  ((9 <=? c) && (c <=? 13) || (c =? 32) || (c =? 160) || (c =? 5760)
   || (8192 <=? c) && (c <=? 8202) || (c =? 8232) || (c =? 8233)
   || (c =? 8239) || (c =? 8287) || (c =? 12288) || (c =? 65279))%N.

Fixpoint trim_start (s : jsstring) : jsstring :=
  match s with
  | [] => []
  | c :: s' => if is_white_space c then trim_start s' else s
  end.

Definition trim (s : jsstring) : jsstring :=
  rev (trim_start (rev (trim_start s))).

(* ================================================================== *)
(** ** Values, exceptions and the operators the handlers use *)

(** A number is represented by the two observations the handlers can make
    of one: whether it is falsy (a zero) and its ToString text. *)
Record number := { is_zero : bool; num_text : jsstring }.

(** A value produced by [JSON.parse]: [JObj] lists the own properties of the
    parsed object.  [undefined] is [None] in [option json]. *)
Inductive json :=
| JNull
| JBool (b : bool)
| JNum (n : number)
| JStr (s : jsstring)
| JArr (items : list json)
| JObj (props : list (jsstring * json)).

Definition value := option json.

Fixpoint lookup (k : jsstring) (props : list (jsstring * json)) : value :=
  match props with
  | [] => None
  | (k', v) :: rest => if jseq k k' then Some v else lookup k rest
  end.

(** What the language itself can throw in these handlers. *)
Inductive fault :=
| ReadOfNullish (prop : jsstring)   (* property read on undefined or null *)
| NotAFunction (callee : jsstring)  (* call of something that is no function *)
| NotPrimitive.                     (* object without a usable toString *)

(** A thrown value: a TypeError raised by the language, or the rejection of
    a platform promise ([fetch], [Response.text], [Response.json]) with the
    [message] of the error it carries. *)
Inductive exn :=
| TypeError (f : fault)
| Rejected (message : jsstring).

Inductive result (A : Type) :=
| Ok (a : A)
| Throw (e : exn).
Arguments Ok {A} a.
Arguments Throw {A} e.

Definition bind_result {A B} (r : result A) (k : A -> result B) : result B :=
  match r with Ok a => k a | Throw e => Throw e end.

(** ToBoolean, negated: the operand of [!] and of [||]. *)
Definition falsy (v : value) : bool :=
  match v with
  | None | Some JNull => true
  | Some (JBool b) => negb b
  | Some (JNum n) => is_zero n
  | Some (JStr s) => is_empty s
  | Some (JArr _) | Some (JObj _) => false
  end.

(** [v.k] for the property names the handlers read (prompt, task_id,
    task_status, output_images, error, message, url): none of them is a
    member of a primitive wrapper, of an array or of [Object.prototype]. *)
Definition get_prop (v : value) (k : jsstring) : result value :=
  match v with
  | None | Some JNull => Throw (TypeError (ReadOfNullish k))
  | Some (JObj props) => Ok (lookup k props)
  | Some _ => Ok None
  end.

(** [v?.k] *)
Definition get_prop_opt (v : value) (k : jsstring) : result value :=
  match v with
  | None | Some JNull => Ok None
  | _ => get_prop v k
  end.

(** [v[0]] *)
Definition get_first (v : value) : result value :=
  match v with
  | None | Some JNull => Throw (TypeError (ReadOfNullish (js "0")))
  | Some (JArr items) => Ok (nth_error items 0)
  | Some (JStr s) => Ok (match s with [] => None | c :: _ => Some (JStr [c]) end)
  | Some (JObj props) => Ok (lookup (js "0") props)
  | Some _ => Ok None
  end.

(** ToString of a parsed value.  A parsed object only converts when it has no
    own [toString] property (it cannot hold a function); array elements that
    are null convert to the empty string inside [join]. *)
Fixpoint to_string (v : json) : result jsstring :=
  match v with
  | JNull => Ok (js "null")
  | JBool true => Ok (js "true")
  | JBool false => Ok (js "false")
  | JNum n => Ok (num_text n)
  | JStr s => Ok s
  | JArr items =>
      (fix join (l : list json) : result jsstring :=
         match l with
         | [] => Ok []
         | x :: rest =>
             bind_result (match x with JNull => Ok [] | _ => to_string x end)
               (fun sx =>
                  match rest with
                  | [] => Ok sx
                  | _ => bind_result (join rest)
                           (fun sr => Ok (sx ++ js "," ++ sr))
                  end)
         end) items
  | JObj props =>
      match lookup (js "toString") props with
      | None => Ok (js "[object Object]")
      | Some _ => Throw (TypeError NotPrimitive)
      end
  end.

(** ToString of a possibly undefined value, as in a template literal. *)
Definition to_string_value (v : value) : result jsstring :=
  match v with
  | None => Ok (js "undefined")
  | Some j => to_string j
  end.

(** [v === lit] for a string literal. *)
Definition is_string (v : value) (lit : jsstring) : bool :=
  match v with
  | Some (JStr s) => jseq s lit
  | _ => false
  end.

(** [prompt.trim()]: only a string has the method. *)
Definition call_trim (v : value) : result jsstring :=
  match v with
  | None | Some JNull => Throw (TypeError (ReadOfNullish (js "trim")))
  | Some (JStr s) => Ok (trim s)
  | Some _ => Throw (TypeError (NotAFunction (js "prompt.trim")))
  end.

(* ================================================================== *)
(** ** Events, the remote service and the trace of effects *)

(** The object handed to [JSON.stringify] by [sendEvent]: [type], [message]
    and, for [complete], [imageUrl] (a key whose value is [undefined] is left
    out of the frame).  The frame on the wire is [data: <JSON>] followed by
    two newlines. *)
Inductive event :=
| status (message : jsstring)
| complete (message : jsstring) (imageUrl : value)
| error (message : jsstring).

(** What a call to the remote service comes back with: [fetch] rejects, or it
    resolves with a response whose [ok] flag, [status] code and the outcomes
    of [text()] and [json()] are as given. *)
Record reply := {
  ok : bool;
  http_status : N;
  text : result jsstring;
  parsed : result json
}.

(** A scripted remote service: the reply to the submit call and the reply to
    the k-th poll call (counting from 0). *)
Record remote := {
  on_submit : result reply;
  on_poll : nat -> result reply
}.

Inductive action :=
| Emit (e : event)                                  (* one frame written *)
| Close                                             (* writer.close() / res.end() *)
| Submit (url authorization model prompt : jsstring)  (* POST to the service *)
| Poll (url authorization : jsstring)               (* GET of the task *)
| Sleep (ms : N)
| ResStatus (code : N)                              (* res.status(code) *)
| ResJson (body : json)                             (* res.json(body) *)
| ResSetHeader (name val : jsstring)                (* res.setHeader(name, val) *)
| ConsoleError (e : exn).

Definition trace := list action.

Fixpoint events_of (tr : trace) : list event :=
  match tr with
  | [] => []
  | Emit e :: tr' => e :: events_of tr'
  | _ :: tr' => events_of tr'
  end.

Fixpoint count_polls (tr : trace) : nat :=
  match tr with
  | [] => 0
  | Poll _ _ :: tr' => S (count_polls tr')
  | _ :: tr' => count_polls tr'
  end.

Fixpoint count_submits (tr : trace) : nat :=
  match tr with
  | [] => 0
  | Submit _ _ _ _ :: tr' => S (count_submits tr')
  | _ :: tr' => count_submits tr'
  end.

Definition remote_calls (tr : trace) : nat := count_submits tr + count_polls tr.

(** An asynchronous function body: it extends the trace and either completes
    with a value or throws. *)
Definition M (A : Type) := trace -> result A * trace.

Definition ret {A} (a : A) : M A := fun tr => (Ok a, tr).

Definition bind {A B} (m : M A) (k : A -> M B) : M B :=
  fun tr => match m tr with
            | (Ok a, tr') => k a tr'
            | (Throw e, tr') => (Throw e, tr')
            end.

Definition lift {A} (r : result A) : M A := fun tr => (r, tr).

Definition act (a : action) : M unit := fun tr => (Ok tt, tr ++ [a]).

Definition try_catch {A} (body : M A) (handler : exn -> M A) : M A :=
  fun tr => match body tr with
            | (Ok a, tr') => (Ok a, tr')
            | (Throw e, tr') => handler e tr'
            end.

Declare Scope js_scope.
Delimit Scope js_scope with js.
Notation "x <- m ;; k" := (bind m (fun x => k))
  (at level 61, m at next level, right associativity) : js_scope.
Notation "m ;; k" := (bind m (fun _ => k))
  (at level 61, right associativity) : js_scope.
Open Scope js_scope.

(** How a loop body inside an async function is left: by [return], or by
    running off the end of the loop. *)
Inductive control := Returned | Fallthrough.

Inductive response_body :=
| JsonText (v : json)        (* JSON.stringify(v) *)
| PlainText (s : jsstring)
| Readable.                  (* readable side of a TransformStream *)

Record http_response := {
  status_code : N;
  headers : list (jsstring * jsstring);
  body : response_body
}.

Definition model_name := js "Tongyi-MAI/Z-Image-Turbo".

(** [`Bearer ${API_KEY}`] for a key that is a string or is not configured. *)
Definition bearer (API_KEY : option jsstring) : jsstring :=
  js "Bearer " ++ match API_KEY with Some k => k | None => js "undefined" end.

Section Calls.
Variable service : remote.

Definition fetch_submit (url authorization prompt : jsstring) : M reply :=
  fun tr => (on_submit service,
             tr ++ [Submit url authorization model_name prompt]).

Definition fetch_poll (url authorization : jsstring) : M reply :=
  fun tr => (on_poll service (count_polls tr),
             tr ++ [Poll url authorization]).
End Calls.

(** [err.message] in a catch block; [describe] is the engine's wording of the
    TypeErrors it raises. *)
Definition message_of (describe : fault -> jsstring) (err : exn) : jsstring :=
  match err with
  | TypeError f => describe f
  | Rejected m => m
  end.

Definition error_body : json := JObj [(js "error", JStr (js "请输入提示词"))].

(** [!prompt || !prompt.trim()] *)
Definition prompt_rejected (prompt : value) : result bool :=
  if falsy prompt then Ok true
  else bind_result (call_trim prompt) (fun t => Ok (is_empty t)).

(** [pollData.error?.message || fallback], converted for concatenation. *)
Definition reason_or (pollData : value) (fallback : jsstring) : result jsstring :=
  bind_result (get_prop pollData (js "error")) (fun err =>
  bind_result (get_prop_opt err (js "message")) (fun m =>
  if falsy m then Ok fallback else to_string_value m)).

(* ================================================================== *)
(** ** [functions/api/generate.js] *)

Module Generate.
Section Handler.
Variable describe : fault -> jsstring.
Variable service : remote.
Variable API_KEY : option jsstring.       (* env.MODELSCOPE_API_KEY *)

Definition BASE_URL := js "https://api-inference.modelscope.cn/".
Definition MAX_POLLS := 40.

Definition sendEvent (e : event) : M unit := act (Emit e).

(** The [for] loop: [n] iterations remain, [i] is the loop variable. *)
Fixpoint poll_loop (n i : nat) (taskId : value) : M control :=
  match n with
  | O => ret Fallthrough
  | S n' =>
    act (Sleep 3000%N) ;;
    id <- lift (to_string_value taskId) ;;
    pollRes <- fetch_poll service (BASE_URL ++ js "v1/tasks/" ++ id)
                 (bearer API_KEY) ;;
    pollData <- lift (parsed pollRes) ;;
    task_status <- lift (get_prop (Some pollData) (js "task_status")) ;;
    if is_string task_status (js "SUCCEED") then
      images <- lift (get_prop (Some pollData) (js "output_images")) ;;
      first <- lift (get_first images) ;;
      url <- lift (get_prop first (js "url")) ;;
      sendEvent (complete (js "生成完成！") url) ;;
      act Close ;;
      ret Returned
    else if is_string task_status (js "FAILED") then
      reason <- lift (reason_or (Some pollData) (js "未知原因")) ;;
      sendEvent (error (js "生成失败: " ++ reason)) ;;
      act Close ;;
      ret Returned
    else
      sendEvent (status (js "生成中... (" ++ decimal (i + 1) ++ js ")")) ;;
      poll_loop n' (S i) taskId
  end.

(** The body of the detached async function (step 4 of the source). *)
Definition task (prompt : value) : M unit :=
  try_catch
    (sendEvent (status (js "正在提交生成任务...")) ;;
     trimmed <- lift (call_trim prompt) ;;
     submitRes <- fetch_submit service (BASE_URL ++ js "v1/images/generations")
                    (bearer API_KEY) trimmed ;;
     if negb (ok submitRes) then
       errText <- lift (text submitRes) ;;
       sendEvent (error (js "API 请求失败: " ++ errText)) ;;
       act Close
     else
       submitData <- lift (parsed submitRes) ;;
       taskId <- lift (get_prop (Some submitData) (js "task_id")) ;;
       sendEvent (status (js "任务已提交，正在生成中...")) ;;
       exit <- poll_loop MAX_POLLS 0 taskId ;;
       match exit with
       | Returned => ret tt
       | Fallthrough =>
           sendEvent (error (js "生成超时，请重试")) ;;
           act Close
       end)
    (fun err =>
       sendEvent (error (js "服务器错误: " ++ message_of describe err)) ;;
       act Close).

(** Starting the async function without awaiting it: its effects happen,
    its completion is not observed by the caller. *)
Definition detach (m : M unit) : M unit := fun tr => (Ok tt, snd (m tr)).

Definition sse_headers : list (jsstring * jsstring) :=
  [(js "Content-Type", js "text/event-stream");
   (js "Cache-Control", js "no-cache");
   (js "Connection", js "keep-alive");
   (js "Access-Control-Allow-Origin", js "*")].

(** [request_json] is the outcome of [await request.json()]. *)
Definition onRequestPost (request_json : result json) : M http_response :=
  body <- lift request_json ;;
  prompt <- lift (get_prop (Some body) (js "prompt")) ;;
  rejected <- lift (prompt_rejected prompt) ;;
  if rejected then
    ret {| status_code := 400%N;
           headers := [(js "Content-Type", js "application/json")];
           body := JsonText error_body |}
  else
    detach (task prompt) ;;
    ret {| status_code := 200%N; headers := sse_headers; body := Readable |}.
End Handler.
End Generate.

(* ================================================================== *)
(** ** [functions/_middleware.js] *)

Module Middleware.

(** The methods the route calls on [res].  A response object is described by
    the methods it has; calling one it lacks is a TypeError. *)
Inductive res_method := m_status | m_json | m_setHeader | m_write | m_end | m_set.

Definition method_name (m : res_method) : jsstring :=
  match m with
  | m_status => js "res.status"
  | m_json => js "res.status(...).json"
  | m_setHeader => js "res.setHeader"
  | m_write => js "res.write"
  | m_end => js "res.end"
  | m_set => js "res.set"
  end.

Section Route.
Variable describe : fault -> jsstring.
Variable service : remote.
Variable has : res_method -> bool.           (* the shape of [res] *)
Variable BASE_URL : jsstring.                (* argument of getRouteHandler *)
Variable process_env_key : option jsstring.  (* process.env.MODELSCOPE_API_KEY *)

Definition MAX_POLLS := 60.

Definition res_call (m : res_method) (a : action) : M unit :=
  if has m then act a
  else lift (Throw (TypeError (NotAFunction (method_name m)))).

(** [if (res.write) res.write(...)] *)
Definition sendEvent (e : event) : M unit :=
  if has m_write then act (Emit e) else ret tt.

Definition res_end : M unit := res_call m_end Close.

Definition sleep (ms : N) : M unit := act (Sleep ms).

Fixpoint poll_loop (n i : nat) (API_KEY : option jsstring) (taskId : value)
  : M control :=
  match n with
  | O => ret Fallthrough
  | S n' =>
    sleep 3000%N ;;
    id <- lift (to_string_value taskId) ;;
    pollRes <- fetch_poll service (BASE_URL ++ js "v1/tasks/" ++ id)
                 (bearer API_KEY) ;;
    if negb (ok pollRes) then
      sendEvent (error (js "轮询失败: " ++ decimalN (http_status pollRes))) ;;
      res_end ;;
      ret Returned
    else
      pollData <- lift (parsed pollRes) ;;
      task_status <- lift (get_prop (Some pollData) (js "task_status")) ;;
      if is_string task_status (js "SUCCEED") then
        images <- lift (get_prop (Some pollData) (js "output_images")) ;;
        url <- lift (get_prop images (js "url")) ;;
        sendEvent (complete (js "生成完成！") url) ;;
        res_end ;;
        ret Returned
      else if is_string task_status (js "FAILED") then
        reason <- lift (reason_or (Some pollData) (js "未知错误")) ;;
        sendEvent (error (js "图片生成失败: " ++ reason)) ;;
        res_end ;;
        ret Returned
      else
        sendEvent (status (js "正在生成中... (" ++ decimal (i + 1) ++ js ")")) ;;
        poll_loop n' (S i) API_KEY taskId
  end.

(** The callback registered with [router.post('/api/generate', ...)];
    [req_body] is [req.body]. *)
Definition route (req_body : value) : M unit :=
  prompt <- lift (get_prop req_body (js "prompt")) ;;
  rejected <- lift (prompt_rejected prompt) ;;
  if rejected then
    res_call m_status (ResStatus 400%N) ;;
    res_call m_json (ResJson error_body)
  else
    res_call m_setHeader (ResSetHeader (js "Content-Type") (js "text/event-stream")) ;;
    res_call m_setHeader (ResSetHeader (js "Cache-Control") (js "no-cache")) ;;
    res_call m_setHeader (ResSetHeader (js "Connection") (js "keep-alive")) ;;
    try_catch
      (sendEvent (status (js "正在提交生成任务...")) ;;
       let API_KEY := process_env_key in
       trimmed <- lift (call_trim prompt) ;;
       submitRes <- fetch_submit service (BASE_URL ++ js "v1/images/generations")
                      (bearer API_KEY) trimmed ;;
       if negb (ok submitRes) then
         errText <- lift (text submitRes) ;;
         sendEvent (error (js "API 请求失败: " ++ decimalN (http_status submitRes)
                           ++ js " " ++ errText)) ;;
         res_end
       else
         submitData <- lift (parsed submitRes) ;;
         taskId <- lift (get_prop (Some submitData) (js "task_id")) ;;
         sendEvent (status (js "任务已提交，正在生成中...")) ;;
         exit <- poll_loop MAX_POLLS 0 API_KEY taskId ;;
         match exit with
         | Returned => ret tt
         | Fallthrough =>
             sendEvent (error (js "生成超时，请重试")) ;;
             res_end
         end)
      (fun err =>
         act (ConsoleError err) ;;
         sendEvent (error (js "服务器错误: " ++ message_of describe err)) ;;
         res_end).
End Route.

(** *** The [fakeRes] shim *)

(** What is handed to [write]: a frame of the route, or a text. *)
Inductive chunk :=
| Frame (e : event)
| Text (s : jsstring).

(** What a call on [fakeRes] can throw. *)
Inductive shim_fault :=
| StatusOutOfRange     (* RangeError of [new Response]: a status outside 200..599 *)
| NullBodyStatus       (* TypeError of [new Response]: a body with 204, 205 or 304 *)
| NoWriter.            (* TypeError: [fakeRes._writer] is undefined *)

Definition null_body_status (code : N) : bool :=
  ((code =? 204) || (code =? 205) || (code =? 304))%N.

(** The statuses with which [new Response] takes a body. *)
Definition admits_body (code : N) : bool :=
  ((200 <=? code) && (code <=? 599))%N && negb (null_body_status code).

Definition has_content_type (hs : list (jsstring * jsstring)) : bool :=
  existsb (fun h => jseq (fst h) (js "content-type")) hs.

(** [new Response(body, { status, headers })] for a body that is a stream or
    a string: the constructor throws for a status outside 200..599 and for a
    body given with a status that admits none, and a string body brings its
    content type when [headers] names none. *)
Definition new_Response (b : response_body) (code : N)
    (hs : list (jsstring * jsstring)) : shim_fault + http_response :=
  if ((code <? 200) || (599 <? code))%N then inl StatusOutOfRange
  else if null_body_status code then inl NullBodyStatus
  else inr {| status_code := code;
              headers := match b with
                         | PlainText _ =>
                             if has_content_type hs then hs
                             else hs ++ [(js "content-type",
                                          js "text/plain;charset=UTF-8")]
                         | _ => hs
                         end;
              body := b |}.

Record fakeRes := {
  statusCode : N;
  res_headers : list (jsstring * jsstring); (* [headers], which only [set] fills *)
  res_body : option jsstring;          (* [body], initially null *)
  _stream : bool;                      (* has [_stream] been assigned *)
  _writer : bool;                      (* has [_writer] been assigned *)
  written : list chunk;                (* what [_writer.write] took while open *)
  _closed : bool;                      (* has [_writer.close()] been called *)
  resolved : option http_response      (* what the adapter's promise resolved with *)
}.

Definition fakeRes_new : fakeRes :=
  {| statusCode := 200%N; res_headers := []; res_body := None;
     _stream := false; _writer := false; written := []; _closed := false;
     resolved := None |}.

(** The members of the object literal: [write], [end], [set], [status]. *)
Definition fakeRes_has (m : res_method) : bool :=
  match m with
  | m_write | m_end | m_set | m_status => true
  | m_json | m_setHeader => false
  end.

(** [resolve(...)]: only the first call settles the promise. *)
Definition resolve (r : http_response) (f : fakeRes) : fakeRes :=
  {| statusCode := statusCode f; res_headers := res_headers f;
     res_body := res_body f; _stream := _stream f; _writer := _writer f;
     written := written f; _closed := _closed f;
     resolved := match resolved f with Some r0 => Some r0 | None => Some r end |}.

(** [fakeRes._stream = new TransformStream()] *)
Definition open_stream (f : fakeRes) : fakeRes :=
  {| statusCode := statusCode f; res_headers := res_headers f;
     res_body := res_body f; _stream := true; _writer := _writer f;
     written := written f; _closed := _closed f; resolved := resolved f |}.

(** [fakeRes._writer = fakeRes._stream.writable.getWriter()] *)
Definition get_writer (f : fakeRes) : fakeRes :=
  {| statusCode := statusCode f; res_headers := res_headers f;
     res_body := res_body f; _stream := _stream f; _writer := true;
     written := written f; _closed := _closed f; resolved := resolved f |}.

(** [fakeRes._writer.write(chunk)]: reading [write] off a writer that was
    never assigned throws; a writer that has been closed takes nothing more
    (its promise rejects, which nobody observes). *)
Definition writer_write (c : chunk) (f : fakeRes) : option shim_fault * fakeRes :=
  if _writer f then
    (None,
     if _closed f then f
     else {| statusCode := statusCode f; res_headers := res_headers f;
             res_body := res_body f; _stream := _stream f; _writer := true;
             written := written f ++ [c]; _closed := false;
             resolved := resolved f |})
  else (Some NoWriter, f).

(** [write(chunk)]: the stream is assigned first, the response is built and
    handed to [resolve] next, the writer is assigned last; a throw of
    [new Response] leaves the stream without a writer. *)
Definition fakeRes_write (c : chunk) (f : fakeRes) : option shim_fault * fakeRes :=
  if _stream f then writer_write c f
  else
    let f1 := open_stream f in
    match new_Response Readable (statusCode f1) (res_headers f1) with
    | inl thrown => (Some thrown, f1)
    | inr r => writer_write c (get_writer (resolve r f1))
    end.

(** [if (chunk) ...] for a chunk that is a string or is not given. *)
Definition given (chunk : option jsstring) : bool :=
  match chunk with
  | Some (_ :: _) => true
  | _ => false
  end.

(** [end(chunk)] *)
Definition fakeRes_end (chunk : option jsstring) (f : fakeRes)
  : option shim_fault * fakeRes :=
  let '(thrown, f1) :=
    match chunk with
    | Some s => if given chunk then fakeRes_write (Text s) f else (None, f)
    | None => (None, f)
    end in
  match thrown with
  | Some e => (Some e, f1)
  | None =>
      if _writer f1 then
        (None,
         {| statusCode := statusCode f1; res_headers := res_headers f1;
            res_body := res_body f1; _stream := _stream f1; _writer := true;
            written := written f1; _closed := true; resolved := resolved f1 |})
      else
        match new_Response
                (PlainText (match res_body f1 with Some b => b | None => [] end))
                (statusCode f1) (res_headers f1) with
        | inl e => (Some e, f1)
        | inr r => (None, resolve r f1)
        end
  end.

(** [status(code)] *)
Definition fakeRes_status (code : N) (f : fakeRes) : fakeRes :=
  {| statusCode := code; res_headers := res_headers f; res_body := res_body f;
     _stream := _stream f; _writer := _writer f; written := written f;
     _closed := _closed f; resolved := resolved f |}.

(** One call recorded in a trace, made on [fakeRes]: what it throws, if
    anything, and [fakeRes] afterwards.  [sendEvent] writes a frame and the
    route ends without a chunk. *)
Definition fakeRes_call (a : action) (f : fakeRes) : option shim_fault * fakeRes :=
  match a with
  | Emit e => fakeRes_write (Frame e) f
  | Close => fakeRes_end None f
  | ResStatus code => (None, fakeRes_status code f)
  | _ => (None, f)
  end.

Definition fakeRes_step (f : fakeRes) (a : action) : fakeRes :=
  snd (fakeRes_call a f).

(** The calls of a trace made on [fakeRes] one after the other; [None] when
    one of them throws. *)
Fixpoint replay (tr : trace) (f : fakeRes) : option fakeRes :=
  match tr with
  | [] => Some f
  | a :: tr' =>
      match fakeRes_call a f with
      | (None, f') => replay tr' f'
      | (Some _, _) => None
      end
  end.

(** The callback handed to the router as its third argument:
    [fakeRes.status(404).end('Not Found')]. *)
Definition not_found (f : fakeRes) : option shim_fault * fakeRes :=
  fakeRes_end (Some (js "Not Found")) (fakeRes_status 404%N f).

(** [fakeReq.body]: the proxy answers [target[prop] || undefined], and the
    [body] of a [Request] is its stream, or [null] when it has none.  The
    stream is an object without a [prompt]. *)
Definition fakeReq_body (has_body : bool) : value :=
  if has_body then Some (JObj []) else None.

(** The router is Express's.  The adapter depends on it in two respects:
    whether the route is run for the request, and what becomes of the
    promise the route returns.
    - [Bypassed]: the route is not run and the router calls its third
      argument: no layer matches the request, or a layer before the route
      fails, as the JSON body parser of Express 4 does on [fakeReq], whose
      [body] it cannot assign;
    - [Dispatched]: the route is run on [fakeReq] and [fakeRes], and the
      router calls its third argument when the promise of the route rejects,
      as Express 5 does. *)
Inductive routing := Bypassed | Dispatched.

Record outcome := {
  completion : option (result unit);   (* how the route's promise settled, if run *)
  effects : trace;                     (* the calls the route made *)
  res_after : fakeRes                  (* [fakeRes] in the end *)
}.

(** What the adapter's promise resolved with; [None]: it is unsettled. *)
Definition response (o : outcome) : option http_response := resolved (res_after o).

(** The function returned by [getRouteHandler], on a POST to
    [/api/generate].  The calls the route makes on [res] are made on
    [fakeRes]; the route is modelled with calls that return, so a run in
    which one of them throws on [fakeRes] is outside the model ([None]). *)
Definition getRouteHandler (describe : fault -> jsstring) (service : remote)
    (router : routing) (BASE_URL : jsstring) (process_env_key : option jsstring)
    (has_body : bool) : option outcome :=
  match router with
  | Bypassed =>
      Some {| completion := None; effects := [];
              res_after := snd (not_found fakeRes_new) |}
  | Dispatched =>
      let '(r, tr) := route describe service fakeRes_has BASE_URL process_env_key
                        (fakeReq_body has_body) [] in
      match replay tr fakeRes_new with
      | None => None
      | Some f =>
          Some {| completion := Some r; effects := tr;
                  res_after := match r with
                               | Throw _ => snd (not_found f)
                               | Ok _ => f
                               end |}
      end
  end.

(** [module.exports]: copies the key into [process.env], which keeps the
    text of what it is assigned ("undefined" for a key that is not
    configured), and runs the handler.  The first component is
    [process.env.MODELSCOPE_API_KEY] afterwards. *)
Definition module_exports (describe : fault -> jsstring) (service : remote)
    (router : routing) (env_key : option jsstring) (has_body : bool)
    : jsstring * option outcome :=
  let process_env := match env_key with Some k => k | None => js "undefined" end in
  let BASE_URL := js "https://api-inference.modelscope.cn/" in
  (process_env,
   getRouteHandler describe service router BASE_URL (Some process_env) has_body).

(** A response object with every method the route calls. *)
Definition full_res (m : res_method) : bool := true.

End Middleware.

Arguments js : simpl never.
Opaque js.
Arguments decimal : simpl never.
Arguments decimalN : simpl never.
Arguments trim : simpl never.

(* ================================================================== *)
(** ** Vocabulary of the specification *)

(** The status a poll reply reports: the [task_status] of its parsed body. *)
Definition task_status_of (r : result reply) : result value :=
  bind_result r (fun rp =>
  bind_result (parsed rp) (fun d => get_prop (Some d) (js "task_status"))).

(** The remote job is still pending: the reply reports a status that is
    neither of the two the handlers test for. *)
Definition is_pending (r : result reply) : bool :=
  match task_status_of r with
  | Ok st => negb (is_string st (js "SUCCEED")) && negb (is_string st (js "FAILED"))
  | Throw _ => false
  end.

(** The reply reports a terminal status. *)
Definition is_terminal_status (r : result reply) : bool :=
  match task_status_of r with
  | Ok st => is_string st (js "SUCCEED") || is_string st (js "FAILED")
  | Throw _ => false
  end.

(** The reply is an HTTP success. *)
Definition replied_ok (r : result reply) : bool :=
  match r with Ok rp => ok rp | Throw _ => false end.

(** The failure reason a poll body supplies: [error.message]. *)
Definition failure_reason (d : json) : value :=
  match get_prop (Some d) (js "error") with
  | Ok e => match get_prop_opt e (js "message") with Ok m => m | Throw _ => None end
  | Throw _ => None
  end.

(** The submit call succeeded: an HTTP success whose body parsed; the result
    is the [task_id] of that body ([Some None] when it has none). *)
Definition accepted_task (r : result reply) : option value :=
  match r with
  | Ok rp =>
      if ok rp then
        match parsed rp with
        | Ok d => match get_prop (Some d) (js "task_id") with
                  | Ok t => Some t
                  | Throw _ => None
                  end
        | Throw _ => None
        end
      else None
  | Throw _ => None
  end.

(** The image URL of a reply that carries it as [output_images[0].url],
    [output_images] being an array. *)
Definition first_image_url (r : result reply) : option json :=
  match r with
  | Ok rp =>
      match parsed rp with
      | Ok (JObj props) =>
          match lookup (js "output_images") props with
          | Some (JArr (JObj first :: _)) => lookup (js "url") first
          | _ => None
          end
      | _ => None
      end
  | Throw _ => None
  end.

(** The image URL of a reply that carries it as [output_images.url],
    [output_images] being an object. *)
Definition image_url_field (r : result reply) : option json :=
  match r with
  | Ok rp =>
      match parsed rp with
      | Ok (JObj props) =>
          match lookup (js "output_images") props with
          | Some (JObj images) => lookup (js "url") images
          | _ => None
          end
      | _ => None
      end
  | Throw _ => None
  end.

(** The parsed body of a reply, when there is one. *)
Definition body_of (r : result reply) : option json :=
  match r with
  | Ok rp => match parsed rp with Ok d => Some d | Throw _ => None end
  | Throw _ => None
  end.

(** A prompt that is missing, empty or made of white space only. *)
Definition blank_prompt (prompt : value) : bool :=
  match prompt with
  | None | Some JNull => true
  | Some (JStr s) => forallb is_white_space s
  | Some _ => false
  end.

Definition includes (needle hay : jsstring) : Prop :=
  exists before after, hay = before ++ needle ++ after.

Definition is_terminal (e : event) : bool :=
  match e with status _ => false | _ => true end.

(** [tr] continues [tr0]. *)
Definition extension (tr0 tr : trace) : Prop := exists added, tr = tr0 ++ added.

(** A piece of handler body only adds to the trace it is started on. *)
Definition appends {A} (m : M A) : Prop :=
  forall tr, extension tr (snd (m tr)).

(** A trace of a stream that is still open: nothing but status frames has
    been written and it has not been closed. *)
Definition open_action (a : action) : bool :=
  match a with
  | Close => false
  | Emit e => negb (is_terminal e)
  | _ => true
  end.

Definition running (tr : trace) : Prop := forallb open_action tr = true.

(** A trace that ended properly: one terminal frame, then the close, and
    nothing after; everything before belongs to an open stream. *)
Definition finished (tr : trace) : Prop :=
  exists pre e, tr = pre ++ [Emit e; Close] /\ running pre /\ is_terminal e = true.


(* ================================================================== *)
(** ** Shapes of the traces *)

(** The three actions of one pending iteration. *)
Definition pending_round (url authorization message : jsstring) : trace :=
  [Sleep 3000%N; Poll url authorization; Emit (status message)].

(** The pending iterations [i], [i+1], ..., [i+n-1], numbered from 1. *)
Fixpoint pending_rounds (url authorization : jsstring)
    (message : nat -> jsstring) (i n : nat) : trace :=
  match n with
  | O => []
  | S n' => pending_round url authorization (message (i + 1))
              ++ pending_rounds url authorization message (S i) n'
  end.

Module GenerateTrace.
Import Generate.
Section Shapes.
Variable API_KEY : option jsstring.

Definition poll_url (id : jsstring) := BASE_URL ++ js "v1/tasks/" ++ id.
Definition pending_message (k : nat) := js "生成中... (" ++ decimal k ++ js ")".
Definition submit_url := BASE_URL ++ js "v1/images/generations".

(** The trace up to the start of the poll loop. *)
Definition head_trace (prompt : jsstring) : trace :=
[Emit (status (js "正在提交生成任务..."));
 Submit submit_url (bearer API_KEY) model_name (trim prompt);
 Emit (status (js "任务已提交，正在生成中..."))].
End Shapes.

Definition stream_response : http_response :=
  {| status_code := 200%N; headers := sse_headers; body := Readable |}.

Definition rejection : http_response :=
  {| status_code := 400%N;
     headers := [(js "Content-Type", js "application/json")];
     body := JsonText error_body |}.
End GenerateTrace.

Module MiddlewareTrace.
Import Middleware.
Section Shapes.
Variable BASE_URL : jsstring.
Variable API_KEY : option jsstring.

Definition poll_url (id : jsstring) := BASE_URL ++ js "v1/tasks/" ++ id.
Definition pending_message (k : nat) := js "正在生成中... (" ++ decimal k ++ js ")".
Definition submit_url := BASE_URL ++ js "v1/images/generations".

Definition sse_setup : trace :=
[ResSetHeader (js "Content-Type") (js "text/event-stream");
 ResSetHeader (js "Cache-Control") (js "no-cache");
 ResSetHeader (js "Connection") (js "keep-alive")].

(** The trace up to the start of the poll loop. *)
Definition head_trace (prompt : jsstring) : trace :=
sse_setup ++
[Emit (status (js "正在提交生成任务..."));
 Submit submit_url (bearer API_KEY) model_name (trim prompt);
 Emit (status (js "任务已提交，正在生成中..."))].
End Shapes.
End MiddlewareTrace.

(* ================================================================== *)
(** ** Stream discipline *)

(** Judgements on pieces of a handler body, relative to a property [I] of the
    trace while the stream is open and a property [F] of the trace once the
    stream has been ended. *)
Section Discipline.
Variable I : trace -> Prop.
Variable F : trace -> Prop.

(** The piece keeps the stream open, whether it completes or throws. *)
Definition steady {A} (m : M A) : Prop :=
  forall tr, I tr -> I (snd (m tr)).

(** The piece ends the stream when it completes, and leaves it open when it
    throws. *)
Definition ends (m : M unit) : Prop :=
  forall tr, I tr ->
    match m tr with
    | (Ok _, tr') => F tr'
    | (Throw _, tr') => I tr'
    end.

(** A loop: it has ended the stream when it is left by [return], and leaves
    it open when it runs off its end or throws. *)
Definition loops (m : M control) : Prop :=
  forall tr, I tr ->
    match m tr with
    | (Ok Returned, tr') => F tr'
    | (Ok Fallthrough, tr') => I tr'
    | (Throw _, tr') => I tr'
    end.

(** The piece completes and ends the stream. *)
Definition closes (m : M unit) : Prop :=
  forall tr, I tr -> exists tr', m tr = (Ok tt, tr') /\ F tr'.
End Discipline.

(* ================================================================== *)
(** ** Scenarios *)

(** Concrete requests and scripted services on which the statements below
    are exercised. *)
Module Scenario.

(** The wording V8 gives the TypeErrors of the model. *)
Definition v8 (f : fault) : jsstring :=
  match f with
  | ReadOfNullish p =>
      js "Cannot read properties of undefined (reading '" ++ p ++ js "')"
  | NotAFunction c => c ++ js " is not a function"
  | NotPrimitive => js "Cannot convert object to primitive value"
  end.

Definition key : option jsstring := Some (js "ms-0000").
Definition base : jsstring := js "https://api-inference.modelscope.cn/".

Definition request (prompt : jsstring) : json := JObj [(js "prompt", JStr prompt)].

Definition answer (d : json) : reply :=
  {| ok := true; http_status := 200%N; text := Ok []; parsed := Ok d |}.

Definition submitted : reply := answer (JObj [(js "task_id", JStr (js "task-1"))]).
Definition submitted_without_id : reply := answer (JObj []).
Definition refused : reply :=
  {| ok := false; http_status := 401%N; text := Ok (js "invalid token");
     parsed := Throw (Rejected (js "Unexpected token")) |}.

Definition processing : reply :=
  answer (JObj [(js "task_status", JStr (js "PROCESSING"))]).
Definition succeeded_spelled_out : reply :=
  answer (JObj [(js "task_status", JStr (js "SUCCEEDED"))]).
Definition image : json := JStr (js "https://cdn.example/1.png").
Definition succeeded_list : reply :=
  answer (JObj [(js "task_status", JStr (js "SUCCEED"));
                (js "output_images", JArr [JObj [(js "url", image)]])]).
Definition succeeded_object : reply :=
  answer (JObj [(js "task_status", JStr (js "SUCCEED"));
                (js "output_images", JObj [(js "url", image)])]).
(** Replies that spell the success status out and carry an image. *)
Definition spelled_out_list : reply :=
  answer (JObj [(js "task_status", JStr (js "SUCCEEDED"));
                (js "output_images", JArr [JObj [(js "url", image)]])]).
Definition spelled_out_object : reply :=
  answer (JObj [(js "task_status", JStr (js "SUCCEEDED"));
                (js "output_images", JObj [(js "url", image)])]).
Definition failed_body : json :=
  JObj [(js "task_status", JStr (js "FAILED"));
        (js "error", JObj [(js "message", JStr (js "quota exceeded"))])].
Definition failed : reply := answer failed_body.
Definition unavailable : reply :=
  {| ok := false; http_status := 503%N; text := Ok (js "unavailable");
     parsed := Ok (JObj []) |}.

(** [n] pending polls, then [last] for ever. *)
Definition script (first : reply) (n : nat) (last : reply) : remote :=
  {| on_submit := Ok first;
     on_poll := fun k => if k <? n then Ok processing else Ok last |}.

(** A service that accepts the job and is unreachable afterwards. *)
Definition offline : remote :=
  {| on_submit := Ok submitted;
     on_poll := fun _ => Throw (Rejected (js "fetch failed")) |}.

End Scenario.

(* ================================================================== *)
(** ** The shim as a state machine *)

Module Shim.
Import Middleware.

(** The calls that can make [fakeRes] answer: [write] and [end]. *)
Definition answers (a : action) : bool :=
  match a with
  | Emit _ | Close => true
  | _ => false
  end.

(** [fakeRes] after the calls of a trace, made on the object literal by a
    caller that goes on when one of them throws. *)
Definition after (tr : trace) : fakeRes := fold_left fakeRes_step tr fakeRes_new.

(** The status code in force after the calls of a trace: that of the last
    [status(code)], 200 when there was none. *)
Definition status_after (tr : trace) : N :=
  fold_left (fun code a => match a with ResStatus c => c | _ => code end) tr 200%N.

End Shim.

(* ================================================================== *)
(** ** The shape of a run *)

(** How a run that passed the prompt check ends. *)
Inductive run_end :=
| SubmitThrew (err : exn)          (* thrown before the submitted status *)
| SubmitRefused (m : jsstring)     (* a submit reply that is no success *)
| Unrendered (err : exn)           (* the task id cannot be put in the URL *)
| Broke (k : nat) (err : exn)      (* thrown after the poll of iteration k *)
| Done (k : nat) (e : event)       (* iteration k wrote a last frame *)
| TimedOut.                        (* every iteration was pending *)

Definition timeout_text : jsstring := js "生成超时，请重试".

Section RunShape.
Variable setup : trace.                  (* calls made before the first frame *)
Variable logs : bool.                    (* the catch block calls console.error *)
Variable describe : fault -> jsstring.
Variables submit_url poll_url authorization prompt : jsstring.
Variable pending_message : nat -> jsstring.
Variable budget : nat.

(** The catch block. *)
Definition caught (err : exn) : trace :=
  (if logs then [ConsoleError err] else [])
  ++ [Emit (error (js "服务器错误: " ++ message_of describe err)); Close].

(** From the submitted status to the poll of iteration [k]. *)
Definition polled (k : nat) : trace :=
  [Emit (status (js "任务已提交，正在生成中..."))]
  ++ pending_rounds poll_url authorization pending_message 0 k
  ++ [Sleep 3000%N; Poll poll_url authorization].

Definition run_trace (e : run_end) : trace :=
  setup
  ++ [Emit (status (js "正在提交生成任务..."));
      Submit submit_url authorization model_name prompt]
  ++ match e with
     | SubmitThrew err => caught err
     | SubmitRefused m => [Emit (error m); Close]
     | Unrendered err =>
         [Emit (status (js "任务已提交，正在生成中...")); Sleep 3000%N] ++ caught err
     | Broke k err => polled k ++ caught err
     | Done k ev => polled k ++ [Emit ev; Close]
     | TimedOut =>
         [Emit (status (js "任务已提交，正在生成中..."))]
         ++ pending_rounds poll_url authorization pending_message 0 budget
         ++ [Emit (error timeout_text); Close]
     end.

(** The endings a run of [budget] iterations can have. *)
Definition admissible (e : run_end) : Prop :=
  match e with
  | SubmitRefused m => m <> timeout_text
  | Unrendered _ => 0 < budget
  | Broke k _ => k < budget
  | Done k ev => k < budget /\ is_terminal ev = true /\ ev <> error timeout_text
  | SubmitThrew _ | TimedOut => True
  end.
End RunShape.

(** The runs that poll do so for the task the submit call returned. *)
Definition targets (service : remote) (id : jsstring) (e : run_end) : Prop :=
  match e with
  | Broke _ _ | Done _ _ | TimedOut =>
      exists taskId, accepted_task (on_submit service) = Some taskId
                     /\ to_string_value taskId = Ok id
  | _ => True
  end.

(** The number of polls of a run with a given ending. *)
Definition polls_of (budget : nat) (e : run_end) : nat :=
  match e with
  | SubmitThrew _ | SubmitRefused _ | Unrendered _ => 0
  | Broke k _ | Done k _ => S k
  | TimedOut => budget
  end.

(** The frames of a run with a given ending. *)
Definition frames_of (describe : fault -> jsstring)
    (pending_message : nat -> jsstring) (budget : nat) (e : run_end) : list event :=
  status (js "正在提交生成任务...")
  :: match e with
     | SubmitThrew err => [error (js "服务器错误: " ++ message_of describe err)]
     | SubmitRefused m => [error m]
     | Unrendered err =>
         [status (js "任务已提交，正在生成中...");
          error (js "服务器错误: " ++ message_of describe err)]
     | Broke k err =>
         status (js "任务已提交，正在生成中...")
         :: map (fun j => status (pending_message j)) (seq 1 k)
         ++ [error (js "服务器错误: " ++ message_of describe err)]
     | Done k ev =>
         status (js "任务已提交，正在生成中...")
         :: map (fun j => status (pending_message j)) (seq 1 k) ++ [ev]
     | TimedOut =>
         status (js "任务已提交，正在生成中...")
         :: map (fun j => status (pending_message j)) (seq 1 budget)
         ++ [error timeout_text]
     end.

(** Every poll comes right after a sleep of three seconds. *)
Definition well_paced (tr : trace) : Prop :=
  forall before url auth later,
    tr = before ++ Poll url auth :: later ->
    exists before', before = before' ++ [Sleep 3000%N].

(** The same as a check that runs along the trace; [slept] tells whether the
    call before was a sleep of three seconds. *)
Fixpoint paced (slept : bool) (tr : trace) : bool :=
  match tr with
  | [] => true
  | Poll _ _ :: tr' => slept && paced false tr'
  | Sleep ms :: tr' => paced (ms =? 3000)%N tr'
  | _ :: tr' => paced false tr'
  end.

(** A remote call, or a sleep, as the handlers make them. *)
Definition addressed (submit_url poll_url authorization prompt : jsstring)
    (a : action) : Prop :=
  match a with
  | Submit url auth model p =>
      url = submit_url /\ auth = authorization /\ model = model_name /\ p = prompt
  | Poll url auth => url = poll_url /\ auth = authorization
  | Sleep ms => ms = 3000%N
  | _ => True
  end.

(** Calls on the response object only. *)
Definition is_header (a : action) : bool :=
  match a with
  | ResSetHeader _ _ => true
  | _ => false
  end.

(** What a poll loop of [n] iterations, started on [tr], comes to.  [good j]
    tells whether the reply to the loop's poll number [j] keeps it going, and
    [final j ev] that [ev] is the frame this reply is answered with.  There
    are [k] pending rounds, all on good replies, and then either the end of
    the loop, or, on a reply that is not good, a throw after the poll of the
    next iteration ([probe]: its sleep and its poll) or a last frame and the
    close. *)
Definition loop_ends (out : result control * trace) (tr : trace)
    (rounds : nat -> trace) (probe : trace) (n : nat) (good : nat -> bool)
    (final : nat -> event -> Prop) : Prop :=
  exists k,
    (forall j, j < k -> good j = true)
    /\ ((k = n /\ out = (Ok Fallthrough, tr ++ rounds k))
        \/ (k < n /\ good k = false
            /\ exists err, out = (Throw err, tr ++ rounds k ++ probe))
        \/ (k < n /\ good k = false
            /\ exists ev,
                 is_terminal ev = true /\ ev <> error timeout_text
                 /\ final k ev
                 /\ out = (Ok Returned,
                           tr ++ rounds k ++ probe ++ [Emit ev; Close]))).

(** The trace once the [try] statement around a poll loop has completed:
    after a [return] nothing is added, after the last iteration the timeout
    frame and the close, after a throw the catch block. *)
Definition settled (logs : bool) (describe : fault -> jsstring)
    (out : result control * trace) : trace :=
  match out with
  | (Ok Returned, tr) => tr
  | (Ok Fallthrough, tr) => tr ++ [Emit (error timeout_text); Close]
  | (Throw err, tr) => tr ++ caught logs describe err
  end.

(** The endings that come after at least one poll, or after all of them. *)
Definition polling_end (e : run_end) : bool :=
  match e with
  | Broke _ _ | Done _ _ | TimedOut => true
  | _ => false
  end.

(** The number of pending rounds of a run. *)
Definition rounds_of (budget : nat) (e : run_end) : nat :=
  match e with
  | Broke k _ | Done k _ => k
  | TimedOut => budget
  | _ => 0
  end.

(** The pending rounds of a run are those of the leading replies that keep
    the loop going: a run that stops at iteration [k] met a reply that does
    not. *)
Definition led_by (good : nat -> bool) (budget : nat) (e : run_end) : Prop :=
  (forall j, j < rounds_of budget e -> good j = true)
  /\ match e with
     | Broke k _ | Done k _ => good k = false
     | _ => True
     end.

(** The replies that keep the loop of [generate.js] going, and that of
    [_middleware.js], which first looks at [pollRes.ok]. *)
Definition keeps_polling (service : remote) (j : nat) : bool :=
  is_pending (on_poll service j).

Definition keeps_polling_ok (service : remote) (j : nat) : bool :=
  replied_ok (on_poll service j) && is_pending (on_poll service j).

(** Calls of [console.error]. *)
Definition is_log (a : action) : bool :=
  match a with
  | ConsoleError _ => true
  | _ => false
  end.

(** An error that is logged is reported next: what follows the call of
    [console.error] is the frame with the message of that error, and the
    close. *)
Fixpoint logs_are_reported (describe : fault -> jsstring) (tr : trace) : Prop :=
  match tr with
  | [] => True
  | ConsoleError err :: rest =>
      rest = [Emit (error (js "服务器错误: " ++ message_of describe err)); Close]
  | _ :: rest => logs_are_reported describe rest
  end.

(** The prompts the check [!prompt || !prompt.trim()] stops. *)
Definition stopped_prompt (prompt : value) : Prop :=
  falsy prompt = true
  \/ exists s, prompt = Some (JStr s) /\ forallb is_white_space s = true.

(** The last frame of a run that stops at a reply is the one this reply is
    answered with. *)
Definition judged (final : nat -> event -> Prop) (e : run_end) : Prop :=
  match e with
  | Done k ev => final k ev
  | _ => True
  end.

(** The replies the loop of [generate.js] answers with a last frame, and the
    frame: the image of a reply whose status is SUCCEED, read at
    [output_images[0].url], or the reason of one whose status is FAILED. *)
Definition generate_final (r : result reply) (ev : event) : Prop :=
  exists rp d st,
    r = Ok rp /\ parsed rp = Ok d
    /\ get_prop (Some d) (js "task_status") = Ok st
    /\ ((is_string st (js "SUCCEED") = true
         /\ exists images first url,
              get_prop (Some d) (js "output_images") = Ok images
              /\ get_first images = Ok first
              /\ get_prop first (js "url") = Ok url
              /\ ev = complete (js "生成完成！") url)
        \/ (is_string st (js "SUCCEED") = false
            /\ is_string st (js "FAILED") = true
            /\ exists reason,
                 reason_or (Some d) (js "未知原因") = Ok reason
                 /\ ev = error (js "生成失败: " ++ reason))).

(** The same for the loop of [_middleware.js]: a reply that is no HTTP
    success is answered with its status code, and the image is read at
    [output_images.url]. *)
Definition route_final (r : result reply) (ev : event) : Prop :=
  exists rp,
    r = Ok rp
    /\ ((ok rp = false
         /\ ev = error (js "轮询失败: " ++ decimalN (http_status rp)))
        \/ (ok rp = true
            /\ exists d st,
                 parsed rp = Ok d
                 /\ get_prop (Some d) (js "task_status") = Ok st
                 /\ ((is_string st (js "SUCCEED") = true
                      /\ exists images url,
                           get_prop (Some d) (js "output_images") = Ok images
                           /\ get_prop images (js "url") = Ok url
                           /\ ev = complete (js "生成完成！") url)
                     \/ (is_string st (js "SUCCEED") = false
                         /\ is_string st (js "FAILED") = true
                         /\ exists reason,
                              reason_or (Some d) (js "未知错误") = Ok reason
                              /\ ev = error (js "图片生成失败: " ++ reason))))).

(* ================================================================== *)
(** * Properties *)

(* ================================================================== *)
(** ** Basic facts *)

Lemma jseq_eq : forall s t, jseq s t = true <-> s = t.
Proof.
  induction s as [|a s IH]; destruct t as [|b t]; simpl; split; intro H;
    try reflexivity; try discriminate.
  - apply andb_true_iff in H as [Hab Hst].
    apply N.eqb_eq in Hab. apply IH in Hst. congruence.
  - injection H as -> ->. rewrite N.eqb_refl. simpl. apply IH. reflexivity.
Qed.

Lemma is_string_false : forall (v : value) lit,
  v <> Some (JStr lit) -> is_string v lit = false.
Proof.
  intros [[| | |s| |]|] lit Hne; simpl; try reflexivity.
  destruct (jseq s lit) eqn:E; [|reflexivity].
  apply jseq_eq in E. subst. congruence.
Qed.

Lemma is_string_true : forall lit, is_string (Some (JStr lit)) lit = true.
Proof. intros lit. simpl. apply jseq_eq. reflexivity. Qed.

Lemma trim_start_blank : forall s, forallb is_white_space s = true -> trim_start s = [].
Proof.
  induction s as [|c s IH]; simpl; intro H; [reflexivity|].
  apply andb_true_iff in H as [Hc Hs]. rewrite Hc. auto.
Qed.

Lemma trim_blank : forall s, forallb is_white_space s = true -> trim s = [].
Proof. intros s H. unfold trim. rewrite (trim_start_blank s H). reflexivity. Qed.

Lemma events_of_app : forall t1 t2, events_of (t1 ++ t2) = events_of t1 ++ events_of t2.
Proof.
  induction t1 as [|a t1 IH]; intro t2; simpl; [reflexivity|].
  destruct a; simpl; rewrite IH; reflexivity.
Qed.

Lemma count_polls_app : forall t1 t2, count_polls (t1 ++ t2) = count_polls t1 + count_polls t2.
Proof.
  induction t1 as [|a t1 IH]; intro t2; simpl; [reflexivity|].
  destruct a; simpl; rewrite IH; reflexivity.
Qed.

Lemma running_app : forall t1 t2, running (t1 ++ t2) <-> running t1 /\ running t2.
Proof.
  intros t1 t2. unfold running. rewrite forallb_app. apply andb_true_iff.
Qed.

Lemma running_snoc : forall tr a, running tr -> open_action a = true -> running (tr ++ [a]).
Proof.
  intros tr a Htr Ha. apply running_app. split; [assumption|].
  unfold running. simpl. rewrite Ha. reflexivity.
Qed.

Lemma finished_snoc2 : forall tr e,
  running tr -> is_terminal e = true -> finished ((tr ++ [Emit e]) ++ [Close]).
Proof.
  intros tr e Htr He. exists tr, e. rewrite <- app_assoc. simpl. auto.
Qed.

Lemma blank_prompt_rejected : forall prompt,
  blank_prompt prompt = true -> prompt_rejected prompt = Ok true.
Proof.
  intros [[| | |s| |]|] H; simpl in H; try discriminate; try reflexivity.
  unfold prompt_rejected. simpl. destruct s as [|c s]; [reflexivity|].
  simpl. rewrite (trim_blank (c :: s) H). reflexivity.
Qed.

Lemma usable_prompt_accepted : forall s,
  trim s <> [] -> prompt_rejected (Some (JStr s)) = Ok false.
Proof.
  intros s H. unfold prompt_rejected. simpl.
  destruct s as [|c s]; [exfalso; apply H; reflexivity|]. simpl.
  destruct (trim (c :: s)); [congruence|reflexivity].
Qed.

(* ================================================================== *)
(** ** Running the handlers symbolically *)

Lemma is_pending_inv : forall r,
  is_pending r = true ->
  exists rp d st, r = Ok rp /\ parsed rp = Ok d
    /\ get_prop (Some d) (js "task_status") = Ok st
    /\ is_string st (js "SUCCEED") = false /\ is_string st (js "FAILED") = false.
Proof.
  intros [rp|e]; unfold is_pending, task_status_of; cbn [bind_result];
    [|discriminate].
  destruct (parsed rp) as [d|e] eqn:Hd; cbn [bind_result]; [|discriminate].
  destruct (get_prop (Some d) (js "task_status")) as [st|e] eqn:Hst;
    [|discriminate].
  intro H. apply andb_true_iff in H as [H1 H2].
  apply negb_true_iff in H1, H2.
  exists rp, d, st. repeat split; assumption || reflexivity.
Qed.

Lemma failed_is_not_succeed :
  is_string (Some (JStr (js "FAILED"))) (js "SUCCEED") = false.
Proof. vm_compute. reflexivity. Qed.

(** Equations that run one operation of a body on a trace. *)
Lemma run_ret : forall A B (a : A) (k : A -> M B) tr, bind (ret a) k tr = k a tr.
Proof. reflexivity. Qed.

Lemma run_act : forall B a (k : unit -> M B) tr, bind (act a) k tr = k tt (tr ++ [a]).
Proof. reflexivity. Qed.

Lemma run_lift_ok : forall A B (a : A) (k : A -> M B) tr, bind (lift (Ok a)) k tr = k a tr.
Proof. reflexivity. Qed.

Lemma run_lift_throw : forall A B e (k : A -> M B) tr,
  bind (lift (Throw e)) k tr = (Throw e, tr).
Proof. reflexivity. Qed.

Lemma run_fetch_poll : forall B service url auth (k : reply -> M B) tr,
  bind (fetch_poll service url auth) k tr
  = match on_poll service (count_polls tr) with
    | Ok rp => k rp (tr ++ [Poll url auth])
    | Throw e => (Throw e, tr ++ [Poll url auth])
    end.
Proof. reflexivity. Qed.

Lemma run_fetch_submit : forall B service url auth prompt (k : reply -> M B) tr,
  bind (fetch_submit service url auth prompt) k tr
  = match on_submit service with
    | Ok rp => k rp (tr ++ [Submit url auth model_name prompt])
    | Throw e => (Throw e, tr ++ [Submit url auth model_name prompt])
    end.
Proof. reflexivity. Qed.

Ltac run_step :=
  first [ rewrite run_ret | rewrite run_act | rewrite run_lift_ok
        | rewrite run_lift_throw | rewrite run_fetch_poll
        | rewrite run_fetch_submit
        | match goal with H : _ = _ |- _ => rewrite H end ].

Ltac run := repeat run_step.

Lemma events_of_pending_rounds : forall url auth message n i,
  events_of (pending_rounds url auth message i n)
  = map (fun k => status (message k)) (seq (i + 1) n).
Proof.
  induction n as [|n IH]; intro i; simpl; [reflexivity|].
  rewrite IH. replace (S i + 1) with (S (i + 1)) by lia. reflexivity.
Qed.

Lemma count_polls_pending_rounds : forall url auth message n i,
  count_polls (pending_rounds url auth message i n) = n.
Proof. induction n as [|n IH]; intro i; simpl; [reflexivity|]. rewrite IH. reflexivity. Qed.

Module GenerateFacts.
Import Generate GenerateTrace.
Section Facts.
Variable service : remote.
Variable API_KEY : option jsstring.

Lemma edge_pending_step : forall n i taskId id tr rp d st,
  to_string_value taskId = Ok id ->
  on_poll service (count_polls tr) = Ok rp ->
  parsed rp = Ok d ->
  get_prop (Some d) (js "task_status") = Ok st ->
  is_string st (js "SUCCEED") = false ->
  is_string st (js "FAILED") = false ->
  poll_loop service API_KEY (S n) i taskId tr
  = poll_loop service API_KEY n (S i) taskId
      (tr ++ pending_round (poll_url id) (bearer API_KEY) (pending_message (i + 1))).
Proof.
  intros n i taskId id tr rp d st Hid Hpoll Hparsed Hst Hs Hf.
  cbn [poll_loop]. unfold sendEvent. run.
  rewrite count_polls_app, Nat.add_0_r. run.
  unfold pending_round, poll_url, pending_message.
  rewrite <- !app_assoc. reflexivity.
Qed.

Lemma edge_pending_run : forall N n i taskId id tr,
  to_string_value taskId = Ok id ->
  (forall k, k < N -> is_pending (on_poll service (count_polls tr + k)) = true) ->
  poll_loop service API_KEY (N + n) i taskId tr
  = poll_loop service API_KEY n (i + N) taskId
      (tr ++ pending_rounds (poll_url id) (bearer API_KEY) pending_message i N).
Proof.
  induction N as [|N IH]; intros n i taskId id tr Hid Hpend.
  - simpl. rewrite app_nil_r, Nat.add_0_r. reflexivity.
  - destruct (is_pending_inv _ (Hpend 0 ltac:(lia)))
      as (rp & d & st & Hrp & Hd & Hst & Hs & Hf).
    rewrite Nat.add_0_r in Hrp.
    change (S N + n) with (S (N + n)).
    rewrite (edge_pending_step _ i _ tr Hid Hrp Hd Hst Hs Hf).
    rewrite (IH n (S i) taskId id _ Hid).
    + cbn [pending_rounds]. rewrite <- app_assoc.
      replace (S i + N) with (i + S N) by lia. reflexivity.
    + intros k Hk. rewrite count_polls_app. cbn [pending_round count_polls].
      replace (count_polls tr + 1 + k) with (count_polls tr + S k) by lia.
      apply Hpend. lia.
Qed.

Lemma edge_succeed_step : forall n i taskId id tr rp d images first url,
  to_string_value taskId = Ok id ->
  on_poll service (count_polls tr) = Ok rp ->
  parsed rp = Ok d ->
  get_prop (Some d) (js "task_status") = Ok (Some (JStr (js "SUCCEED"))) ->
  get_prop (Some d) (js "output_images") = Ok images ->
  get_first images = Ok first ->
  get_prop first (js "url") = Ok url ->
  poll_loop service API_KEY (S n) i taskId tr
  = (Ok Returned,
     tr ++ [Sleep 3000%N; Poll (poll_url id) (bearer API_KEY);
            Emit (complete (js "生成完成！") url); Close]).
Proof.
  intros n i taskId id tr rp d images first url Hid Hpoll Hd Hst Himg Hfirst Hurl.
  cbn [poll_loop]. unfold sendEvent. run.
  rewrite count_polls_app, Nat.add_0_r. run.
  rewrite is_string_true. run.
  unfold ret, poll_url. rewrite <- !app_assoc. reflexivity.
Qed.

Lemma edge_failed_step : forall n i taskId id tr rp d,
  to_string_value taskId = Ok id ->
  on_poll service (count_polls tr) = Ok rp ->
  parsed rp = Ok d ->
  get_prop (Some d) (js "task_status") = Ok (Some (JStr (js "FAILED"))) ->
  poll_loop service API_KEY (S n) i taskId tr
  = match reason_or (Some d) (js "未知原因") with
    | Ok reason =>
        (Ok Returned,
         tr ++ [Sleep 3000%N; Poll (poll_url id) (bearer API_KEY);
                Emit (error (js "生成失败: " ++ reason)); Close])
    | Throw e =>
        (Throw e, tr ++ [Sleep 3000%N; Poll (poll_url id) (bearer API_KEY)])
    end.
Proof.
  intros n i taskId id tr rp d Hid Hpoll Hd Hst.
  cbn [poll_loop]. unfold sendEvent. run.
  rewrite count_polls_app, Nat.add_0_r. run.
  rewrite failed_is_not_succeed, is_string_true.
  destruct (reason_or (Some d) (js "未知原因")) as [reason|e]; run;
    unfold ret, poll_url; rewrite <- !app_assoc; reflexivity.
Qed.

Variable describe : fault -> jsstring.

Lemma task_polling : forall s rp d taskId,
  on_submit service = Ok rp -> ok rp = true -> parsed rp = Ok d ->
  get_prop (Some d) (js "task_id") = Ok taskId ->
  task describe service API_KEY (Some (JStr s)) []
  = match poll_loop service API_KEY MAX_POLLS 0 taskId (head_trace API_KEY s) with
    | (Ok Returned, tr) => (Ok tt, tr)
    | (Ok Fallthrough, tr) =>
        (Ok tt, (tr ++ [Emit (error (js "生成超时，请重试"))]) ++ [Close])
    | (Throw e, tr) =>
        (Ok tt, (tr ++ [Emit (error (js "服务器错误: " ++ message_of describe e))])
                  ++ [Close])
    end.
Proof.
  intros s rp d taskId Hsub Hok Hd Htid.
  unfold task, try_catch, sendEvent. generalize MAX_POLLS as budget.
  intro budget. cbn [call_trim]. run. cbn [negb]. run.
  unfold bind at 1. cbn [app]. fold submit_url. fold (head_trace API_KEY s).
  destruct (poll_loop service API_KEY budget 0 taskId (head_trace API_KEY s))
    as [[[|]|e] tr]; reflexivity.
Qed.

Lemma onRequestPost_accepts : forall body s,
  get_prop (Some body) (js "prompt") = Ok (Some (JStr s)) ->
  trim s <> [] ->
  onRequestPost describe service API_KEY (Ok body) []
  = (Ok stream_response,
     snd (task describe service API_KEY (Some (JStr s)) [])).
Proof.
  intros body s Hprompt Htrim. unfold onRequestPost. run.
  rewrite (usable_prompt_accepted s Htrim). run. reflexivity.
Qed.

Lemma onRequestPost_rejects : forall body prompt,
  get_prop (Some body) (js "prompt") = Ok prompt ->
  blank_prompt prompt = true ->
  onRequestPost describe service API_KEY (Ok body) [] = (Ok rejection, []).
Proof.
  intros body prompt Hprompt Hblank. unfold onRequestPost. run.
  rewrite (blank_prompt_rejected _ Hblank). run. reflexivity.
Qed.
End Facts.
End GenerateFacts.

Module MiddlewareFacts.
Import Middleware MiddlewareTrace.
Section Facts.
Variable describe : fault -> jsstring.
Variable service : remote.
Variable has : res_method -> bool.
Variable BASE_URL : jsstring.
Variable API_KEY : option jsstring.
Hypothesis has_setHeader : has m_setHeader = true.
Hypothesis has_write : has m_write = true.
Hypothesis has_end : has m_end = true.

Lemma is_polled_inv : forall r,
  replied_ok r && is_pending r = true ->
  exists rp d st, r = Ok rp /\ ok rp = true /\ parsed rp = Ok d
    /\ get_prop (Some d) (js "task_status") = Ok st
    /\ is_string st (js "SUCCEED") = false /\ is_string st (js "FAILED") = false.
Proof.
  intros r H. apply andb_true_iff in H as [Hok Hpend].
  destruct (is_pending_inv _ Hpend) as (rp & d & st & -> & Hd & Hst & Hs & Hf).
  exists rp, d, st. repeat split; assumption.
Qed.

Lemma route_pending_step : forall n i taskId id tr rp d st,
  to_string_value taskId = Ok id ->
  on_poll service (count_polls tr) = Ok rp ->
  ok rp = true ->
  parsed rp = Ok d ->
  get_prop (Some d) (js "task_status") = Ok st ->
  is_string st (js "SUCCEED") = false ->
  is_string st (js "FAILED") = false ->
  poll_loop service has BASE_URL (S n) i API_KEY taskId tr
  = poll_loop service has BASE_URL n (S i) API_KEY taskId
      (tr ++ pending_round (poll_url BASE_URL id) (bearer API_KEY) (pending_message (i + 1))).
Proof.
  intros n i taskId id tr rp d st Hid Hpoll Hok Hparsed Hst Hs Hf.
  cbn [poll_loop]. unfold sendEvent, sleep. run.
  rewrite count_polls_app, Nat.add_0_r. run. cbn [negb]. run.
  unfold pending_round, poll_url, pending_message.
  rewrite <- !app_assoc. reflexivity.
Qed.

Lemma route_pending_run : forall N n i taskId id tr,
  to_string_value taskId = Ok id ->
  (forall k, k < N ->
     replied_ok (on_poll service (count_polls tr + k))
     && is_pending (on_poll service (count_polls tr + k)) = true) ->
  poll_loop service has BASE_URL (N + n) i API_KEY taskId tr
  = poll_loop service has BASE_URL n (i + N) API_KEY taskId
      (tr ++ pending_rounds (poll_url BASE_URL id) (bearer API_KEY) pending_message i N).
Proof.
  induction N as [|N IH]; intros n i taskId id tr Hid Hpend.
  - simpl. rewrite app_nil_r, Nat.add_0_r. reflexivity.
  - destruct (is_polled_inv _ (Hpend 0 ltac:(lia)))
      as (rp & d & st & Hrp & Hok & Hd & Hst & Hs & Hf).
    rewrite Nat.add_0_r in Hrp.
    change (S N + n) with (S (N + n)).
    rewrite (route_pending_step _ i _ tr Hid Hrp Hok Hd Hst Hs Hf).
    rewrite (IH n (S i) taskId id _ Hid).
    + cbn [pending_rounds]. rewrite <- app_assoc.
      replace (S i + N) with (i + S N) by lia. reflexivity.
    + intros k Hk. rewrite count_polls_app. cbn [pending_round count_polls].
      replace (count_polls tr + 1 + k) with (count_polls tr + S k) by lia.
      apply Hpend. lia.
Qed.

Lemma route_succeed_step : forall n i taskId id tr rp d images url,
  to_string_value taskId = Ok id ->
  on_poll service (count_polls tr) = Ok rp ->
  ok rp = true ->
  parsed rp = Ok d ->
  get_prop (Some d) (js "task_status") = Ok (Some (JStr (js "SUCCEED"))) ->
  get_prop (Some d) (js "output_images") = Ok images ->
  get_prop images (js "url") = Ok url ->
  poll_loop service has BASE_URL (S n) i API_KEY taskId tr
  = (Ok Returned,
     tr ++ [Sleep 3000%N; Poll (poll_url BASE_URL id) (bearer API_KEY);
            Emit (complete (js "生成完成！") url); Close]).
Proof.
  intros n i taskId id tr rp d images url Hid Hpoll Hok Hd Hst Himg Hurl.
  cbn [poll_loop]. unfold sendEvent, sleep, res_end, res_call. run.
  rewrite count_polls_app, Nat.add_0_r. run. cbn [negb]. run.
  rewrite is_string_true. run.
  unfold ret, poll_url. rewrite <- !app_assoc. reflexivity.
Qed.

Lemma route_failed_step : forall n i taskId id tr rp d,
  to_string_value taskId = Ok id ->
  on_poll service (count_polls tr) = Ok rp ->
  ok rp = true ->
  parsed rp = Ok d ->
  get_prop (Some d) (js "task_status") = Ok (Some (JStr (js "FAILED"))) ->
  poll_loop service has BASE_URL (S n) i API_KEY taskId tr
  = match reason_or (Some d) (js "未知错误") with
    | Ok reason =>
        (Ok Returned,
         tr ++ [Sleep 3000%N; Poll (poll_url BASE_URL id) (bearer API_KEY);
                Emit (error (js "图片生成失败: " ++ reason)); Close])
    | Throw e =>
        (Throw e, tr ++ [Sleep 3000%N; Poll (poll_url BASE_URL id) (bearer API_KEY)])
    end.
Proof.
  intros n i taskId id tr rp d Hid Hpoll Hok Hd Hst.
  cbn [poll_loop]. unfold sendEvent, sleep, res_end, res_call. run.
  rewrite count_polls_app, Nat.add_0_r. run. cbn [negb]. run.
  rewrite failed_is_not_succeed, is_string_true.
  destruct (reason_or (Some d) (js "未知错误")) as [reason|e]; run;
    unfold ret, poll_url; rewrite <- !app_assoc; reflexivity.
Qed.

(** The guard of the route: a poll reply that is not an HTTP success ends
    the request, whatever its body says. *)
Lemma route_not_ok_step : forall n i taskId id tr rp,
  to_string_value taskId = Ok id ->
  on_poll service (count_polls tr) = Ok rp ->
  ok rp = false ->
  poll_loop service has BASE_URL (S n) i API_KEY taskId tr
  = (Ok Returned,
     tr ++ [Sleep 3000%N; Poll (poll_url BASE_URL id) (bearer API_KEY);
            Emit (error (js "轮询失败: " ++ decimalN (http_status rp))); Close]).
Proof.
  intros n i taskId id tr rp Hid Hpoll Hok.
  cbn [poll_loop]. unfold sendEvent, sleep, res_end, res_call. run.
  rewrite count_polls_app, Nat.add_0_r. run. cbn [negb]. run.
  unfold ret, poll_url. rewrite <- !app_assoc. reflexivity.
Qed.

Lemma route_polling : forall req_body s rp d taskId,
  get_prop req_body (js "prompt") = Ok (Some (JStr s)) ->
  trim s <> [] ->
  on_submit service = Ok rp -> ok rp = true -> parsed rp = Ok d ->
  get_prop (Some d) (js "task_id") = Ok taskId ->
  route describe service has BASE_URL API_KEY req_body []
  = match poll_loop service has BASE_URL MAX_POLLS 0 API_KEY taskId (head_trace BASE_URL API_KEY s) with
    | (Ok Returned, tr) => (Ok tt, tr)
    | (Ok Fallthrough, tr) =>
        (Ok tt, (tr ++ [Emit (error (js "生成超时，请重试"))]) ++ [Close])
    | (Throw e, tr) =>
        (Ok tt, ((tr ++ [ConsoleError e])
                   ++ [Emit (error (js "服务器错误: " ++ message_of describe e))])
                  ++ [Close])
    end.
Proof.
  intros req_body s rp d taskId Hprompt Htrim Hsub Hok Hd Htid.
  unfold route, try_catch, sendEvent, res_end, res_call.
  generalize MAX_POLLS as budget. intro budget. run.
  rewrite (usable_prompt_accepted s Htrim). run.
  cbn [call_trim]. run. cbn [negb]. run.
  unfold bind at 1. cbn [app]. fold (submit_url BASE_URL).
  change ([ResSetHeader (js "Content-Type") (js "text/event-stream");
           ResSetHeader (js "Cache-Control") (js "no-cache");
           ResSetHeader (js "Connection") (js "keep-alive");
           Emit (status (js "正在提交生成任务..."));
           Submit (submit_url BASE_URL) (bearer API_KEY) model_name (trim s);
           Emit (status (js "任务已提交，正在生成中..."))])
    with (head_trace BASE_URL API_KEY s).
  destruct (poll_loop service has BASE_URL budget 0 API_KEY taskId (head_trace BASE_URL API_KEY s))
    as [[[|]|e] tr]; run; reflexivity.
Qed.

(** Whatever the shape of [res], a blank prompt leads to no remote call. *)
Lemma route_rejects : forall req_body prompt,
  get_prop req_body (js "prompt") = Ok prompt ->
  blank_prompt prompt = true ->
  route describe service has BASE_URL API_KEY req_body []
  = (res_call has m_status (ResStatus 400%N) ;;
     res_call has m_json (ResJson error_body)) [].
Proof.
  intros req_body prompt Hprompt Hblank. unfold route. run.
  rewrite (blank_prompt_rejected _ Hblank). run. reflexivity.
Qed.
End Facts.
End MiddlewareFacts.

(* ================================================================== *)
(** ** Reading the hypotheses *)

Lemma accepted_task_inv : forall r taskId,
  accepted_task r = Some taskId ->
  exists rp d, r = Ok rp /\ ok rp = true /\ parsed rp = Ok d
    /\ get_prop (Some d) (js "task_id") = Ok taskId.
Proof.
  intros [rp|e] taskId; unfold accepted_task; [|discriminate].
  destruct (ok rp) eqn:Hok; [|discriminate].
  destruct (parsed rp) as [d|e] eqn:Hd; [|discriminate].
  destruct (get_prop (Some d) (js "task_id")) as [t|e] eqn:Ht; [|discriminate].
  intro H. injection H as <-. exists rp, d. auto.
Qed.

Lemma task_status_of_inv : forall r st,
  task_status_of r = Ok st ->
  exists rp d, r = Ok rp /\ parsed rp = Ok d
    /\ get_prop (Some d) (js "task_status") = Ok st.
Proof.
  intros [rp|e] st; unfold task_status_of; cbn [bind_result]; [|discriminate].
  destruct (parsed rp) as [d|e] eqn:Hd; cbn [bind_result]; [|discriminate].
  intro H. exists rp, d. auto.
Qed.

Lemma first_image_url_inv : forall rp d u,
  parsed rp = Ok d -> first_image_url (Ok rp) = Some u ->
  exists images first,
    get_prop (Some d) (js "output_images") = Ok images
    /\ get_first images = Ok first
    /\ get_prop first (js "url") = Ok (Some u).
Proof.
  intros rp d u Hd. unfold first_image_url. rewrite Hd.
  destruct d as [| | | | |props]; try discriminate.
  destruct (lookup (js "output_images") props) as [[| | | |items|]|] eqn:Hi;
    try discriminate.
  destruct items as [|[| | | | |first] rest]; try discriminate.
  intro Hu. exists (Some (JArr (JObj first :: rest))), (Some (JObj first)).
  cbn [get_prop get_first nth_error]. rewrite Hi, Hu. auto.
Qed.

Lemma image_url_field_inv : forall rp d u,
  parsed rp = Ok d -> image_url_field (Ok rp) = Some u ->
  exists images,
    get_prop (Some d) (js "output_images") = Ok images
    /\ get_prop images (js "url") = Ok (Some u).
Proof.
  intros rp d u Hd. unfold image_url_field. rewrite Hd.
  destruct d as [| | | | |props]; try discriminate.
  destruct (lookup (js "output_images") props) as [[| | | | |images]|] eqn:Hi;
    try discriminate.
  intro Hu. exists (Some (JObj images)).
  cbn [get_prop]. rewrite Hi, Hu. auto.
Qed.

Lemma count_polls_generate_head : forall API_KEY s,
  count_polls (GenerateTrace.head_trace API_KEY s) = 0.
Proof. reflexivity. Qed.

Lemma count_polls_middleware_head : forall BASE_URL API_KEY s,
  count_polls (MiddlewareTrace.head_trace BASE_URL API_KEY s) = 0.
Proof. reflexivity. Qed.

(** After [N] pending polls the edge task stands at iteration [N] of its
    loop, with the head of the trace and [N] pending rounds behind it. *)
Lemma generate_after_pending :
  forall describe service API_KEY s taskId id N,
    accepted_task (on_submit service) = Some taskId ->
    to_string_value taskId = Ok id ->
    N <= Generate.MAX_POLLS ->
    (forall k, k < N -> is_pending (on_poll service k) = true) ->
    Generate.task describe service API_KEY (Some (JStr s)) []
    = match Generate.poll_loop service API_KEY (Generate.MAX_POLLS - N) N taskId
              (GenerateTrace.head_trace API_KEY s
               ++ pending_rounds (GenerateTrace.poll_url id) (bearer API_KEY)
                    GenerateTrace.pending_message 0 N) with
      | (Ok Returned, tr) => (Ok tt, tr)
      | (Ok Fallthrough, tr) =>
          (Ok tt, (tr ++ [Emit (error (js "生成超时，请重试"))]) ++ [Close])
      | (Throw e, tr) =>
          (Ok tt, (tr ++ [Emit (error (js "服务器错误: " ++ message_of describe e))])
                    ++ [Close])
      end.
Proof.
  intros describe service API_KEY s taskId id N Hacc Hid HN Hpend.
  destruct (accepted_task_inv _ Hacc) as (rp & d & Hsub & Hok & Hd & Htid).
  rewrite (@GenerateFacts.task_polling service API_KEY describe s rp d taskId
             Hsub Hok Hd Htid).
  replace Generate.MAX_POLLS with (N + (Generate.MAX_POLLS - N)) at 1 by lia.
  rewrite (@GenerateFacts.edge_pending_run service API_KEY N
             (Generate.MAX_POLLS - N) 0 taskId id _ Hid).
  - reflexivity.
  - intros k Hk. rewrite count_polls_generate_head. apply Hpend, Hk.
Qed.

(** The same for the Express route, whose polls must also be HTTP successes. *)
Lemma middleware_after_pending :
  forall describe service has BASE_URL API_KEY body s taskId id N,
    has Middleware.m_setHeader = true ->
    has Middleware.m_write = true ->
    has Middleware.m_end = true ->
    get_prop body (js "prompt") = Ok (Some (JStr s)) ->
    trim s <> [] ->
    accepted_task (on_submit service) = Some taskId ->
    to_string_value taskId = Ok id ->
    N <= Middleware.MAX_POLLS ->
    (forall k, k < N ->
       replied_ok (on_poll service k) && is_pending (on_poll service k) = true) ->
    Middleware.route describe service has BASE_URL API_KEY body []
    = match Middleware.poll_loop service has BASE_URL (Middleware.MAX_POLLS - N) N
              API_KEY taskId
              (MiddlewareTrace.head_trace BASE_URL API_KEY s
               ++ pending_rounds (MiddlewareTrace.poll_url BASE_URL id)
                    (bearer API_KEY) MiddlewareTrace.pending_message 0 N) with
      | (Ok Returned, tr) => (Ok tt, tr)
      | (Ok Fallthrough, tr) =>
          (Ok tt, (tr ++ [Emit (error (js "生成超时，请重试"))]) ++ [Close])
      | (Throw e, tr) =>
          (Ok tt, ((tr ++ [ConsoleError e])
                     ++ [Emit (error (js "服务器错误: " ++ message_of describe e))])
                    ++ [Close])
      end.
Proof.
  intros describe service has BASE_URL API_KEY body s taskId id N
         Hset Hwrite Hend Hprompt Htrim Hacc Hid HN Hpend.
  destruct (accepted_task_inv _ Hacc) as (rp & d & Hsub & Hok & Hd & Htid).
  erewrite MiddlewareFacts.route_polling; eauto.
  replace Middleware.MAX_POLLS with (N + (Middleware.MAX_POLLS - N)) at 1 by lia.
  erewrite MiddlewareFacts.route_pending_run; eauto.
Qed.

Lemma is_empty_false : forall s : jsstring, is_empty s = false -> s <> [].
Proof. intros [|c s] H; [discriminate|congruence]. Qed.

Lemma last_two : forall (tr : trace) a b c d,
  exists pre, tr ++ [a; b; c; d] = pre ++ [c; d].
Proof.
  intros tr a b c d. exists (tr ++ [a; b]). rewrite <- app_assoc. reflexivity.
Qed.

(* ================================================================== *)
(** ** The handlers only add to the trace *)

Lemma appends_ret : forall A (a : A), appends (ret a).
Proof. intros A a tr. exists []. cbn. rewrite app_nil_r. reflexivity. Qed.

Lemma appends_lift : forall A (r : result A), appends (lift r).
Proof. intros A r tr. exists []. cbn. rewrite app_nil_r. reflexivity. Qed.

Lemma appends_act : forall a, appends (act a).
Proof. intros a tr. exists [a]. reflexivity. Qed.

Lemma appends_fetch_poll : forall service url auth,
  appends (fetch_poll service url auth).
Proof. intros service url auth tr. exists [Poll url auth]. reflexivity. Qed.

Lemma appends_fetch_submit : forall service url auth prompt,
  appends (fetch_submit service url auth prompt).
Proof.
  intros service url auth prompt tr.
  exists [Submit url auth model_name prompt]. reflexivity.
Qed.

Lemma appends_bind : forall A B (m : M A) (k : A -> M B),
  appends m -> (forall a, appends (k a)) -> appends (bind m k).
Proof.
  intros A B m k Hm Hk tr. unfold bind.
  destruct (Hm tr) as [added Hadded].
  destruct (m tr) as [[a|e] tr1]; cbn [snd] in *; subst tr1.
  - destruct (Hk a (tr ++ added)) as [more Hmore].
    exists (added ++ more). rewrite Hmore, app_assoc. reflexivity.
  - exists added. reflexivity.
Qed.

(** One rule, chosen by the shape of the piece at hand. *)
Ltac appending_step :=
  lazymatch goal with
  | |- appends (bind _ _) => apply appends_bind; [|intro]
  | |- appends (ret _) => apply appends_ret
  | |- appends (lift _) => apply appends_lift
  | |- appends (act _) => apply appends_act
  | |- appends (fetch_poll _ _ _) => apply appends_fetch_poll
  | |- appends (fetch_submit _ _ _ _) => apply appends_fetch_submit
  | |- appends (if ?c then _ else _) => destruct c
  | |- appends (match ?x with _ => _ end) => destruct x
  end.

Lemma generate_poll_loop_appends : forall service API_KEY n i taskId,
  appends (Generate.poll_loop service API_KEY n i taskId).
Proof.
  intros service API_KEY. induction n as [|n IH]; intros i taskId.
  - apply appends_ret.
  - cbn [Generate.poll_loop]. unfold Generate.sendEvent.
    repeat first [apply IH | appending_step].
Qed.

Lemma middleware_poll_loop_appends : forall service has BASE_URL n i API_KEY taskId,
  appends (Middleware.poll_loop service has BASE_URL n i API_KEY taskId).
Proof.
  intros service has BASE_URL. induction n as [|n IH]; intros i API_KEY taskId.
  - apply appends_ret.
  - cbn [Middleware.poll_loop].
    unfold Middleware.sendEvent, Middleware.res_end, Middleware.res_call,
      Middleware.sleep.
    repeat first [apply IH | appending_step].
Qed.

(** An iteration whose task id renders sleeps and polls before anything
    else. *)
Lemma generate_iteration_polls : forall service API_KEY n i taskId id tr,
  to_string_value taskId = Ok id ->
  extension (tr ++ [Sleep 3000%N;
                    Poll (Generate.BASE_URL ++ js "v1/tasks/" ++ id)
                      (bearer API_KEY)])
    (snd (Generate.poll_loop service API_KEY (S n) i taskId tr)).
Proof.
  intros service API_KEY n i taskId id tr Hid.
  pose proof (generate_poll_loop_appends service API_KEY n) as Hloop.
  cbn [Generate.poll_loop]. unfold Generate.sendEvent. run.
  replace (tr ++ [Sleep 3000%N;
                  Poll (Generate.BASE_URL ++ js "v1/tasks/" ++ id) (bearer API_KEY)])
    with ((tr ++ [Sleep 3000%N])
          ++ [Poll (Generate.BASE_URL ++ js "v1/tasks/" ++ id) (bearer API_KEY)])
    by (rewrite <- app_assoc; reflexivity).
  destruct (on_poll service (count_polls (tr ++ [Sleep 3000%N]))) as [rp|e].
  - match goal with
    | |- extension ?t (snd (?m ?t)) => enough (Hm : appends m) by exact (Hm t)
    end.
    repeat first [apply Hloop | appending_step].
  - exists []. cbn. rewrite app_nil_r. reflexivity.
Qed.

Lemma middleware_iteration_polls :
  forall service has BASE_URL API_KEY n i taskId id tr,
    to_string_value taskId = Ok id ->
    extension (tr ++ [Sleep 3000%N;
                      Poll (BASE_URL ++ js "v1/tasks/" ++ id) (bearer API_KEY)])
      (snd (Middleware.poll_loop service has BASE_URL (S n) i API_KEY taskId tr)).
Proof.
  intros service has BASE_URL API_KEY n i taskId id tr Hid.
  pose proof (middleware_poll_loop_appends service has BASE_URL n) as Hloop.
  cbn [Middleware.poll_loop].
  unfold Middleware.sendEvent, Middleware.res_end, Middleware.res_call,
    Middleware.sleep.
  rewrite run_act, Hid, run_lift_ok, run_fetch_poll.
  replace (tr ++ [Sleep 3000%N;
                  Poll (BASE_URL ++ js "v1/tasks/" ++ id) (bearer API_KEY)])
    with ((tr ++ [Sleep 3000%N])
          ++ [Poll (BASE_URL ++ js "v1/tasks/" ++ id) (bearer API_KEY)])
    by (rewrite <- app_assoc; reflexivity).
  destruct (on_poll service (count_polls (tr ++ [Sleep 3000%N]))) as [rp|e].
  - match goal with
    | |- extension ?t (snd (?m ?t)) => enough (Hm : appends m) by exact (Hm t)
    end.
    repeat first [apply Hloop | appending_step].
  - exists []. cbn. rewrite app_nil_r. reflexivity.
Qed.

(* ================================================================== *)
(** ** The relay's contract *)

(** C1, as the code has it.  When the submit call succeeds with a task
    identifier and the polls report a pending status [N] times ([N] below the
    budget) and then the status SUCCEED, the literal the handlers test for,
    together with an image URL, the frames are, in order: the submission
    status, the submitted status, [N] pending statuses numbered from 1, and
    one complete frame carrying that URL; the close follows and nothing comes
    after it.
    The edge handler reads the URL at [output_images[0].url], the Express
    route at [output_images.url], and the route only looks at polls that are
    HTTP successes. *)
Theorem pending_then_succeeded_sequence :
  forall describe service API_KEY (body : json) s tid N u,
    get_prop (Some body) (js "prompt") = Ok (Some (JStr s)) ->
    is_empty (trim s) = false ->
    accepted_task (on_submit service) = Some (Some (JStr tid)) ->
    (forall k, k < N -> is_pending (on_poll service k) = true) ->
    task_status_of (on_poll service N) = Ok (Some (JStr (js "SUCCEED"))) ->
    (N < Generate.MAX_POLLS ->
     first_image_url (on_poll service N) = Some u ->
     let tr := snd (Generate.onRequestPost describe service API_KEY (Ok body) []) in
     events_of tr
     = [status (js "正在提交生成任务..."); status (js "任务已提交，正在生成中...")]
       ++ map (fun k => status (js "生成中... (" ++ decimal k ++ js ")")) (seq 1 N)
       ++ [complete (js "生成完成！") (Some u)]
     /\ exists pre, tr = pre ++ [Emit (complete (js "生成完成！") (Some u)); Close])
    /\
    (forall has BASE_URL,
     has Middleware.m_setHeader = true ->
     has Middleware.m_write = true ->
     has Middleware.m_end = true ->
     N < Middleware.MAX_POLLS ->
     (forall k, k <= N -> replied_ok (on_poll service k) = true) ->
     image_url_field (on_poll service N) = Some u ->
     let tr := snd (Middleware.route describe service has BASE_URL API_KEY
                      (Some body) []) in
     events_of tr
     = [status (js "正在提交生成任务..."); status (js "任务已提交，正在生成中...")]
       ++ map (fun k => status (js "正在生成中... (" ++ decimal k ++ js ")")) (seq 1 N)
       ++ [complete (js "生成完成！") (Some u)]
     /\ exists pre, tr = pre ++ [Emit (complete (js "生成完成！") (Some u)); Close]).
Proof.
  intros describe service API_KEY body s tid N u Hprompt Htrim Hacc Hpend Hlast.
  apply is_empty_false in Htrim.
  destruct (task_status_of_inv _ Hlast) as (rp & d & Hrp & Hd & Hst).
  split.
  - intros HN Hu tr. subst tr.
    rewrite (@GenerateFacts.onRequestPost_accepts service API_KEY describe body s
               Hprompt Htrim).
    cbn [snd].
    rewrite (@generate_after_pending describe service API_KEY s _ tid N Hacc
               eq_refl (Nat.lt_le_incl _ _ HN) Hpend).
    rewrite Hrp in Hu.
    destruct (first_image_url_inv rp Hd Hu) as (images & first & Hi & Hf & Hurl).
    replace (Generate.MAX_POLLS - N) with (S (Generate.MAX_POLLS - N - 1)) by lia.
    erewrite GenerateFacts.edge_succeed_step with (id := tid); eauto.
    + cbn [snd]. split; [|apply last_two].
      rewrite !events_of_app, events_of_pending_rounds. reflexivity.
    + rewrite count_polls_app, count_polls_generate_head, count_polls_pending_rounds.
      exact Hrp.
  - intros has BASE_URL Hset Hwrite Hend HN Hoks Hu tr. subst tr.
    rewrite (@middleware_after_pending describe service has BASE_URL API_KEY
               (Some body) s _ tid N Hset Hwrite Hend Hprompt Htrim Hacc eq_refl
               (Nat.lt_le_incl _ _ HN)).
    2:{ intros k Hk. rewrite Hoks by lia. rewrite Hpend by exact Hk. reflexivity. }
    rewrite Hrp in Hu.
    destruct (image_url_field_inv rp Hd Hu) as (images & Hi & Hurl).
    replace (Middleware.MAX_POLLS - N) with (S (Middleware.MAX_POLLS - N - 1)) by lia.
    assert (Hok : ok rp = true).
    { specialize (Hoks N (le_n N)). rewrite Hrp in Hoks. exact Hoks. }
    erewrite MiddlewareFacts.route_succeed_step with (id := tid); eauto.
    + cbn [snd]. split; [|apply last_two].
      rewrite !events_of_app, events_of_pending_rounds. reflexivity.
    + rewrite count_polls_app, count_polls_middleware_head, count_polls_pending_rounds.
      exact Hrp.
Qed.

Lemma pending_then_succeeded_sequence_witness :
  (let tr := snd (Generate.onRequestPost Scenario.v8
                    (Scenario.script Scenario.submitted 2 Scenario.succeeded_list)
                    Scenario.key (Ok (Scenario.request (js " a cat "))) []) in
   events_of tr
   = [status (js "正在提交生成任务..."); status (js "任务已提交，正在生成中...")]
     ++ map (fun k => status (js "生成中... (" ++ decimal k ++ js ")")) (seq 1 2)
     ++ [complete (js "生成完成！") (Some Scenario.image)]
   /\ exists pre, tr = pre ++ [Emit (complete (js "生成完成！") (Some Scenario.image)); Close])
  /\
  (let tr := snd (Middleware.route Scenario.v8
                    (Scenario.script Scenario.submitted 2 Scenario.succeeded_object)
                    Middleware.full_res Scenario.base Scenario.key
                    (Some (Scenario.request (js " a cat "))) []) in
   events_of tr
   = [status (js "正在提交生成任务..."); status (js "任务已提交，正在生成中...")]
     ++ map (fun k => status (js "正在生成中... (" ++ decimal k ++ js ")")) (seq 1 2)
     ++ [complete (js "生成完成！") (Some Scenario.image)]
   /\ exists pre, tr = pre ++ [Emit (complete (js "生成完成！") (Some Scenario.image)); Close]).
Proof.
  split.
  - apply (proj1 (@pending_then_succeeded_sequence Scenario.v8
             (Scenario.script Scenario.submitted 2 Scenario.succeeded_list)
             Scenario.key (Scenario.request (js " a cat ")) (js " a cat ")
             (js "task-1") 2 Scenario.image
             ltac:(vm_compute; reflexivity) ltac:(vm_compute; reflexivity)
             ltac:(vm_compute; reflexivity)
             ltac:(intros [|[|k]] Hk; [vm_compute; reflexivity ..|lia])
             ltac:(vm_compute; reflexivity))).
    + unfold Generate.MAX_POLLS. lia.
    + vm_compute. reflexivity.
  - apply (proj2 (@pending_then_succeeded_sequence Scenario.v8
             (Scenario.script Scenario.submitted 2 Scenario.succeeded_object)
             Scenario.key (Scenario.request (js " a cat ")) (js " a cat ")
             (js "task-1") 2 Scenario.image
             ltac:(vm_compute; reflexivity) ltac:(vm_compute; reflexivity)
             ltac:(vm_compute; reflexivity)
             ltac:(intros [|[|k]] Hk; [vm_compute; reflexivity ..|lia])
             ltac:(vm_compute; reflexivity))).
    + reflexivity.
    + reflexivity.
    + reflexivity.
    + unfold Middleware.MAX_POLLS. lia.
    + intros [|[|[|k]]] Hk; [vm_compute; reflexivity ..|lia].
    + vm_compute. reflexivity.
Defined.

(** C1, as stated, fails: the status it names, SUCCEEDED, is not the
    one the handlers test for.  Below, the submit call gives a task, the
    first poll is pending and every later poll reports SUCCEEDED together
    with an image URL, where each handler reads it.  Neither handler writes a
    complete frame: the reply is taken as pending, a second pending frame
    follows the first, and the run goes on to the end of its budget and to
    the timeout. *)
Lemma succeeded_spelling_is_pending :
  (let service := Scenario.script Scenario.submitted 1 Scenario.spelled_out_list in
   let tr := snd (Generate.onRequestPost Scenario.v8 service Scenario.key
                    (Ok (Scenario.request (js "a cat"))) []) in
   accepted_task (on_submit service) = Some (Some (JStr (js "task-1")))
   /\ is_pending (on_poll service 0) = true
   /\ task_status_of (on_poll service 1) = Ok (Some (JStr (js "SUCCEEDED")))
   /\ first_image_url (on_poll service 1) = Some Scenario.image
   /\ events_of tr
      <> [status (js "正在提交生成任务..."); status (js "任务已提交，正在生成中...")]
         ++ map (fun k => status (js "生成中... (" ++ decimal k ++ js ")")) (seq 1 1)
         ++ [complete (js "生成完成！") (Some Scenario.image)]
   /\ events_of tr
      = [status (js "正在提交生成任务..."); status (js "任务已提交，正在生成中...")]
        ++ map (fun k => status (js "生成中... (" ++ decimal k ++ js ")")) (seq 1 40)
        ++ [error (js "生成超时，请重试")]
   /\ count_polls tr = 40)
  /\
  (let service := Scenario.script Scenario.submitted 1 Scenario.spelled_out_object in
   let tr := snd (Middleware.route Scenario.v8 service Middleware.full_res
                    Scenario.base Scenario.key
                    (Some (Scenario.request (js "a cat"))) []) in
   accepted_task (on_submit service) = Some (Some (JStr (js "task-1")))
   /\ replied_ok (on_poll service 0) && is_pending (on_poll service 0) = true
   /\ replied_ok (on_poll service 1) = true
   /\ task_status_of (on_poll service 1) = Ok (Some (JStr (js "SUCCEEDED")))
   /\ image_url_field (on_poll service 1) = Some Scenario.image
   /\ events_of tr
      <> [status (js "正在提交生成任务..."); status (js "任务已提交，正在生成中...")]
         ++ map (fun k => status (js "正在生成中... (" ++ decimal k ++ js ")")) (seq 1 1)
         ++ [complete (js "生成完成！") (Some Scenario.image)]
   /\ events_of tr
      = [status (js "正在提交生成任务..."); status (js "任务已提交，正在生成中...")]
        ++ map (fun k => status (js "正在生成中... (" ++ decimal k ++ js ")")) (seq 1 60)
        ++ [error (js "生成超时，请重试")]
   /\ count_polls tr = 60).
Proof.
  split; intros service tr.
  - assert (E : events_of tr
                = [status (js "正在提交生成任务...");
                   status (js "任务已提交，正在生成中...")]
                  ++ map (fun k => status (js "生成中... (" ++ decimal k ++ js ")"))
                       (seq 1 40)
                  ++ [error (js "生成超时，请重试")])
      by (vm_compute; reflexivity).
    repeat split; try (vm_compute; reflexivity).
    rewrite E. vm_compute. discriminate.
  - assert (E : events_of tr
                = [status (js "正在提交生成任务...");
                   status (js "任务已提交，正在生成中...")]
                  ++ map (fun k => status (js "正在生成中... (" ++ decimal k ++ js ")"))
                       (seq 1 60)
                  ++ [error (js "生成超时，请重试")])
      by (vm_compute; reflexivity).
    repeat split; try (vm_compute; reflexivity).
    rewrite E. vm_compute. discriminate.
Qed.

(** C9.  In an iteration whose poll reply parsed to a body, a [task_status]
    that is anything but the string SUCCEED or the string FAILED (absent,
    unknown, or another spelling of success) is taken as pending: after the
    sleep and the poll the handler writes the pending frame numbered [i + 1]
    for loop index [i], neither a terminal frame nor the close, and goes on
    as the next iteration would from there; when an iteration is left, the
    next thing it does is to sleep and poll again, and when none is left the
    loop is run off with nothing more written.  In the Express route the
    status test is only reached by a reply that is an HTTP success. *)
Theorem other_status_is_pending :
  forall service API_KEY n i taskId id tr rp d st,
    to_string_value taskId = Ok id ->
    on_poll service (count_polls tr) = Ok rp ->
    parsed rp = Ok d ->
    get_prop (Some d) (js "task_status") = Ok st ->
    st <> Some (JStr (js "SUCCEED")) ->
    st <> Some (JStr (js "FAILED")) ->
    (let url := Generate.BASE_URL ++ js "v1/tasks/" ++ id in
     let round := [Sleep 3000%N; Poll url (bearer API_KEY);
                   Emit (status (js "生成中... (" ++ decimal (i + 1) ++ js ")"))] in
     let run := Generate.poll_loop service API_KEY (S n) i taskId tr in
     run = Generate.poll_loop service API_KEY n (S i) taskId (tr ++ round)
     /\ extension (tr ++ round) (snd run)
     /\ (n = 0 -> run = (Ok Fallthrough, tr ++ round))
     /\ (0 < n ->
         extension (tr ++ round ++ [Sleep 3000%N; Poll url (bearer API_KEY)])
           (snd run)))
    /\
    (forall has BASE_URL,
       has Middleware.m_write = true ->
       ok rp = true ->
       let url := BASE_URL ++ js "v1/tasks/" ++ id in
       let round := [Sleep 3000%N; Poll url (bearer API_KEY);
                     Emit (status (js "正在生成中... (" ++ decimal (i + 1) ++ js ")"))] in
       let run := Middleware.poll_loop service has BASE_URL (S n) i API_KEY taskId tr in
       run = Middleware.poll_loop service has BASE_URL n (S i) API_KEY taskId
               (tr ++ round)
       /\ extension (tr ++ round) (snd run)
       /\ (n = 0 -> run = (Ok Fallthrough, tr ++ round))
       /\ (0 < n ->
           extension (tr ++ round ++ [Sleep 3000%N; Poll url (bearer API_KEY)])
             (snd run))).
Proof.
  intros service API_KEY n i taskId id tr rp d st Hid Hpoll Hd Hst Hs Hf.
  apply is_string_false in Hs. apply is_string_false in Hf.
  split.
  - intros url round run.
    assert (Hstep : run = Generate.poll_loop service API_KEY n (S i) taskId
                            (tr ++ round))
      by exact (@GenerateFacts.edge_pending_step service API_KEY n i taskId id tr
                  rp d st Hid Hpoll Hd Hst Hs Hf).
    split; [exact Hstep|]. rewrite Hstep.
    split; [apply generate_poll_loop_appends|].
    split.
    + intros ->. reflexivity.
    + intro Hn. destruct n as [|n]; [lia|].
      rewrite app_assoc.
      apply (@generate_iteration_polls service API_KEY n (S i) taskId id
               (tr ++ round) Hid).
  - intros has BASE_URL Hwrite Hok url round run.
    assert (Hstep : run = Middleware.poll_loop service has BASE_URL n (S i) API_KEY
                            taskId (tr ++ round))
      by exact (@MiddlewareFacts.route_pending_step service has BASE_URL API_KEY
                  Hwrite n i taskId id tr rp d st Hid Hpoll Hok Hd Hst Hs Hf).
    split; [exact Hstep|]. rewrite Hstep.
    split; [apply middleware_poll_loop_appends|].
    split.
    + intros ->. reflexivity.
    + intro Hn. destruct n as [|n]; [lia|].
      rewrite app_assoc.
      apply (@middleware_iteration_polls service has BASE_URL API_KEY n (S i)
               taskId id (tr ++ round) Hid).
Qed.

Lemma other_status_is_pending_witness :
  let service := Scenario.script Scenario.submitted 0 Scenario.succeeded_spelled_out in
  let taskId := Some (JStr (js "task-1")) in
  let url := Generate.BASE_URL ++ js "v1/tasks/" ++ js "task-1" in
  let round := [Sleep 3000%N; Poll url (bearer Scenario.key);
                Emit (status (js "生成中... (" ++ decimal (0 + 1) ++ js ")"))] in
  let run := Generate.poll_loop service Scenario.key 40 0 taskId [] in
  run = Generate.poll_loop service Scenario.key 39 1 taskId ([] ++ round)
  /\ extension ([] ++ round) (snd run)
  /\ (39 = 0 -> run = (Ok Fallthrough, [] ++ round))
  /\ (0 < 39 ->
      extension ([] ++ round ++ [Sleep 3000%N; Poll url (bearer Scenario.key)])
        (snd run)).
Proof.
  intro service.
  apply (proj1 (@other_status_is_pending service Scenario.key 39 0
           (Some (JStr (js "task-1"))) (js "task-1") []
           Scenario.succeeded_spelled_out
           (JObj [(js "task_status", JStr (js "SUCCEEDED"))])
           (Some (JStr (js "SUCCEEDED")))
           eq_refl eq_refl eq_refl
           ltac:(vm_compute; reflexivity)
           ltac:(vm_compute; discriminate)
           ltac:(vm_compute; discriminate))).
Defined.

(** C3.  A request whose prompt is missing, empty or white space only is
    rejected without any remote call: the edge handler returns the 400
    response and its trace is empty; the Express route, whatever methods its
    response object has, issues neither the submit call nor a poll call, and
    on a response object with [status] and [json] it answers with
    [status(400)] and the JSON error. *)
Theorem blank_prompt_makes_no_remote_call :
  forall describe service API_KEY (body : json) prompt,
    get_prop (Some body) (js "prompt") = Ok prompt ->
    blank_prompt prompt = true ->
    Generate.onRequestPost describe service API_KEY (Ok body) []
    = (Ok GenerateTrace.rejection, [])
    /\
    (forall has BASE_URL,
       remote_calls (snd (Middleware.route describe service has BASE_URL API_KEY
                            (Some body) [])) = 0
       /\ (has Middleware.m_status = true ->
           has Middleware.m_json = true ->
           Middleware.route describe service has BASE_URL API_KEY (Some body) []
           = (Ok tt, [ResStatus 400%N; ResJson error_body]))).
Proof.
  intros describe service API_KEY body prompt Hprompt Hblank. split.
  - exact (@GenerateFacts.onRequestPost_rejects service API_KEY describe body prompt
             Hprompt Hblank).
  - intros has BASE_URL.
    rewrite (@MiddlewareFacts.route_rejects describe service has BASE_URL API_KEY
               (Some body) prompt Hprompt Hblank).
    unfold Middleware.res_call.
    split.
    + destruct (has Middleware.m_status); [|reflexivity].
      destruct (has Middleware.m_json); reflexivity.
    + intros -> ->. reflexivity.
Qed.

Lemma blank_prompt_makes_no_remote_call_witness :
  let service := Scenario.script Scenario.submitted 0 Scenario.succeeded_list in
  Generate.onRequestPost Scenario.v8 service Scenario.key
    (Ok (Scenario.request (js "   "))) []
  = (Ok GenerateTrace.rejection, [])
  /\ remote_calls (snd (Middleware.route Scenario.v8 service Middleware.fakeRes_has
                          Scenario.base Scenario.key
                          (Some (Scenario.request (js "   "))) [])) = 0
  /\ Middleware.route Scenario.v8 service Middleware.full_res Scenario.base
       Scenario.key (Some (Scenario.request (js "   "))) []
     = (Ok tt, [ResStatus 400%N; ResJson error_body]).
Proof.
  intro service.
  pose proof (@blank_prompt_makes_no_remote_call Scenario.v8 service Scenario.key
                (Scenario.request (js "   ")) (Some (JStr (js "   ")))
                ltac:(vm_compute; reflexivity) ltac:(vm_compute; reflexivity))
    as [Hedge Hroute].
  split; [exact Hedge|]. split.
  - exact (proj1 (Hroute Middleware.fakeRes_has Scenario.base)).
  - exact (proj2 (Hroute Middleware.full_res Scenario.base) eq_refl eq_refl).
Defined.

(** *** The route on [fakeRes] *)

(** Whatever [req.body] reads as, the route does not get past the first
    member that [fakeRes] lacks: it throws at [req.body], at [prompt.trim],
    at [res.status(400).json] or at [res.setHeader], having at most set the
    status. *)
Lemma route_on_fakeRes : forall describe service BASE_URL API_KEY req_body,
  exists e tr,
    Middleware.route describe service Middleware.fakeRes_has BASE_URL API_KEY
      req_body []
    = (Throw e, tr)
    /\ (tr = [] \/ tr = [ResStatus 400%N]).
Proof.
  intros describe service BASE_URL API_KEY req_body.
  unfold Middleware.route.
  generalize Middleware.MAX_POLLS as budget. intro budget.
  destruct (get_prop req_body (js "prompt")) as [prompt|e].
  - rewrite !run_lift_ok.
    destruct (prompt_rejected prompt) as [[|]|e].
    + rewrite run_lift_ok. cbn. do 2 eexists. split; [reflexivity|]. auto.
    + rewrite run_lift_ok. cbn. do 2 eexists. split; [reflexivity|]. auto.
    + rewrite run_lift_throw. do 2 eexists. split; [reflexivity|]. auto.
  - rewrite run_lift_throw. do 2 eexists. split; [reflexivity|]. auto.
Qed.

Lemma not_found_is_given : Middleware.given (Some (js "Not Found")) = true.
Proof. vm_compute. reflexivity. Qed.

(** The callback on a [fakeRes] that has not been written to or ended. *)
Lemma not_found_on_untouched : forall f,
  Middleware.resolved f = None ->
  Middleware._stream f = false ->
  Middleware._writer f = false ->
  Middleware._closed f = false ->
  Middleware.written f = [] ->
  Middleware.res_headers f = [] ->
  fst (Middleware.not_found f) = None
  /\ Middleware.resolved (snd (Middleware.not_found f))
     = Some {| status_code := 404%N; headers := []; body := Readable |}
  /\ Middleware.written (snd (Middleware.not_found f))
     = [Middleware.Text (js "Not Found")]
  /\ Middleware._stream (snd (Middleware.not_found f)) = true
  /\ Middleware._closed (snd (Middleware.not_found f)) = true.
Proof.
  intros f Hr Hs Hw Hc Hwr Hh.
  unfold Middleware.not_found, Middleware.fakeRes_end.
  rewrite not_found_is_given.
  unfold Middleware.fakeRes_write. cbn [Middleware.fakeRes_status Middleware._stream].
  rewrite Hs.
  cbn [Middleware.open_stream Middleware.statusCode Middleware.res_headers
       Middleware.new_Response].
  change (Middleware.new_Response Readable 404%N (Middleware.res_headers f))
    with (@inr Middleware.shim_fault _
            {| status_code := 404%N; headers := Middleware.res_headers f;
               body := Readable |}).
  unfold Middleware.writer_write. cbn. rewrite Hr, Hc, Hwr, Hh. cbn. auto.
Qed.

(** The adapter on a POST to [/api/generate]: for either behaviour of the
    router the callback runs on a [fakeRes] that was never written to, and
    answers 404. *)
Lemma adapter_answers_not_found :
  forall describe service router BASE_URL API_KEY has_body,
    exists o,
      Middleware.getRouteHandler describe service router BASE_URL API_KEY has_body
      = Some o
      /\ Middleware.response o
         = Some {| status_code := 404%N; headers := []; body := Readable |}
      /\ Middleware.written (Middleware.res_after o)
         = [Middleware.Text (js "Not Found")]
      /\ Middleware._closed (Middleware.res_after o) = true
      /\ (Middleware.effects o = [] \/ Middleware.effects o = [ResStatus 400%N]).
Proof.
  intros describe service router BASE_URL API_KEY has_body.
  unfold Middleware.getRouteHandler, Middleware.response. destruct router.
  - destruct (@not_found_on_untouched Middleware.fakeRes_new
                eq_refl eq_refl eq_refl eq_refl eq_refl eq_refl)
      as (_ & H1 & H2 & _ & H3).
    eexists. split; [reflexivity|]. cbn [Middleware.res_after Middleware.effects].
    auto.
  - destruct (route_on_fakeRes describe service BASE_URL API_KEY
                (Middleware.fakeReq_body has_body)) as (e & tr & -> & [->| ->]).
    + destruct (@not_found_on_untouched Middleware.fakeRes_new
                  eq_refl eq_refl eq_refl eq_refl eq_refl eq_refl)
        as (_ & H1 & H2 & _ & H3).
      eexists. split; [reflexivity|].
      cbn [Middleware.res_after Middleware.effects]. auto.
    + destruct (@not_found_on_untouched
                  (Middleware.fakeRes_status 400%N Middleware.fakeRes_new)
                  eq_refl eq_refl eq_refl eq_refl eq_refl eq_refl)
        as (_ & H1 & H2 & _ & H3).
      eexists. split; [reflexivity|].
      cbn [Middleware.res_after Middleware.effects]. auto.
Qed.

(** C4.  For a prompt that is missing, empty or white space only the edge
    handler returns, without opening a stream, a response of status 400
    whose body is the JSON text naming the validation failure.  The Express
    adapter does not.  Its route asks for the same answer with
    [res.status(400).json(...)], but through [module.exports] it is run on
    [fakeRes], which has no [json] member, and reads [req.body] off
    [fakeReq], which is the body stream or undefined, never the parsed
    request.  Whether the router bypasses the route or runs it and hands its
    rejection on, [res.json] is never called and the request ends in the
    callback of the adapter, which answers 404 through a stream that carries
    the text Not Found and is closed. *)
Theorem blank_prompt_response :
  forall describe service API_KEY (body : json) prompt,
    get_prop (Some body) (js "prompt") = Ok prompt ->
    blank_prompt prompt = true ->
    (Generate.onRequestPost describe service API_KEY (Ok body) []
     = (Ok {| status_code := 400%N;
              headers := [(js "Content-Type", js "application/json")];
              body := JsonText (JObj [(js "error", JStr (js "请输入提示词"))]) |},
        []))
    /\
    (forall router has_body,
       exists o,
         snd (Middleware.module_exports describe service router API_KEY has_body)
         = Some o
         /\ Middleware.response o
            = Some {| status_code := 404%N; headers := []; body := Readable |}
         /\ Middleware.written (Middleware.res_after o)
            = [Middleware.Text (js "Not Found")]
         /\ Middleware._closed (Middleware.res_after o) = true
         /\ (forall answer, ~ In (ResJson answer) (Middleware.effects o))).
Proof.
  intros describe service API_KEY body prompt Hprompt Hblank. split.
  - exact (@GenerateFacts.onRequestPost_rejects service API_KEY describe body prompt
             Hprompt Hblank).
  - intros router has_body. unfold Middleware.module_exports. cbn [snd].
    destruct (adapter_answers_not_found describe service router
                (js "https://api-inference.modelscope.cn/")
                (Some match API_KEY with Some k => k | None => js "undefined" end)
                has_body)
      as (o & Ho & Hresp & Hwritten & Hclosed & Heff).
    exists o. split; [exact Ho|]. split; [exact Hresp|].
    split; [exact Hwritten|]. split; [exact Hclosed|].
    intros answer Hin.
    destruct Heff as [E|E]; rewrite E in Hin; cbn in Hin;
      [exact Hin|destruct Hin as [H|[]]; discriminate].
Qed.

Lemma blank_prompt_response_witness :
  let service := Scenario.script Scenario.submitted 0 Scenario.succeeded_list in
  (Generate.onRequestPost Scenario.v8 service Scenario.key
     (Ok (Scenario.request [])) []
   = (Ok {| status_code := 400%N;
            headers := [(js "Content-Type", js "application/json")];
            body := JsonText (JObj [(js "error", JStr (js "请输入提示词"))]) |},
      []))
  /\
  (exists o,
     snd (Middleware.module_exports Scenario.v8 service Middleware.Dispatched
            Scenario.key true)
     = Some o
     /\ Middleware.response o
        = Some {| status_code := 404%N; headers := []; body := Readable |}
     /\ Middleware.written (Middleware.res_after o)
        = [Middleware.Text (js "Not Found")]
     /\ Middleware._closed (Middleware.res_after o) = true
     /\ (forall answer, ~ In (ResJson answer) (Middleware.effects o))).
Proof.
  intro service.
  pose proof (@blank_prompt_response Scenario.v8 service Scenario.key
                (Scenario.request []) (Some (JStr []))
                ltac:(vm_compute; reflexivity) eq_refl) as [Hedge Hadapter].
  split; [exact Hedge|exact (Hadapter Middleware.Dispatched true)].
Defined.

Lemma generate_refused : forall describe service API_KEY s rp,
  on_submit service = Ok rp -> ok rp = false ->
  Generate.task describe service API_KEY (Some (JStr s)) []
  = (Ok tt,
     [Emit (status (js "正在提交生成任务..."));
      Submit (GenerateTrace.submit_url) (bearer API_KEY) model_name (trim s);
      Emit (error (match text rp with
                   | Ok t => js "API 请求失败: " ++ t
                   | Throw e => js "服务器错误: " ++ message_of describe e
                   end));
      Close]).
Proof.
  intros describe service API_KEY s rp Hsub Hok.
  unfold Generate.task, try_catch, Generate.sendEvent.
  generalize Generate.MAX_POLLS as budget. intro budget.
  cbn [call_trim]. run. cbn [negb].
  destruct (text rp) as [t|e]; run; reflexivity.
Qed.

Lemma middleware_refused : forall describe service has BASE_URL API_KEY body s rp,
  has Middleware.m_setHeader = true ->
  has Middleware.m_write = true ->
  has Middleware.m_end = true ->
  get_prop body (js "prompt") = Ok (Some (JStr s)) ->
  trim s <> [] ->
  on_submit service = Ok rp -> ok rp = false ->
  Middleware.route describe service has BASE_URL API_KEY body []
  = (Ok tt,
     MiddlewareTrace.sse_setup
     ++ [Emit (status (js "正在提交生成任务..."));
         Submit (MiddlewareTrace.submit_url BASE_URL) (bearer API_KEY) model_name
           (trim s)]
     ++ match text rp with
        | Ok t =>
            [Emit (error (js "API 请求失败: " ++ decimalN (http_status rp)
                          ++ js " " ++ t))]
        | Throw e =>
            [ConsoleError e;
             Emit (error (js "服务器错误: " ++ message_of describe e))]
        end
     ++ [Close]).
Proof.
  intros describe service has BASE_URL API_KEY body s rp
         Hset Hwrite Hend Hprompt Htrim Hsub Hok.
  unfold Middleware.route, try_catch, Middleware.sendEvent, Middleware.res_end,
    Middleware.res_call.
  generalize Middleware.MAX_POLLS as budget. intro budget. run.
  rewrite (usable_prompt_accepted s Htrim). run.
  cbn [call_trim]. run. cbn [negb].
  destruct (text rp) as [t|e]; run; reflexivity.
Qed.

(** C5.  When the submit call comes back with a response that is not a
    success, the frames are the submission status followed by exactly one
    error frame, whose message ends with the raw text of that response when
    it could be read; the close follows, nothing comes after it, no poll call
    is made and the submit call was made once. *)
Theorem submit_failure_is_fatal :
  forall describe service API_KEY (body : json) s rp,
    get_prop (Some body) (js "prompt") = Ok (Some (JStr s)) ->
    is_empty (trim s) = false ->
    on_submit service = Ok rp ->
    ok rp = false ->
    (let tr := snd (Generate.onRequestPost describe service API_KEY (Ok body) []) in
     exists m,
       events_of tr = [status (js "正在提交生成任务..."); error m]
       /\ (forall t, text rp = Ok t ->
             m = js "API 请求失败: " ++ t /\ includes t m)
       /\ (exists pre, tr = pre ++ [Emit (error m); Close])
       /\ count_polls tr = 0 /\ count_submits tr = 1)
    /\
    (forall has BASE_URL,
     has Middleware.m_setHeader = true ->
     has Middleware.m_write = true ->
     has Middleware.m_end = true ->
     let tr := snd (Middleware.route describe service has BASE_URL API_KEY
                      (Some body) []) in
     exists m,
       events_of tr = [status (js "正在提交生成任务..."); error m]
       /\ (forall t, text rp = Ok t ->
             m = js "API 请求失败: " ++ decimalN (http_status rp) ++ js " " ++ t
             /\ includes t m)
       /\ (exists pre, tr = pre ++ [Emit (error m); Close])
       /\ count_polls tr = 0 /\ count_submits tr = 1).
Proof.
  intros describe service API_KEY body s rp Hprompt Htrim Hsub Hok.
  apply is_empty_false in Htrim. split.
  - intro tr. subst tr.
    rewrite (@GenerateFacts.onRequestPost_accepts service API_KEY describe body s
               Hprompt Htrim).
    rewrite (@generate_refused describe service API_KEY s rp Hsub Hok). cbn [snd].
    eexists. split; [reflexivity|]. split; [|split; [|split; reflexivity]].
    + intros t Ht. rewrite Ht. split; [reflexivity|].
      exists (js "API 请求失败: "), []. rewrite app_nil_r. reflexivity.
    + eexists [_; _]. reflexivity.
  - intros has BASE_URL Hset Hwrite Hend tr. subst tr.
    rewrite (@middleware_refused describe service has BASE_URL API_KEY (Some body)
               s rp Hset Hwrite Hend Hprompt Htrim Hsub Hok). cbn [snd].
    destruct (text rp) as [t|e].
    + eexists. split; [reflexivity|]. split; [|split; [|split; reflexivity]].
      * intros t' Ht. injection Ht as <-. split; [reflexivity|].
        exists (js "API 请求失败: " ++ decimalN (http_status rp) ++ js " "), [].
        rewrite app_nil_r, <- !app_assoc. reflexivity.
      * eexists (_ :: _ :: _ :: _ :: [_]). reflexivity.
    + eexists. split; [reflexivity|]. split; [|split; [|split; reflexivity]].
      * intros t' Ht. discriminate.
      * eexists (_ :: _ :: _ :: _ :: _ :: [_]). reflexivity.
Qed.

Lemma submit_failure_is_fatal_witness :
  let service := Scenario.script Scenario.refused 0 Scenario.succeeded_list in
  let tr := snd (Generate.onRequestPost Scenario.v8 service Scenario.key
                   (Ok (Scenario.request (js "a cat"))) []) in
  exists m,
    events_of tr = [status (js "正在提交生成任务..."); error m]
    /\ (forall t, text Scenario.refused = Ok t ->
          m = js "API 请求失败: " ++ t /\ includes t m)
    /\ (exists pre, tr = pre ++ [Emit (error m); Close])
    /\ count_polls tr = 0 /\ count_submits tr = 1.
Proof.
  intro service.
  apply (proj1 (@submit_failure_is_fatal Scenario.v8 service Scenario.key
           (Scenario.request (js "a cat")) (js "a cat") Scenario.refused
           ltac:(vm_compute; reflexivity) ltac:(vm_compute; reflexivity)
           eq_refl eq_refl)).
Defined.

Lemma last_event : forall (tr : trace) e,
  exists evs, events_of ((tr ++ [Emit e]) ++ [Close]) = evs ++ [e].
Proof.
  intros tr e. exists (events_of tr). rewrite !events_of_app. cbn.
  rewrite app_nil_r. reflexivity.
Qed.

Lemma closes_with : forall (tr : trace) e,
  exists pre, (tr ++ [Emit e]) ++ [Close] = pre ++ [Emit e; Close].
Proof. intros tr e. exists tr. rewrite <- app_assoc. reflexivity. Qed.

(** C6, as the code has it.  When the submit call succeeds and every poll
    call of the budget is answered with a body that parses and whose status
    is neither SUCCEED nor FAILED (for the Express route the answers must also
    be HTTP successes), the last frame is the timeout error, the close follows
    it, and the number of poll calls is exactly the budget: 40 for the edge
    handler, 60 for the Express route. *)
Theorem all_pending_times_out :
  forall describe service API_KEY (body : json) s taskId id,
    get_prop (Some body) (js "prompt") = Ok (Some (JStr s)) ->
    is_empty (trim s) = false ->
    accepted_task (on_submit service) = Some taskId ->
    to_string_value taskId = Ok id ->
    ((forall k, k < 40 -> is_pending (on_poll service k) = true) ->
     let tr := snd (Generate.onRequestPost describe service API_KEY (Ok body) []) in
     (exists evs, events_of tr = evs ++ [error (js "生成超时，请重试")])
     /\ (exists pre, tr = pre ++ [Emit (error (js "生成超时，请重试")); Close])
     /\ count_polls tr = 40)
    /\
    (forall has BASE_URL,
     has Middleware.m_setHeader = true ->
     has Middleware.m_write = true ->
     has Middleware.m_end = true ->
     (forall k, k < 60 ->
        replied_ok (on_poll service k) && is_pending (on_poll service k) = true) ->
     let tr := snd (Middleware.route describe service has BASE_URL API_KEY
                      (Some body) []) in
     (exists evs, events_of tr = evs ++ [error (js "生成超时，请重试")])
     /\ (exists pre, tr = pre ++ [Emit (error (js "生成超时，请重试")); Close])
     /\ count_polls tr = 60).
Proof.
  intros describe service API_KEY body s taskId id Hprompt Htrim Hacc Hid.
  apply is_empty_false in Htrim. split.
  - intros Hpend tr. subst tr.
    rewrite (@GenerateFacts.onRequestPost_accepts service API_KEY describe body s
               Hprompt Htrim).
    cbn [snd].
    rewrite (@generate_after_pending describe service API_KEY s taskId id
               Generate.MAX_POLLS Hacc Hid (le_n _) Hpend).
    rewrite Nat.sub_diag. cbn [Generate.poll_loop ret snd].
    split; [apply last_event|]. split; [apply closes_with|].
    rewrite !count_polls_app, count_polls_generate_head, count_polls_pending_rounds.
    reflexivity.
  - intros has BASE_URL Hset Hwrite Hend Hpend tr. subst tr.
    rewrite (@middleware_after_pending describe service has BASE_URL API_KEY
               (Some body) s taskId id Middleware.MAX_POLLS Hset Hwrite Hend
               Hprompt Htrim Hacc Hid (le_n _) Hpend).
    rewrite Nat.sub_diag. cbn [Middleware.poll_loop ret snd].
    split; [apply last_event|]. split; [apply closes_with|].
    rewrite !count_polls_app, count_polls_middleware_head, count_polls_pending_rounds.
    reflexivity.
Qed.

Lemma all_pending_times_out_witness :
  let service := Scenario.script Scenario.submitted 100 Scenario.succeeded_list in
  let tr := snd (Generate.onRequestPost Scenario.v8 service Scenario.key
                   (Ok (Scenario.request (js "a cat"))) []) in
  (exists evs, events_of tr = evs ++ [error (js "生成超时，请重试")])
  /\ (exists pre, tr = pre ++ [Emit (error (js "生成超时，请重试")); Close])
  /\ count_polls tr = 40.
Proof.
  intro service.
  apply (proj1 (@all_pending_times_out Scenario.v8 service Scenario.key
           (Scenario.request (js "a cat")) (js "a cat")
           (Some (JStr (js "task-1"))) (js "task-1")
           ltac:(vm_compute; reflexivity) ltac:(vm_compute; reflexivity)
           ltac:(vm_compute; reflexivity) eq_refl)).
  intros k Hk. unfold service, Scenario.script, on_poll.
  replace (k <? 100) with true by (symmetry; apply Nat.ltb_lt; lia).
  vm_compute. reflexivity.
Defined.

(** C6, as stated, fails.  In neither run below does any poll reply report a
    terminal status, yet the run ends after a single poll call with an error
    that is not the timeout: the Express route stops at a poll reply that is
    not an HTTP success, and the edge handler at a poll call that is
    rejected. *)
Lemma timeout_needs_answered_polls :
  (let service := Scenario.script Scenario.submitted 0 Scenario.unavailable in
   let tr := snd (Middleware.route Scenario.v8 service Middleware.full_res
                    Scenario.base Scenario.key
                    (Some (Scenario.request (js "a cat"))) []) in
   accepted_task (on_submit service) = Some (Some (JStr (js "task-1")))
   /\ (forall k, is_terminal_status (on_poll service k) = false)
   /\ events_of tr = [status (js "正在提交生成任务...");
                      status (js "任务已提交，正在生成中...");
                      error (js "轮询失败: 503")]
   /\ ~ (exists evs, events_of tr = evs ++ [error (js "生成超时，请重试")])
   /\ count_polls tr = 1
   /\ count_polls tr <> 60)
  /\
  (let service := Scenario.offline in
   let tr := snd (Generate.onRequestPost Scenario.v8 service Scenario.key
                    (Ok (Scenario.request (js "a cat"))) []) in
   accepted_task (on_submit service) = Some (Some (JStr (js "task-1")))
   /\ (forall k, is_terminal_status (on_poll service k) = false)
   /\ events_of tr = [status (js "正在提交生成任务...");
                      status (js "任务已提交，正在生成中...");
                      error (js "服务器错误: fetch failed")]
   /\ ~ (exists evs, events_of tr = evs ++ [error (js "生成超时，请重试")])
   /\ count_polls tr = 1
   /\ count_polls tr <> 40).
Proof.
  split; intros service tr.
  - assert (Hev : events_of tr = [status (js "正在提交生成任务...");
                                  status (js "任务已提交，正在生成中...");
                                  error (js "轮询失败: 503")])
      by (vm_compute; reflexivity).
    assert (Hn : count_polls tr = 1) by (vm_compute; reflexivity).
    split; [vm_compute; reflexivity|]. split; [intro k; vm_compute; reflexivity|].
    split; [exact Hev|]. split; [|split; [exact Hn|rewrite Hn; discriminate]].
    intros [evs H]. rewrite Hev in H.
    apply (f_equal (fun l => last l (status []))) in H.
    rewrite last_last in H. vm_compute in H. discriminate.
  - assert (Hev : events_of tr = [status (js "正在提交生成任务...");
                                  status (js "任务已提交，正在生成中...");
                                  error (js "服务器错误: fetch failed")])
      by (vm_compute; reflexivity).
    assert (Hn : count_polls tr = 1) by (vm_compute; reflexivity).
    split; [vm_compute; reflexivity|]. split; [intro k; vm_compute; reflexivity|].
    split; [exact Hev|]. split; [|split; [exact Hn|rewrite Hn; discriminate]].
    intros [evs H]. rewrite Hev in H.
    apply (f_equal (fun l => last l (status []))) in H.
    rewrite last_last in H. vm_compute in H. discriminate.
Qed.

Lemma reason_or_spec : forall d fallback st,
  get_prop (Some d) (js "task_status") = Ok st ->
  reason_or (Some d) fallback
  = if falsy (failure_reason d) then Ok fallback
    else to_string_value (failure_reason d).
Proof.
  intros d fallback st Hst. unfold reason_or, failure_reason.
  destruct d as [| | | | |props]; try discriminate;
    cbn [get_prop get_prop_opt bind_result]; try reflexivity.
  destruct (lookup (js "error") props) as [[| | | | |eprops]|];
    cbn [get_prop get_prop_opt bind_result]; reflexivity.
Qed.

Lemma body_of_inv : forall rp d d',
  parsed rp = Ok d -> body_of (Ok rp) = Some d' -> d' = d.
Proof. intros rp d d' Hd. unfold body_of. rewrite Hd. congruence. Qed.

Lemma reason_in_message : forall d fallback st prefix m,
  get_prop (Some d) (js "task_status") = Ok st ->
  reason_or (Some d) fallback = Ok m ->
  (forall r, failure_reason d = Some (JStr r) ->
     includes r (prefix ++ m) /\ (r <> [] -> prefix ++ m = prefix ++ r))
  /\ (failure_reason d = None -> prefix ++ m = prefix ++ fallback).
Proof.
  intros d fallback st prefix m Hst Hm.
  rewrite (reason_or_spec d fallback Hst) in Hm. split.
  - intros r Hr. rewrite Hr in Hm. cbn [falsy to_string_value to_string] in Hm.
    destruct r as [|c r]; cbn [is_empty] in Hm; injection Hm as <-.
    + split; [|congruence]. exists (prefix ++ fallback), [].
      rewrite app_nil_r. reflexivity.
    + split; [|reflexivity]. exists prefix, []. rewrite app_nil_r. reflexivity.
  - intro Hr. rewrite Hr in Hm. cbn [falsy] in Hm. injection Hm as <-. reflexivity.
Qed.

Lemma reason_cannot_throw : forall d fallback st e,
  get_prop (Some d) (js "task_status") = Ok st ->
  reason_or (Some d) fallback = Throw e ->
  (forall r, failure_reason d <> Some (JStr r)) /\ failure_reason d <> None.
Proof.
  intros d fallback st e Hst He.
  rewrite (reason_or_spec d fallback Hst) in He. split.
  - intros r Hr. rewrite Hr in He. cbn [falsy to_string_value to_string] in He.
    destruct (is_empty r); discriminate.
  - intro Hr. rewrite Hr in He. discriminate.
Qed.

(** C7.  When, after [N] pending polls, a poll reply reports the status
    FAILED, the frames are the two status frames, the [N] pending frames and
    one error frame, followed by the close.  The message of that error frame
    includes the reason the reply supplies in [error.message] when it is a
    string (it is the prefix followed by that reason when the reason is not
    empty), and it is the prefix followed by the fallback when the reply
    supplies none. *)
Theorem failed_job_reports_reason :
  forall describe service API_KEY (body : json) s taskId id N d,
    get_prop (Some body) (js "prompt") = Ok (Some (JStr s)) ->
    is_empty (trim s) = false ->
    accepted_task (on_submit service) = Some taskId ->
    to_string_value taskId = Ok id ->
    (forall k, k < N -> is_pending (on_poll service k) = true) ->
    task_status_of (on_poll service N) = Ok (Some (JStr (js "FAILED"))) ->
    body_of (on_poll service N) = Some d ->
    (N < Generate.MAX_POLLS ->
     let tr := snd (Generate.onRequestPost describe service API_KEY (Ok body) []) in
     exists m,
       events_of tr
       = [status (js "正在提交生成任务..."); status (js "任务已提交，正在生成中...")]
         ++ map (fun k => status (js "生成中... (" ++ decimal k ++ js ")")) (seq 1 N)
         ++ [error m]
       /\ (exists pre, tr = pre ++ [Emit (error m); Close])
       /\ (forall r, failure_reason d = Some (JStr r) ->
             includes r m /\ (r <> [] -> m = js "生成失败: " ++ r))
       /\ (failure_reason d = None -> m = js "生成失败: " ++ js "未知原因"))
    /\
    (forall has BASE_URL,
     has Middleware.m_setHeader = true ->
     has Middleware.m_write = true ->
     has Middleware.m_end = true ->
     N < Middleware.MAX_POLLS ->
     (forall k, k <= N -> replied_ok (on_poll service k) = true) ->
     let tr := snd (Middleware.route describe service has BASE_URL API_KEY
                      (Some body) []) in
     exists m,
       events_of tr
       = [status (js "正在提交生成任务..."); status (js "任务已提交，正在生成中...")]
         ++ map (fun k => status (js "正在生成中... (" ++ decimal k ++ js ")")) (seq 1 N)
         ++ [error m]
       /\ (exists pre, tr = pre ++ [Emit (error m); Close])
       /\ (forall r, failure_reason d = Some (JStr r) ->
             includes r m /\ (r <> [] -> m = js "图片生成失败: " ++ r))
       /\ (failure_reason d = None -> m = js "图片生成失败: " ++ js "未知错误")).
Proof.
  intros describe service API_KEY body s taskId id N d0
         Hprompt Htrim Hacc Hid Hpend Hlast Hbody.
  apply is_empty_false in Htrim.
  destruct (task_status_of_inv _ Hlast) as (rp & d & Hrp & Hd & Hst).
  rewrite Hrp in Hbody. apply (body_of_inv rp Hd) in Hbody. subst d0.
  split.
  - intros HN tr. subst tr.
    rewrite (@GenerateFacts.onRequestPost_accepts service API_KEY describe body s
               Hprompt Htrim).
    cbn [snd].
    rewrite (@generate_after_pending describe service API_KEY s taskId id N Hacc
               Hid (Nat.lt_le_incl _ _ HN) Hpend).
    replace (Generate.MAX_POLLS - N) with (S (Generate.MAX_POLLS - N - 1)) by lia.
    erewrite GenerateFacts.edge_failed_step with (id := id); eauto.
    2:{ rewrite count_polls_app, count_polls_generate_head,
          count_polls_pending_rounds. exact Hrp. }
    destruct (reason_or (Some d) (js "未知原因")) as [m|e] eqn:Hm; cbn [snd].
    + exists (js "生成失败: " ++ m). split; [|split; [apply last_two|]].
      * rewrite !events_of_app, events_of_pending_rounds. reflexivity.
      * exact (@reason_in_message d _ _ (js "生成失败: ") m Hst Hm).
    + eexists. split; [|split; [apply closes_with|]].
      * rewrite !events_of_app, events_of_pending_rounds. cbn.
        rewrite !app_nil_r. reflexivity.
      * destruct (@reason_cannot_throw d _ _ e Hst Hm) as [Hno Hsome].
        split; [intros r Hr; destruct (Hno r Hr)|intro Hr; destruct (Hsome Hr)].
  - intros has BASE_URL Hset Hwrite Hend HN Hoks tr. subst tr.
    rewrite (@middleware_after_pending describe service has BASE_URL API_KEY
               (Some body) s taskId id N Hset Hwrite Hend Hprompt Htrim Hacc Hid
               (Nat.lt_le_incl _ _ HN)).
    2:{ intros k Hk. rewrite Hoks by lia. rewrite Hpend by exact Hk. reflexivity. }
    replace (Middleware.MAX_POLLS - N) with (S (Middleware.MAX_POLLS - N - 1)) by lia.
    assert (Hok : ok rp = true).
    { specialize (Hoks N (le_n N)). rewrite Hrp in Hoks. exact Hoks. }
    erewrite MiddlewareFacts.route_failed_step with (id := id); eauto.
    2:{ rewrite count_polls_app, count_polls_middleware_head,
          count_polls_pending_rounds. exact Hrp. }
    destruct (reason_or (Some d) (js "未知错误")) as [m|e] eqn:Hm; cbn [snd].
    + exists (js "图片生成失败: " ++ m). split; [|split; [apply last_two|]].
      * rewrite !events_of_app, events_of_pending_rounds. reflexivity.
      * exact (@reason_in_message d _ _ (js "图片生成失败: ") m Hst Hm).
    + eexists. split; [|split; [apply closes_with|]].
      * rewrite !events_of_app, events_of_pending_rounds. cbn.
        rewrite !app_nil_r. reflexivity.
      * destruct (@reason_cannot_throw d _ _ e Hst Hm) as [Hno Hsome].
        split; [intros r Hr; destruct (Hno r Hr)|intro Hr; destruct (Hsome Hr)].
Qed.

(* ================================================================== *)
(** ** Every path ends the stream once *)

Section DisciplineRules.
Variable I : trace -> Prop.
Variable F : trace -> Prop.
Hypothesis I_snoc : forall tr a, I tr -> open_action a = true -> I (tr ++ [a]).
Hypothesis F_end : forall tr e,
  I tr -> is_terminal e = true -> F ((tr ++ [Emit e]) ++ [Close]).

Lemma steady_ret : forall A (a : A), steady I (ret a).
Proof. intros A a tr H. exact H. Qed.

Lemma steady_lift : forall A (r : result A), steady I (lift r).
Proof. intros A r tr H. exact H. Qed.

Lemma steady_act : forall a, open_action a = true -> steady I (act a).
Proof. intros a Ha tr H. apply I_snoc; assumption. Qed.

Lemma steady_fetch_poll : forall service url auth,
  steady I (fetch_poll service url auth).
Proof. intros service url auth tr H. apply I_snoc; [assumption|reflexivity]. Qed.

Lemma steady_fetch_submit : forall service url auth prompt,
  steady I (fetch_submit service url auth prompt).
Proof. intros service url auth prompt tr H. apply I_snoc; [assumption|reflexivity]. Qed.

Lemma steady_bind : forall A B (m : M A) (k : A -> M B),
  steady I m -> (forall a, steady I (k a)) -> steady I (bind m k).
Proof.
  intros A B m k Hm Hk tr H. unfold bind. specialize (Hm tr H).
  destruct (m tr) as [[a|e] tr']; cbn [snd] in *; [apply Hk|]; assumption.
Qed.

Lemma ends_bind : forall A (m : M A) (k : A -> M unit),
  steady I m -> (forall a, ends I F (k a)) -> ends I F (bind m k).
Proof.
  intros A m k Hm Hk tr H. unfold bind. specialize (Hm tr H).
  destruct (m tr) as [[a|e] tr']; cbn [snd] in *; [apply Hk|]; assumption.
Qed.

Lemma loops_bind : forall A (m : M A) (k : A -> M control),
  steady I m -> (forall a, loops I F (k a)) -> loops I F (bind m k).
Proof.
  intros A m k Hm Hk tr H. unfold bind. specialize (Hm tr H).
  destruct (m tr) as [[a|e] tr']; cbn [snd] in *; [apply Hk|]; assumption.
Qed.

Lemma ends_finish : forall e,
  is_terminal e = true -> ends I F (act (Emit e) ;; act Close).
Proof. intros e He tr H. cbn. apply F_end; assumption. Qed.

Lemma loops_finish : forall e,
  is_terminal e = true ->
  loops I F (act (Emit e) ;; act Close ;; ret Returned).
Proof. intros e He tr H. cbn. apply F_end; assumption. Qed.

Lemma loops_fallthrough : loops I F (ret Fallthrough).
Proof. intros tr H. exact H. Qed.

Lemma ends_after_loop : forall (m : M control) (k : M unit),
  loops I F m -> ends I F k ->
  ends I F (exit <- m ;; match exit with Returned => ret tt | Fallthrough => k end).
Proof.
  intros m k Hm Hk tr H. unfold bind. specialize (Hm tr H).
  destruct (m tr) as [[[|]|e] tr']; [exact Hm|apply Hk; exact Hm|exact Hm].
Qed.

Lemma closes_finish : forall e,
  is_terminal e = true -> closes I F (act (Emit e) ;; act Close).
Proof.
  intros e He tr H. eexists. split; [reflexivity|]. apply F_end; assumption.
Qed.

Lemma closes_after : forall a (k : M unit),
  open_action a = true -> closes I F k -> closes I F (act a ;; k).
Proof.
  intros a k Ha Hk tr H. rewrite run_act. apply Hk. apply I_snoc; assumption.
Qed.

Lemma closes_try_catch : forall (body : M unit) (handler : exn -> M unit),
  ends I F body -> (forall e, closes I F (handler e)) ->
  closes I F (try_catch body handler).
Proof.
  intros body handler Hb Hh tr H. unfold try_catch. specialize (Hb tr H).
  destruct (body tr) as [[[]|e] tr'].
  - exists tr'. split; [reflexivity|exact Hb].
  - apply Hh. exact Hb.
Qed.

Lemma loops_steady : forall (m : M control),
  (forall tr, F tr -> I tr) -> loops I F m -> steady I m.
Proof.
  intros m HFI Hm tr H. specialize (Hm tr H).
  destruct (m tr) as [[[|]|e] tr']; cbn [snd]; auto.
Qed.
End DisciplineRules.

Ltac steady_piece :=
  lazymatch goal with
  | |- steady _ (ret _) => apply steady_ret
  | |- steady _ (lift _) => apply steady_lift
  | |- steady _ (fetch_poll _ _ _) => apply steady_fetch_poll; assumption
  | |- steady _ (fetch_submit _ _ _ _) => apply steady_fetch_submit; assumption
  | |- steady _ (act _) => apply steady_act; [assumption|reflexivity]
  end.

Ltac discipline_step :=
  lazymatch goal with
  | |- loops _ _ (bind (act (Emit _))
                    (fun _ => bind (act Close) (fun _ => ret Returned))) =>
      apply loops_finish; [assumption|reflexivity]
  | |- ends _ _ (bind (act (Emit _)) (fun _ => act Close)) =>
      apply ends_finish; [assumption|reflexivity]
  | |- loops _ _ (ret Fallthrough) => apply loops_fallthrough
  | |- ends _ _ (bind (Generate.poll_loop _ _ _ _ _) _) => apply ends_after_loop
  | |- ends _ _ (bind (Middleware.poll_loop _ _ _ _ _ _ _) _) =>
      apply ends_after_loop
  | |- loops _ _ (bind _ _) => apply loops_bind; [steady_piece|intro]
  | |- ends _ _ (bind _ _) => apply ends_bind; [steady_piece|intro]
  | |- loops _ _ (if ?c then _ else _) => destruct c
  | |- ends _ _ (if ?c then _ else _) => destruct c
  | |- loops _ _ _ => solve [auto]
  end.

Ltac discipline := repeat discipline_step.

Section GenerateDiscipline.
Variable I : trace -> Prop.
Variable F : trace -> Prop.
Hypothesis I_snoc : forall tr a, I tr -> open_action a = true -> I (tr ++ [a]).
Hypothesis F_end : forall tr e,
  I tr -> is_terminal e = true -> F ((tr ++ [Emit e]) ++ [Close]).
Variable describe : fault -> jsstring.
Variable service : remote.
Variable API_KEY : option jsstring.

Lemma generate_poll_loop_loops : forall n i taskId,
  loops I F (Generate.poll_loop service API_KEY n i taskId).
Proof.
  induction n as [|n IH]; intros i taskId; cbn [Generate.poll_loop];
    unfold Generate.sendEvent.
  - apply loops_fallthrough.
  - discipline.
Qed.

Lemma generate_task_closes : forall prompt,
  closes I F (Generate.task describe service API_KEY prompt).
Proof.
  intro prompt. unfold Generate.task, Generate.sendEvent.
  apply closes_try_catch.
  - pose proof (generate_poll_loop_loops Generate.MAX_POLLS 0) as Hloop.
    generalize dependent Generate.MAX_POLLS. intros budget Hloop.
    discipline.
  - intro e. apply closes_finish; [assumption|reflexivity].
Qed.
End GenerateDiscipline.

Section MiddlewareDiscipline.
Variable I : trace -> Prop.
Variable F : trace -> Prop.
Hypothesis I_snoc : forall tr a, I tr -> open_action a = true -> I (tr ++ [a]).
Hypothesis F_end : forall tr e,
  I tr -> is_terminal e = true -> F ((tr ++ [Emit e]) ++ [Close]).
Variable describe : fault -> jsstring.
Variable service : remote.
Variable has : Middleware.res_method -> bool.
Variable BASE_URL : jsstring.
Variable API_KEY : option jsstring.
Hypothesis has_write : has Middleware.m_write = true.
Hypothesis has_end : has Middleware.m_end = true.

Lemma middleware_poll_loop_loops : forall n i taskId,
  loops I F (Middleware.poll_loop service has BASE_URL n i API_KEY taskId).
Proof.
  induction n as [|n IH]; intros i taskId; cbn [Middleware.poll_loop];
    unfold Middleware.sendEvent, Middleware.res_end, Middleware.res_call,
      Middleware.sleep.
  - apply loops_fallthrough.
  - destruct (has Middleware.m_write) eqn:Ew; [|congruence].
    destruct (has Middleware.m_end) eqn:Ee; [|congruence].
    discipline.
Qed.

(** The [try] statement of the route with its [catch] block. *)
Lemma middleware_try_closes : forall (body : M unit),
  ends I F body ->
  closes I F
    (try_catch body
       (fun err =>
          act (ConsoleError err) ;;
          Middleware.sendEvent has
            (error (js "服务器错误: " ++ message_of describe err)) ;;
          Middleware.res_end has)).
Proof.
  intros body Hbody. apply closes_try_catch; [exact Hbody|].
  intro e. unfold Middleware.sendEvent, Middleware.res_end, Middleware.res_call.
  rewrite has_write, has_end.
  apply closes_after; [assumption|reflexivity|].
  apply closes_finish; [assumption|reflexivity].
Qed.

Lemma middleware_body_ends : forall prompt,
  ends I F
    (Middleware.sendEvent has (status (js "正在提交生成任务...")) ;;
     let API_KEY := API_KEY in
     trimmed <- lift (call_trim prompt) ;;
     submitRes <- fetch_submit service (BASE_URL ++ js "v1/images/generations")
                    (bearer API_KEY) trimmed ;;
     if negb (ok submitRes) then
       errText <- lift (text submitRes) ;;
       Middleware.sendEvent has
         (error (js "API 请求失败: " ++ decimalN (http_status submitRes)
                 ++ js " " ++ errText)) ;;
       Middleware.res_end has
     else
       submitData <- lift (parsed submitRes) ;;
       taskId <- lift (get_prop (Some submitData) (js "task_id")) ;;
       Middleware.sendEvent has (status (js "任务已提交，正在生成中...")) ;;
       exit <- Middleware.poll_loop service has BASE_URL Middleware.MAX_POLLS 0
                 API_KEY taskId ;;
       match exit with
       | Returned => ret tt
       | Fallthrough =>
           Middleware.sendEvent has (error (js "生成超时，请重试")) ;;
           Middleware.res_end has
       end).
Proof.
  intro prompt.
  pose proof (middleware_poll_loop_loops Middleware.MAX_POLLS 0) as Hloop.
  generalize dependent Middleware.MAX_POLLS. intros budget Hloop.
  unfold Middleware.sendEvent, Middleware.res_end, Middleware.res_call.
  destruct (has Middleware.m_write) eqn:Ew; [|congruence].
  destruct (has Middleware.m_end) eqn:Ee; [|congruence].
  cbv zeta. discipline.
Qed.
End MiddlewareDiscipline.

Lemma finished_events : forall tr,
  finished tr ->
  exists evs e,
    events_of tr = evs ++ [e] /\ is_terminal e = true
    /\ forallb (fun x => negb (is_terminal x)) evs = true.
Proof.
  intros tr (pre & e & -> & Hpre & He).
  exists (events_of pre), e. rewrite events_of_app. cbn.
  split; [reflexivity|]. split; [exact He|].
  clear He e. induction pre as [|a pre IH]; [reflexivity|].
  unfold running in Hpre. cbn in Hpre. apply andb_true_iff in Hpre as [Ha Hpre].
  destruct a; cbn; auto. cbn in Ha. rewrite Ha. cbn. auto.
Qed.

(** C2.  Once the prompt has passed the check, and whatever the remote
    service does (acceptance, refusal, a rejected call, a body that does not
    parse, or a loop that runs out of polls), the trace of the request is that
    of an open stream followed by one terminal frame, a complete or an error,
    and then the close, with nothing after it: the frames are status frames
    followed by that single terminal frame. *)
Theorem stream_ends_exactly_once :
  forall describe service API_KEY (body : json) s,
    get_prop (Some body) (js "prompt") = Ok (Some (JStr s)) ->
    is_empty (trim s) = false ->
    (let tr := snd (Generate.onRequestPost describe service API_KEY (Ok body) []) in
     finished tr
     /\ exists evs e,
          events_of tr = evs ++ [e] /\ is_terminal e = true
          /\ forallb (fun x => negb (is_terminal x)) evs = true)
    /\
    (forall has BASE_URL,
     has Middleware.m_setHeader = true ->
     has Middleware.m_write = true ->
     has Middleware.m_end = true ->
     let tr := snd (Middleware.route describe service has BASE_URL API_KEY
                      (Some body) []) in
     finished tr
     /\ exists evs e,
          events_of tr = evs ++ [e] /\ is_terminal e = true
          /\ forallb (fun x => negb (is_terminal x)) evs = true).
Proof.
  intros describe service API_KEY body s Hprompt Htrim.
  apply is_empty_false in Htrim. split.
  - intro tr. subst tr.
    rewrite (@GenerateFacts.onRequestPost_accepts service API_KEY describe body s
               Hprompt Htrim).
    cbn [snd].
    destruct (@generate_task_closes running finished running_snoc finished_snoc2
                describe service API_KEY (Some (JStr s)) [] eq_refl)
      as (tr' & -> & Hfin).
    cbn [snd]. split; [exact Hfin|apply finished_events, Hfin].
  - intros has BASE_URL Hset Hwrite Hend tr. subst tr.
    unfold Middleware.route. run.
    rewrite (usable_prompt_accepted s Htrim). run.
    unfold Middleware.res_call. rewrite Hset. cbv iota. run.
    match goal with
    | |- context [try_catch ?b ?h ?t] =>
        destruct (@middleware_try_closes running finished running_snoc
                    finished_snoc2 describe has Hwrite Hend b
                    (@middleware_body_ends running finished running_snoc
                       finished_snoc2 service has BASE_URL API_KEY Hwrite Hend
                       (Some (JStr s)))
                    t eq_refl)
          as (tr' & -> & Hfin)
    end.
    cbn [snd]. split; [exact Hfin|apply finished_events, Hfin].
Qed.

Lemma stream_ends_exactly_once_witness :
  let tr := snd (Generate.onRequestPost Scenario.v8 Scenario.offline Scenario.key
                   (Ok (Scenario.request (js "a cat"))) []) in
  finished tr
  /\ exists evs e,
       events_of tr = evs ++ [e] /\ is_terminal e = true
       /\ forallb (fun x => negb (is_terminal x)) evs = true.
Proof.
  apply (proj1 (@stream_ends_exactly_once Scenario.v8 Scenario.offline Scenario.key
           (Scenario.request (js "a cat")) (js "a cat")
           ltac:(vm_compute; reflexivity) ltac:(vm_compute; reflexivity))).
Defined.

(* ================================================================== *)
(** ** The first poll *)

Lemma extension_refl : forall tr, extension tr tr.
Proof. intro tr. exists []. rewrite app_nil_r. reflexivity. Qed.

Lemma extension_snoc : forall tr0 tr a,
  extension tr0 tr -> open_action a = true -> extension tr0 (tr ++ [a]).
Proof.
  intros tr0 tr a [added ->] _. exists (added ++ [a]). rewrite app_assoc. reflexivity.
Qed.

Lemma extension_end : forall tr0 tr e,
  extension tr0 tr -> is_terminal e = true ->
  extension tr0 ((tr ++ [Emit e]) ++ [Close]).
Proof.
  intros tr0 tr e [added ->] _. exists (added ++ [Emit e; Close]).
  rewrite <- !app_assoc. reflexivity.
Qed.

Lemma generate_first_poll : forall service API_KEY n i taskId id tr,
  to_string_value taskId = Ok id ->
  extension ((tr ++ [Sleep 3000%N])
             ++ [Poll (GenerateTrace.poll_url id) (bearer API_KEY)])
    (snd (Generate.poll_loop service API_KEY (S n) i taskId tr)).
Proof.
  intros service API_KEY n i taskId id tr Hid.
  cbn [Generate.poll_loop]. unfold Generate.sendEvent. run.
  fold (GenerateTrace.poll_url id).
  set (tr1 := (tr ++ [Sleep 3000%N])
              ++ [Poll (GenerateTrace.poll_url id) (bearer API_KEY)]).
  pose proof (@extension_snoc tr1) as Hsnoc.
  pose proof (@extension_end tr1) as Hend.
  pose proof (@generate_poll_loop_loops _ _ Hsnoc Hend service API_KEY n) as Hloop.
  destruct (on_poll service (count_polls (tr ++ [Sleep 3000%N]))) as [rp|e];
    [|apply extension_refl].
  match goal with
  | |- extension tr1 (snd (?m tr1)) =>
      assert (Hm : loops (extension tr1) (extension tr1) m) by discipline;
      apply (loops_steady (fun t H => H) Hm)
  end.
  apply extension_refl.
Qed.

Lemma middleware_first_poll :
  forall service has BASE_URL API_KEY n i taskId id tr,
    has Middleware.m_write = true ->
    has Middleware.m_end = true ->
    to_string_value taskId = Ok id ->
    extension ((tr ++ [Sleep 3000%N])
               ++ [Poll (MiddlewareTrace.poll_url BASE_URL id) (bearer API_KEY)])
      (snd (Middleware.poll_loop service has BASE_URL (S n) i API_KEY taskId tr)).
Proof.
  intros service has BASE_URL API_KEY n i taskId id tr Hwrite Hend' Hid.
  cbn [Middleware.poll_loop].
  unfold Middleware.sendEvent, Middleware.res_end, Middleware.res_call,
    Middleware.sleep.
  destruct (has Middleware.m_write) eqn:Ew; [|congruence].
  destruct (has Middleware.m_end) eqn:Ee; [|congruence].
  rewrite run_act. rewrite Hid. rewrite run_lift_ok. rewrite run_fetch_poll.
  fold (MiddlewareTrace.poll_url BASE_URL id).
  set (tr1 := (tr ++ [Sleep 3000%N])
              ++ [Poll (MiddlewareTrace.poll_url BASE_URL id) (bearer API_KEY)]).
  pose proof (@extension_snoc tr1) as Hsnoc.
  pose proof (@extension_end tr1) as Hend.
  pose proof (@middleware_poll_loop_loops _ _ Hsnoc Hend service has BASE_URL
                API_KEY Ew Ee n) as Hloop.
  destruct (on_poll service (count_polls (tr ++ [Sleep 3000%N]))) as [rp|e];
    [|apply extension_refl].
  match goal with
  | |- extension tr1 (snd (?m tr1)) =>
      assert (Hm : loops (extension tr1) (extension tr1) m) by discipline;
      apply (loops_steady (fun t H => H) Hm)
  end.
  apply extension_refl.
Qed.

(** C10.  When the submit call succeeds with a body that has no [task_id],
    nothing is checked and no error frame is written at that point: the trace
    begins with the submission status, the submit call and the submitted
    status, and goes on into the loop, whose first poll, after the delay, is
    the GET of [v1/tasks/undefined]. *)
Theorem missing_task_id_is_polled_as_undefined :
  forall describe service API_KEY (body : json) s,
    get_prop (Some body) (js "prompt") = Ok (Some (JStr s)) ->
    is_empty (trim s) = false ->
    accepted_task (on_submit service) = Some None ->
    extension
      [Emit (status (js "正在提交生成任务..."));
       Submit (Generate.BASE_URL ++ js "v1/images/generations") (bearer API_KEY)
         model_name (trim s);
       Emit (status (js "任务已提交，正在生成中..."));
       Sleep 3000%N;
       Poll (Generate.BASE_URL ++ js "v1/tasks/" ++ js "undefined") (bearer API_KEY)]
      (snd (Generate.onRequestPost describe service API_KEY (Ok body) []))
    /\
    (forall has BASE_URL,
     has Middleware.m_setHeader = true ->
     has Middleware.m_write = true ->
     has Middleware.m_end = true ->
     extension
       [ResSetHeader (js "Content-Type") (js "text/event-stream");
        ResSetHeader (js "Cache-Control") (js "no-cache");
        ResSetHeader (js "Connection") (js "keep-alive");
        Emit (status (js "正在提交生成任务..."));
        Submit (BASE_URL ++ js "v1/images/generations") (bearer API_KEY)
          model_name (trim s);
        Emit (status (js "任务已提交，正在生成中..."));
        Sleep 3000%N;
        Poll (BASE_URL ++ js "v1/tasks/" ++ js "undefined") (bearer API_KEY)]
       (snd (Middleware.route describe service has BASE_URL API_KEY (Some body) []))).
Proof.
  intros describe service API_KEY body s Hprompt Htrim Hacc.
  apply is_empty_false in Htrim.
  destruct (accepted_task_inv _ Hacc) as (rp & d & Hsub & Hok & Hd & Htid).
  split.
  - rewrite (@GenerateFacts.onRequestPost_accepts service API_KEY describe body s
               Hprompt Htrim).
    cbn [snd].
    rewrite (@GenerateFacts.task_polling service API_KEY describe s rp d None
               Hsub Hok Hd Htid).
    pose proof (@generate_first_poll service API_KEY 39 0 None (js "undefined")
                  (GenerateTrace.head_trace API_KEY s) eq_refl) as [added Hadd].
    change Generate.MAX_POLLS with 40.
    destruct (Generate.poll_loop service API_KEY 40 0 None
                (GenerateTrace.head_trace API_KEY s)) as [[[|]|e] tr];
      cbn [snd] in *; subst tr.
    + exists added. reflexivity.
    + exists (added ++ [Emit (error (js "生成超时，请重试")); Close]).
      rewrite <- !app_assoc. reflexivity.
    + exists (added ++ [Emit (error (js "服务器错误: " ++ message_of describe e));
                        Close]).
      rewrite <- !app_assoc. reflexivity.
  - intros has BASE_URL Hset Hwrite Hend.
    rewrite (@MiddlewareFacts.route_polling describe service has BASE_URL API_KEY
               Hset Hwrite Hend (Some body) s rp d None Hprompt Htrim Hsub Hok Hd
               Htid).
    pose proof (@middleware_first_poll service has BASE_URL API_KEY 59 0 None
                  (js "undefined")
                  (MiddlewareTrace.head_trace BASE_URL API_KEY s) Hwrite Hend
                  eq_refl) as [added Hadd].
    change Middleware.MAX_POLLS with 60.
    destruct (Middleware.poll_loop service has BASE_URL 60 0 API_KEY None
                (MiddlewareTrace.head_trace BASE_URL API_KEY s)) as [[[|]|e] tr];
      cbn [snd] in *; subst tr.
    + exists added. reflexivity.
    + exists (added ++ [Emit (error (js "生成超时，请重试")); Close]).
      rewrite <- !app_assoc. reflexivity.
    + exists (added ++ [ConsoleError e;
                        Emit (error (js "服务器错误: " ++ message_of describe e));
                        Close]).
      rewrite <- !app_assoc. reflexivity.
Qed.

Lemma failed_job_reports_reason_witness :
  let service := Scenario.script Scenario.submitted 1 Scenario.failed in
  let tr := snd (Generate.onRequestPost Scenario.v8 service Scenario.key
                   (Ok (Scenario.request (js "a cat"))) []) in
  exists m,
    events_of tr
    = [status (js "正在提交生成任务..."); status (js "任务已提交，正在生成中...")]
      ++ map (fun k => status (js "生成中... (" ++ decimal k ++ js ")")) (seq 1 1)
      ++ [error m]
    /\ (exists pre, tr = pre ++ [Emit (error m); Close])
    /\ (forall r, failure_reason Scenario.failed_body = Some (JStr r) ->
          includes r m /\ (r <> [] -> m = js "生成失败: " ++ r))
    /\ (failure_reason Scenario.failed_body = None ->
        m = js "生成失败: " ++ js "未知原因").
Proof.
  intro service.
  apply (proj1 (@failed_job_reports_reason Scenario.v8 service Scenario.key
           (Scenario.request (js "a cat")) (js "a cat")
           (Some (JStr (js "task-1"))) (js "task-1") 1 Scenario.failed_body
           ltac:(vm_compute; reflexivity) ltac:(vm_compute; reflexivity)
           ltac:(vm_compute; reflexivity) eq_refl
           ltac:(intros [|k] Hk; [vm_compute; reflexivity|lia])
           ltac:(vm_compute; reflexivity) ltac:(vm_compute; reflexivity))).
  unfold Generate.MAX_POLLS. lia.
Defined.

Lemma missing_task_id_is_polled_as_undefined_witness :
  extension
    [Emit (status (js "正在提交生成任务..."));
     Submit (Generate.BASE_URL ++ js "v1/images/generations") (bearer Scenario.key)
       model_name (trim (js "a cat"));
     Emit (status (js "任务已提交，正在生成中..."));
     Sleep 3000%N;
     Poll (Generate.BASE_URL ++ js "v1/tasks/" ++ js "undefined")
       (bearer Scenario.key)]
    (snd (Generate.onRequestPost Scenario.v8
            (Scenario.script Scenario.submitted_without_id 1 Scenario.succeeded_list)
            Scenario.key (Ok (Scenario.request (js "a cat"))) [])).
Proof.
  apply (proj1 (@missing_task_id_is_polled_as_undefined Scenario.v8
           (Scenario.script Scenario.submitted_without_id 1 Scenario.succeeded_list)
           Scenario.key (Scenario.request (js "a cat")) (js "a cat")
           ltac:(vm_compute; reflexivity) ltac:(vm_compute; reflexivity)
           ltac:(vm_compute; reflexivity))).
Defined.

(* ================================================================== *)
(** ** The shim *)

Lemma fakeRes_call_keeps : forall a f r,
  Middleware.resolved f = Some r ->
  Middleware.resolved (snd (Middleware.fakeRes_call a f)) = Some r.
Proof.
  intros a f r H.
  destruct a; cbn [Middleware.fakeRes_call snd]; try exact H;
    unfold Middleware.fakeRes_write, Middleware.fakeRes_end,
      Middleware.writer_write, Middleware.new_Response;
    cbn;
    repeat (match goal with
            | |- context [if ?c then _ else _] => destruct c
            end; cbn);
    rewrite ?H; first [reflexivity | exact H].
Qed.

Lemma fakeRes_fold_keeps : forall (tr : trace) f r,
  Middleware.resolved f = Some r ->
  Middleware.resolved (fold_left Middleware.fakeRes_step tr f) = Some r.
Proof.
  induction tr as [|a tr IH]; intros f r H; [exact H|].
  cbn [fold_left]. apply IH. apply fakeRes_call_keeps. exact H.
Qed.

(** The parts of [fakeRes] that only [write] and [end] touch. *)
Lemma fakeRes_quiet : forall tr f,
  forallb (fun a => negb (Shim.answers a)) tr = true ->
  let f' := fold_left Middleware.fakeRes_step tr f in
  Middleware.resolved f' = Middleware.resolved f
  /\ Middleware._stream f' = Middleware._stream f
  /\ Middleware._writer f' = Middleware._writer f
  /\ Middleware._closed f' = Middleware._closed f
  /\ Middleware.written f' = Middleware.written f
  /\ Middleware.res_headers f' = Middleware.res_headers f
  /\ Middleware.res_body f' = Middleware.res_body f
  /\ Middleware.statusCode f'
     = fold_left (fun code a => match a with ResStatus c => c | _ => code end) tr
         (Middleware.statusCode f).
Proof.
  induction tr as [|a tr IH]; intros f H; cbn zeta.
  - cbn. repeat split; reflexivity.
  - cbn [forallb] in H. apply andb_true_iff in H as [Ha Htr].
    cbn [fold_left]. specialize (IH (Middleware.fakeRes_step f a) Htr).
    cbn zeta in IH.
    destruct IH as (H1 & H2 & H3 & H4 & H5 & H6 & H7 & H8).
    rewrite H1, H2, H3, H4, H5, H6, H7, H8.
    destruct a; try discriminate; cbn; repeat split; reflexivity.
Qed.

Lemma new_Response_admitted : forall b code hs,
  Middleware.admits_body code = true ->
  Middleware.new_Response b code hs
  = inr {| status_code := code;
           headers := match b with
                      | PlainText _ =>
                          if Middleware.has_content_type hs then hs
                          else hs ++ [(js "content-type",
                                       js "text/plain;charset=UTF-8")]
                      | _ => hs
                      end;
           body := b |}.
Proof.
  intros b code hs H. unfold Middleware.admits_body in H.
  apply andb_true_iff in H as [Hrange Hnull].
  apply andb_true_iff in Hrange as [Hlo Hhi].
  apply N.leb_le in Hlo. apply N.leb_le in Hhi.
  unfold Middleware.new_Response.
  replace (code <? 200)%N with false by (symmetry; apply N.ltb_ge; exact Hlo).
  replace (599 <? code)%N with false by (symmetry; apply N.ltb_ge; exact Hhi).
  cbn [orb]. destruct (Middleware.null_body_status code); [discriminate|].
  reflexivity.
Qed.

Lemma new_Response_refused : forall b code hs,
  Middleware.admits_body code = false ->
  exists thrown, Middleware.new_Response b code hs = inl thrown.
Proof.
  intros b code hs H. unfold Middleware.new_Response.
  destruct ((code <? 200) || (599 <? code))%N eqn:Hrange; [eauto|].
  destruct (Middleware.null_body_status code) eqn:Hnull; [eauto|].
  exfalso. unfold Middleware.admits_body in H. rewrite Hnull in H.
  apply orb_false_iff in Hrange as [Hlo Hhi].
  apply N.ltb_ge in Hlo. apply N.ltb_ge in Hhi.
  apply N.leb_le in Hlo. apply N.leb_le in Hhi.
  rewrite Hlo, Hhi in H. discriminate.
Qed.

(** X3.  [fakeRes] answers at its first [write] or [end], when the status in
    force there (the last [status(code)] before it, 200 by default) is one
    with which a response takes a body: it answers with that status, with a
    stream at a [write], and at an [end()] with the empty text and the
    content type that a text brings; no later call changes the answer.  With
    any other status (outside 200..599, or 204, 205, 304) [new Response]
    throws, so does the call, and it answers nothing. *)
Theorem fakeRes_first_answer :
  forall (before : trace) a (later : trace),
    forallb (fun x => negb (Shim.answers x)) before = true ->
    Shim.answers a = true ->
    (Middleware.admits_body (Shim.status_after before) = true ->
     fst (Middleware.fakeRes_call a (Shim.after before)) = None
     /\ Middleware.resolved (Shim.after (before ++ a :: later))
        = Some {| status_code := Shim.status_after before;
                  headers := match a with
                             | Close => [(js "content-type",
                                          js "text/plain;charset=UTF-8")]
                             | _ => []
                             end;
                  body := match a with Close => PlainText [] | _ => Readable end |})
    /\
    (Middleware.admits_body (Shim.status_after before) = false ->
     fst (Middleware.fakeRes_call a (Shim.after before)) <> None
     /\ Middleware.resolved (Shim.after (before ++ [a])) = None).
Proof.
  intros before a later Hq Ha. unfold Shim.after.
  destruct (@fakeRes_quiet before Middleware.fakeRes_new Hq)
    as (H1 & H2 & H3 & H4 & H5 & H6 & H7 & H8).
  cbn zeta in *. cbn in H1, H2, H3, H4, H5, H6, H7, H8.
  fold (Shim.status_after before) in H8.
  set (f := fold_left Middleware.fakeRes_step before Middleware.fakeRes_new) in *.
  split; intro Hcode.
  - assert (Hcall : fst (Middleware.fakeRes_call a f) = None
                    /\ Middleware.resolved (snd (Middleware.fakeRes_call a f))
                       = Some {| status_code := Shim.status_after before;
                                 headers := match a with
                                            | Close => [(js "content-type",
                                                         js "text/plain;charset=UTF-8")]
                                            | _ => []
                                            end;
                                 body := match a with
                                         | Close => PlainText []
                                         | _ => Readable
                                         end |}).
    { destruct a; try discriminate; cbn [Middleware.fakeRes_call].
      - unfold Middleware.fakeRes_write. rewrite H2.
        cbn [Middleware.open_stream Middleware.statusCode Middleware.res_headers].
        rewrite H8, H6, (@new_Response_admitted Readable _ [] Hcode).
        unfold Middleware.writer_write. cbn. rewrite H1, H4. cbn. auto.
      - unfold Middleware.fakeRes_end. cbn. rewrite H3, H7, H8, H6.
        rewrite (@new_Response_admitted (PlainText []) _ [] Hcode).
        cbn. rewrite H1. auto. }
    destruct Hcall as [Hnone Hres]. split; [exact Hnone|].
    rewrite fold_left_app. cbn [fold_left]. apply fakeRes_fold_keeps.
    exact Hres.
  - rewrite fold_left_app. cbn [fold_left]. fold f.
    unfold Middleware.fakeRes_step.
    destruct a; try discriminate; cbn [Middleware.fakeRes_call].
    + unfold Middleware.fakeRes_write. rewrite H2.
      cbn [Middleware.open_stream Middleware.statusCode Middleware.res_headers].
      rewrite H8, H6.
      destruct (@new_Response_refused Readable _ [] Hcode) as [thrown ->].
      cbn. rewrite H1. split; [discriminate|reflexivity].
    + unfold Middleware.fakeRes_end. cbn. rewrite H3, H7, H8, H6.
      destruct (@new_Response_refused (PlainText []) _ [] Hcode) as [thrown ->].
      cbn. rewrite H1. split; [discriminate|reflexivity].
Qed.

Lemma fakeRes_first_answer_witness :
  (Middleware.admits_body (Shim.status_after [ResStatus 400%N; ResStatus 201%N]) = true ->
   fst (Middleware.fakeRes_call (Emit (status (js "a")))
          (Shim.after [ResStatus 400%N; ResStatus 201%N])) = None
   /\ Middleware.resolved
        (Shim.after ([ResStatus 400%N; ResStatus 201%N]
                     ++ Emit (status (js "a")) :: [ResStatus 500%N; Close]))
      = Some {| status_code := Shim.status_after [ResStatus 400%N; ResStatus 201%N];
                headers := [];
                body := Readable |})
  /\
  (Middleware.admits_body (Shim.status_after [ResStatus 400%N; ResStatus 201%N]) = false ->
   fst (Middleware.fakeRes_call (Emit (status (js "a")))
          (Shim.after [ResStatus 400%N; ResStatus 201%N])) <> None
   /\ Middleware.resolved
        (Shim.after ([ResStatus 400%N; ResStatus 201%N] ++ [Emit (status (js "a"))]))
      = None).
Proof.
  apply (@fakeRes_first_answer [ResStatus 400%N; ResStatus 201%N]
           (Emit (status (js "a"))) [ResStatus 500%N; Close]);
    reflexivity.
Defined.

(** X4.  The callback handed to the router,
    [fakeRes.status(404).end('Not Found')], run on a [fakeRes] that has not
    been written to or ended, whatever statuses were set on it: it throws
    nothing and answers 404, through a stream that [end] opens for the text
    and closes. *)
Theorem not_found_answers_404 :
  forall tr : trace,
    forallb (fun a => negb (Shim.answers a)) tr = true ->
    fst (Middleware.not_found (Shim.after tr)) = None
    /\ Middleware.resolved (snd (Middleware.not_found (Shim.after tr)))
       = Some {| status_code := 404%N; headers := []; body := Readable |}
    /\ Middleware.written (snd (Middleware.not_found (Shim.after tr)))
       = [Middleware.Text (js "Not Found")]
    /\ Middleware._stream (snd (Middleware.not_found (Shim.after tr))) = true
    /\ Middleware._closed (snd (Middleware.not_found (Shim.after tr))) = true.
Proof.
  intros tr Hq. unfold Shim.after.
  destruct (@fakeRes_quiet tr Middleware.fakeRes_new Hq)
    as (H1 & H2 & H3 & H4 & H5 & H6 & _).
  cbn zeta in *.
  apply not_found_on_untouched; assumption.
Qed.

Lemma not_found_answers_404_witness :
  Middleware.resolved (snd (Middleware.not_found (Shim.after [ResStatus 400%N])))
  = Some {| status_code := 404%N; headers := []; body := Readable |}.
Proof.
  exact (proj1 (proj2 (@not_found_answers_404 [ResStatus 400%N] eq_refl))).
Defined.

(* ================================================================== *)
(** ** The entry point of the adapter *)

(** X5.  The Express adapter relays nothing.  Run through [module.exports],
    a POST to [/api/generate] never gets as far as a frame or a remote call,
    whatever the request, the key and the remote service: the route, when
    the router runs it, throws (at [req.body], at [res.status(400).json])
    before anything is written or ended, and the callback of the adapter
    answers 404.  The key has been stored in [process.env] as a text. *)
Theorem module_exports_never_relays :
  forall describe service router API_KEY has_body,
    fst (Middleware.module_exports describe service router API_KEY has_body)
    = match API_KEY with Some k => k | None => js "undefined" end
    /\ exists o,
         snd (Middleware.module_exports describe service router API_KEY has_body)
         = Some o
         /\ events_of (Middleware.effects o) = []
         /\ remote_calls (Middleware.effects o) = 0
         /\ option_map status_code (Middleware.response o) = Some 404%N.
Proof.
  intros describe service router API_KEY has_body.
  split; [reflexivity|].
  unfold Middleware.module_exports. cbn [snd].
  destruct (adapter_answers_not_found describe service router
              (js "https://api-inference.modelscope.cn/")
              (Some match API_KEY with Some k => k | None => js "undefined" end)
              has_body)
    as (o & Ho & Hresp & _ & _ & Heff).
  exists o. split; [exact Ho|].
  rewrite Hresp. destruct Heff as [-> | ->]; repeat split; reflexivity.
Qed.

(* ================================================================== *)
(** ** The prompt check *)

(** X6.  A prompt that is neither falsy nor a string (a non-zero number,
    [true], an array, an object) is not answered with the 400 rejection: the
    check calls [prompt.trim], which such a value does not have, and both
    handlers throw that TypeError before any frame, remote call or call on the
    response object. *)
Theorem non_string_prompt_throws :
  forall describe service API_KEY (body : json) prompt,
    get_prop (Some body) (js "prompt") = Ok prompt ->
    falsy prompt = false ->
    (forall s, prompt <> Some (JStr s)) ->
    Generate.onRequestPost describe service API_KEY (Ok body) []
    = (Throw (TypeError (NotAFunction (js "prompt.trim"))), [])
    /\ (forall has BASE_URL,
          Middleware.route describe service has BASE_URL API_KEY (Some body) []
          = (Throw (TypeError (NotAFunction (js "prompt.trim"))), [])).
Proof.
  intros describe service API_KEY body prompt Hprompt Hfalsy Hstr.
  assert (Hrej : prompt_rejected prompt
                 = Throw (TypeError (NotAFunction (js "prompt.trim")))).
  { unfold prompt_rejected. rewrite Hfalsy.
    destruct prompt as [[| | |s| |]|]; try discriminate; try reflexivity.
    destruct (Hstr s eq_refl). }
  split.
  - unfold Generate.onRequestPost. run. reflexivity.
  - intros has BASE_URL. unfold Middleware.route. run. reflexivity.
Qed.

Lemma non_string_prompt_throws_witness :
  let body := JObj [(js "prompt", JArr [JStr (js "a cat")])] in
  Generate.onRequestPost Scenario.v8 Scenario.offline Scenario.key (Ok body) []
  = (Throw (TypeError (NotAFunction (js "prompt.trim"))), [])
  /\ Middleware.route Scenario.v8 Scenario.offline Middleware.full_res Scenario.base
       Scenario.key (Some body) []
     = (Throw (TypeError (NotAFunction (js "prompt.trim"))), []).
Proof.
  intro body.
  pose proof (@non_string_prompt_throws Scenario.v8 Scenario.offline Scenario.key
                body (Some (JArr [JStr (js "a cat")]))
                ltac:(vm_compute; reflexivity) eq_refl
                ltac:(intros s H; discriminate)) as [Hedge Hroute].
  split; [exact Hedge|exact (Hroute Middleware.full_res Scenario.base)].
Defined.

(* ================================================================== *)
(** ** The shape of every run *)

Lemma not_the_timeout : forall (prefix rest : jsstring) n,
  nth n prefix 0%N <> nth n timeout_text 0%N ->
  n < List.length prefix ->
  prefix ++ rest <> timeout_text.
Proof.
  intros prefix rest n Hne Hlen Heq. apply Hne.
  rewrite <- Heq. rewrite app_nth1 by exact Hlen. reflexivity.
Qed.

Lemma failure_is_not_timeout : forall r, js "生成失败: " ++ r <> timeout_text.
Proof.
  intro r. apply (@not_the_timeout _ r 2); vm_compute; [discriminate|lia].
Qed.

Lemma picture_failure_is_not_timeout : forall r, js "图片生成失败: " ++ r <> timeout_text.
Proof.
  intro r. apply (@not_the_timeout _ r 0); vm_compute; [discriminate|lia].
Qed.

Lemma poll_failure_is_not_timeout : forall r, js "轮询失败: " ++ r <> timeout_text.
Proof.
  intro r. apply (@not_the_timeout _ r 0); vm_compute; [discriminate|lia].
Qed.

Lemma refusal_is_not_timeout : forall r, js "API 请求失败: " ++ r <> timeout_text.
Proof.
  intro r. apply (@not_the_timeout _ r 0); vm_compute; [discriminate|lia].
Qed.

Lemma server_error_is_not_timeout : forall r, js "服务器错误: " ++ r <> timeout_text.
Proof.
  intro r. apply (@not_the_timeout _ r 0); vm_compute; [discriminate|lia].
Qed.

Lemma error_is_not_timeout : forall m,
  m <> timeout_text -> error m <> error timeout_text.
Proof.
  intros m H E.
  apply (f_equal (fun e => match e with error t => t | _ => [] end)) in E.
  exact (H E).
Qed.

Lemma loop_ends_throw : forall tr rounds a b n good final err,
  rounds 0 = [] -> good 0 = false ->
  loop_ends (Throw err, (tr ++ [a]) ++ [b]) tr rounds [a; b] (S n) good final.
Proof.
  intros tr rounds a b n good final err H0 Hg. exists 0. split; [intros j Hj; lia|].
  right. left. split; [lia|]. split; [exact Hg|].
  exists err. rewrite H0. cbn [app]. rewrite <- app_assoc. reflexivity.
Qed.

Lemma loop_ends_done : forall tr rounds a b n good (final : nat -> event -> Prop) ev,
  rounds 0 = [] -> good 0 = false ->
  is_terminal ev = true -> ev <> error timeout_text -> final 0 ev ->
  loop_ends (Ok Returned, (((tr ++ [a]) ++ [b]) ++ [Emit ev]) ++ [Close])
    tr rounds [a; b] (S n) good final.
Proof.
  intros tr rounds a b n good final ev H0 Hg Ht Hne Hfin. exists 0.
  split; [intros j Hj; lia|].
  right. right. split; [lia|]. split; [exact Hg|].
  exists ev. split; [exact Ht|]. split; [exact Hne|]. split; [exact Hfin|].
  rewrite H0. cbn [app]. rewrite <- !app_assoc. reflexivity.
Qed.

Lemma loop_ends_next :
  forall out tr round rounds rounds' probe n good good'
         (final final' : nat -> event -> Prop),
  (forall k, rounds (S k) = round ++ rounds' k) ->
  good 0 = true ->
  (forall j, good' j = good (S j)) ->
  (forall j ev, final' j ev -> final (S j) ev) ->
  loop_ends out (tr ++ round) rounds' probe n good' final' ->
  loop_ends out tr rounds probe (S n) good final.
Proof.
  intros out tr round rounds rounds' probe n good good' final final' Hr Hg Hgg Hff
         [k [Hall [[Hk H]|[(Hk & Hbad & err & H)
                          |(Hk & Hbad & ev & Ht & Hne & Hfin & H)]]]];
    exists (S k); (split; [intros [|j] Hj; [exact Hg|rewrite <- Hgg; apply Hall; lia]|]);
    rewrite H, Hr.
  - left. split; [lia|]. rewrite <- ?app_assoc. reflexivity.
  - right. left. split; [lia|]. split; [rewrite <- Hgg; exact Hbad|].
    exists err. rewrite <- ?app_assoc. reflexivity.
  - right. right. split; [lia|]. split; [rewrite <- Hgg; exact Hbad|]. exists ev.
    split; [exact Ht|]. split; [exact Hne|]. split; [apply Hff, Hfin|].
    rewrite <- ?app_assoc. reflexivity.
Qed.

Section Settling.
Variable setup : trace.
Variable logs : bool.
Variable describe : fault -> jsstring.
Variables submit_url poll_url authorization prompt : jsstring.
Variable pending_message : nat -> jsstring.
Variable budget : nat.
Variable good : nat -> bool.
Variable final : nat -> event -> Prop.

(** A poll loop that ran after the submitted status gives a run of one of
    the three polling shapes. *)
Lemma settled_loop : forall out,
  loop_ends out
    (setup ++ [Emit (status (js "正在提交生成任务..."));
               Submit submit_url authorization model_name prompt;
               Emit (status (js "任务已提交，正在生成中..."))])
    (pending_rounds poll_url authorization pending_message 0)
    [Sleep 3000%N; Poll poll_url authorization] budget good final ->
  exists e,
    polling_end e = true /\ admissible budget e /\ led_by good budget e
    /\ judged final e
    /\ settled logs describe out
       = run_trace setup logs describe submit_url poll_url authorization prompt
           pending_message budget e.
Proof.
  intros out
    [k [Hall [[Hk H]|[(Hk & Hbad & err & H)
                     |(Hk & Hbad & ev & Ht & Hne & Hfin & H)]]]];
    subst out.
  - subst k. exists TimedOut. split; [reflexivity|]. split; [exact Logic.I|].
    split; [split; [exact Hall|exact Logic.I]|]. split; [exact Logic.I|].
    unfold settled, run_trace. cbn [app]. rewrite <- !app_assoc. reflexivity.
  - exists (Broke k err). split; [reflexivity|]. split; [exact Hk|].
    split; [split; [exact Hall|exact Hbad]|]. split; [exact Logic.I|].
    unfold settled, run_trace, polled. cbn [app]. rewrite <- !app_assoc. reflexivity.
  - exists (Done k ev). split; [reflexivity|]. split; [cbn; auto|].
    split; [split; [exact Hall|exact Hbad]|]. split; [exact Hfin|].
    unfold settled, run_trace, polled. cbn [app]. rewrite <- !app_assoc. reflexivity.
Qed.
End Settling.

Lemma led_by_idle : forall good budget e,
  polling_end e = false -> led_by good budget e.
Proof.
  intros good budget [err|m|err|k err|k ev|] H; try discriminate;
    (split; [intros j Hj; cbn in Hj; lia|exact Logic.I]).
Qed.

Ltac poll_step unfolding :=
  unfolding; run; rewrite count_polls_app, Nat.add_0_r; run; try reflexivity.

(** The reply at hand does not keep the loop going. *)
Ltac not_pending :=
  unfold keeps_polling, keeps_polling_ok, replied_ok, is_pending, task_status_of;
  rewrite Nat.add_0_r;
  repeat match goal with H : _ = _ |- _ => rewrite H; cbn [bind_result negb andb] end;
  rewrite ?andb_false_r; reflexivity.

Ltac final_frame_rest :=
  repeat match goal with
         | |- exists _, _ => eexists
         | |- _ /\ _ => split
         | |- _ = _ => first [eassumption | reflexivity]
         | |- _ \/ _ =>
             first [ left; solve [final_frame_rest]
                   | right; solve [final_frame_rest] ]
         end.

(** The frame at hand is the one the reply at hand is answered with. *)
Ltac final_frame :=
  unfold generate_final, route_final; rewrite Nat.add_0_r;
  repeat match goal with
         | |- exists _, _ => eexists
         | |- _ /\ _ => split
         | |- _ = _ => first [eassumption | reflexivity]
         | |- _ \/ _ =>
             first [ left; solve [final_frame_rest]
                   | right; solve [final_frame_rest] ]
         end.

Lemma count_polls_after_round : forall tr url auth m j,
  count_polls (tr ++ pending_round url auth m) + j = count_polls tr + S j.
Proof.
  intros tr url auth m j. rewrite count_polls_app. cbn. lia.
Qed.

Section GenerateShape.
Import Generate GenerateTrace.
Variable service : remote.
Variable API_KEY : option jsstring.

(** What the loop does from iteration [i] on, with [n] iterations left. *)
Lemma generate_loop_shape : forall n i taskId id tr,
  to_string_value taskId = Ok id ->
  loop_ends (poll_loop service API_KEY n i taskId tr) tr
    (pending_rounds (poll_url id) (bearer API_KEY) pending_message i)
    [Sleep 3000%N; Poll (poll_url id) (bearer API_KEY)] n
    (fun j => keeps_polling service (count_polls tr + j))
    (fun j => generate_final (on_poll service (count_polls tr + j))).
Proof.
  induction n as [|n IH]; intros i taskId id tr Hid.
  - exists 0. split; [intros j Hj; lia|].
    left. split; [reflexivity|]. cbn. rewrite app_nil_r. reflexivity.
  - destruct (on_poll service (count_polls tr)) as [rp|e0] eqn:Hpoll.
    2:{ replace (poll_loop service API_KEY (S n) i taskId tr)
          with (@Throw control e0, (tr ++ [Sleep 3000%N])
                       ++ [Poll (poll_url id) (bearer API_KEY)])
          by (symmetry; poll_step ltac:(cbn [poll_loop]; unfold sendEvent)).
        apply loop_ends_throw; [reflexivity|not_pending]. }
    destruct (parsed rp) as [d|e0] eqn:Hd.
    2:{ replace (poll_loop service API_KEY (S n) i taskId tr)
          with (@Throw control e0, (tr ++ [Sleep 3000%N])
                       ++ [Poll (poll_url id) (bearer API_KEY)])
          by (symmetry; poll_step ltac:(cbn [poll_loop]; unfold sendEvent)).
        apply loop_ends_throw; [reflexivity|not_pending]. }
    destruct (get_prop (Some d) (js "task_status")) as [st|e0] eqn:Hst.
    2:{ replace (poll_loop service API_KEY (S n) i taskId tr)
          with (@Throw control e0, (tr ++ [Sleep 3000%N])
                       ++ [Poll (poll_url id) (bearer API_KEY)])
          by (symmetry; poll_step ltac:(cbn [poll_loop]; unfold sendEvent)).
        apply loop_ends_throw; [reflexivity|not_pending]. }
    destruct (is_string st (js "SUCCEED")) eqn:Hs.
    { destruct (get_prop (Some d) (js "output_images")) as [images|e0] eqn:Hi.
      2:{ replace (poll_loop service API_KEY (S n) i taskId tr)
            with (@Throw control e0, (tr ++ [Sleep 3000%N])
                         ++ [Poll (poll_url id) (bearer API_KEY)])
            by (symmetry; poll_step ltac:(cbn [poll_loop]; unfold sendEvent)).
          apply loop_ends_throw; [reflexivity|not_pending]. }
      destruct (get_first images) as [first|e0] eqn:Hf.
      2:{ replace (poll_loop service API_KEY (S n) i taskId tr)
            with (@Throw control e0, (tr ++ [Sleep 3000%N])
                         ++ [Poll (poll_url id) (bearer API_KEY)])
            by (symmetry; poll_step ltac:(cbn [poll_loop]; unfold sendEvent)).
          apply loop_ends_throw; [reflexivity|not_pending]. }
      destruct (get_prop first (js "url")) as [url|e0] eqn:Hu.
      2:{ replace (poll_loop service API_KEY (S n) i taskId tr)
            with (@Throw control e0, (tr ++ [Sleep 3000%N])
                         ++ [Poll (poll_url id) (bearer API_KEY)])
            by (symmetry; poll_step ltac:(cbn [poll_loop]; unfold sendEvent)).
          apply loop_ends_throw; [reflexivity|not_pending]. }
      replace (poll_loop service API_KEY (S n) i taskId tr)
        with (Ok Returned,
              (((tr ++ [Sleep 3000%N]) ++ [Poll (poll_url id) (bearer API_KEY)])
               ++ [Emit (complete (js "生成完成！") url)]) ++ [Close])
        by (symmetry; poll_step ltac:(cbn [poll_loop]; unfold sendEvent)).
      apply loop_ends_done; [reflexivity|not_pending|reflexivity|discriminate|].
      final_frame. }
    destruct (is_string st (js "FAILED")) eqn:Hfl.
    { destruct (reason_or (Some d) (js "未知原因")) as [reason|e0] eqn:Hr.
      2:{ replace (poll_loop service API_KEY (S n) i taskId tr)
            with (@Throw control e0, (tr ++ [Sleep 3000%N])
                         ++ [Poll (poll_url id) (bearer API_KEY)])
            by (symmetry; poll_step ltac:(cbn [poll_loop]; unfold sendEvent)).
          apply loop_ends_throw; [reflexivity|not_pending]. }
      replace (poll_loop service API_KEY (S n) i taskId tr)
        with (Ok Returned,
              (((tr ++ [Sleep 3000%N]) ++ [Poll (poll_url id) (bearer API_KEY)])
               ++ [Emit (error (js "生成失败: " ++ reason))]) ++ [Close])
        by (symmetry; poll_step ltac:(cbn [poll_loop]; unfold sendEvent)).
      apply loop_ends_done; [reflexivity|not_pending|reflexivity| |final_frame].
      apply error_is_not_timeout, failure_is_not_timeout. }
    rewrite (@GenerateFacts.edge_pending_step service API_KEY n i taskId id tr rp d
               st Hid Hpoll Hd Hst Hs Hfl).
    apply (@loop_ends_next _ tr
             (pending_round (poll_url id) (bearer API_KEY) (pending_message (i + 1)))
             _ (pending_rounds (poll_url id) (bearer API_KEY) pending_message (S i))
             _ n _
             (fun j => keeps_polling service
                         (count_polls (tr ++ pending_round (poll_url id)
                                         (bearer API_KEY) (pending_message (i + 1)))
                          + j))
             _
             (fun j => generate_final
                         (on_poll service
                            (count_polls (tr ++ pending_round (poll_url id)
                                            (bearer API_KEY)
                                            (pending_message (i + 1)))
                             + j)))).
    + intro k. reflexivity.
    + unfold keeps_polling, is_pending, task_status_of.
      rewrite Nat.add_0_r, Hpoll. cbn [bind_result]. rewrite Hd. cbn [bind_result].
      rewrite Hst, Hs, Hfl. reflexivity.
    + intro j. rewrite count_polls_after_round. reflexivity.
    + intros j ev. rewrite count_polls_after_round. exact (fun H => H).
    + apply IH. exact Hid.
Qed.
End GenerateShape.

Section GenerateRun.
Import Generate GenerateTrace.
Variable describe : fault -> jsstring.
Variable service : remote.
Variable API_KEY : option jsstring.

Lemma generate_unrendered : forall n i taskId tr err,
  to_string_value taskId = Throw err ->
  poll_loop service API_KEY (S n) i taskId tr = (Throw err, tr ++ [Sleep 3000%N]).
Proof. intros n i taskId tr err H. cbn [poll_loop]. run. reflexivity. Qed.

(** Every run of the detached function on a string prompt has one of the six
    shapes. *)
Lemma generate_task_shape : forall s,
  exists id e,
    admissible MAX_POLLS e /\ targets service id e
    /\ led_by (keeps_polling service) MAX_POLLS e
    /\ judged (fun k => generate_final (on_poll service k)) e
    /\ task describe service API_KEY (Some (JStr s)) []
       = (Ok tt,
          run_trace [] false describe submit_url (poll_url id) (bearer API_KEY)
            (trim s) pending_message MAX_POLLS e).
Proof.
  intro s. destruct (accepted_task (on_submit service)) as [taskId|] eqn:Hacc.
  - destruct (accepted_task_inv _ Hacc) as (rp & d & Hsub & Hok & Hd & Htid).
    rewrite (@GenerateFacts.task_polling service API_KEY describe s rp d taskId
               Hsub Hok Hd Htid).
    destruct (to_string_value taskId) as [id|err] eqn:Hid.
    + destruct (@settled_loop [] false describe submit_url (poll_url id)
                  (bearer API_KEY) (trim s) pending_message MAX_POLLS _ _ _
                  (@generate_loop_shape service API_KEY MAX_POLLS 0 taskId id
                     (head_trace API_KEY s) Hid))
        as (e & Hpe & Hadm & Hled & Hjud & He).
      exists id, e. split; [exact Hadm|]. split.
      { destruct e; try discriminate; exists taskId; auto. }
      split; [exact Hled|]. split; [exact Hjud|].
      rewrite <- He.
      destruct (poll_loop service API_KEY MAX_POLLS 0 taskId (head_trace API_KEY s))
        as [[[|]|err] tr]; unfold settled, caught; cbn [app];
        rewrite <- ?app_assoc; reflexivity.
    + exists [], (Unrendered err). split; [cbn; unfold MAX_POLLS; lia|].
      split; [exact Logic.I|]. split; [apply led_by_idle; reflexivity|]. split; [exact Logic.I|].
      change MAX_POLLS with (S 39) at 1.
      rewrite (@generate_unrendered 39 0 taskId (head_trace API_KEY s) err Hid).
      unfold run_trace, caught, head_trace. cbn [app]. reflexivity.
  - exists []. unfold task, try_catch, sendEvent.
    generalize MAX_POLLS as budget. intro budget. cbn [call_trim].
    unfold accepted_task in Hacc.
    destruct (on_submit service) as [rp|err] eqn:Hsub.
    2:{ exists (SubmitThrew err). split; [exact Logic.I|]. split; [exact Logic.I|].
        split; [apply led_by_idle; reflexivity|]. split; [exact Logic.I|].
        run. reflexivity. }
    destruct (ok rp) eqn:Hok.
    2:{ destruct (text rp) as [t|err] eqn:Ht.
        - exists (SubmitRefused (js "API 请求失败: " ++ t)).
          split; [apply refusal_is_not_timeout|]. split; [exact Logic.I|].
          split; [apply led_by_idle; reflexivity|]. split; [exact Logic.I|].
          run. cbn [negb]. run. reflexivity.
        - exists (SubmitThrew err). split; [exact Logic.I|]. split; [exact Logic.I|].
          split; [apply led_by_idle; reflexivity|]. split; [exact Logic.I|].
          run. cbn [negb]. run. reflexivity. }
    destruct (parsed rp) as [d|err] eqn:Hd.
    2:{ exists (SubmitThrew err). split; [exact Logic.I|]. split; [exact Logic.I|].
        split; [apply led_by_idle; reflexivity|]. split; [exact Logic.I|].
        run. cbn [negb]. run. reflexivity. }
    destruct (get_prop (Some d) (js "task_id")) as [t|err] eqn:Htid; [discriminate|].
    exists (SubmitThrew err). split; [exact Logic.I|]. split; [exact Logic.I|].
    split; [apply led_by_idle; reflexivity|]. split; [exact Logic.I|].
    run. cbn [negb]. run. reflexivity.
Qed.
End GenerateRun.

Ltac route_step :=
  cbn [Middleware.poll_loop];
  unfold Middleware.sendEvent, Middleware.sleep, Middleware.res_end,
    Middleware.res_call;
  run; rewrite count_polls_app, Nat.add_0_r; run; cbn [negb]; run;
  try reflexivity.

Section MiddlewareRun.
Import Middleware MiddlewareTrace.
Variable describe : fault -> jsstring.
Variable service : remote.
Variable has : res_method -> bool.
Variable BASE_URL : jsstring.
Variable API_KEY : option jsstring.
Hypothesis has_setHeader : has m_setHeader = true.
Hypothesis has_write : has m_write = true.
Hypothesis has_end : has m_end = true.

Lemma route_loop_shape : forall n i taskId id tr,
  to_string_value taskId = Ok id ->
  loop_ends (poll_loop service has BASE_URL n i API_KEY taskId tr) tr
    (pending_rounds (poll_url BASE_URL id) (bearer API_KEY) pending_message i)
    [Sleep 3000%N; Poll (poll_url BASE_URL id) (bearer API_KEY)] n
    (fun j => keeps_polling_ok service (count_polls tr + j))
    (fun j => route_final (on_poll service (count_polls tr + j))).
Proof.
  induction n as [|n IH]; intros i taskId id tr Hid.
  - exists 0. split; [intros j Hj; lia|].
    left. split; [reflexivity|]. cbn. rewrite app_nil_r. reflexivity.
  - destruct (on_poll service (count_polls tr)) as [rp|e0] eqn:Hpoll.
    2:{ replace (poll_loop service has BASE_URL (S n) i API_KEY taskId tr)
          with (@Throw control e0, (tr ++ [Sleep 3000%N])
                       ++ [Poll (poll_url BASE_URL id) (bearer API_KEY)])
          by (symmetry; route_step).
        apply loop_ends_throw; [reflexivity|not_pending]. }
    destruct (ok rp) eqn:Hok.
    2:{ replace (poll_loop service has BASE_URL (S n) i API_KEY taskId tr)
          with (Ok Returned,
                (((tr ++ [Sleep 3000%N])
                  ++ [Poll (poll_url BASE_URL id) (bearer API_KEY)])
                 ++ [Emit (error (js "轮询失败: " ++ decimalN (http_status rp)))])
                ++ [Close])
          by (symmetry; route_step).
        apply loop_ends_done; [reflexivity|not_pending|reflexivity| |final_frame].
        apply error_is_not_timeout, poll_failure_is_not_timeout. }
    destruct (parsed rp) as [d|e0] eqn:Hd.
    2:{ replace (poll_loop service has BASE_URL (S n) i API_KEY taskId tr)
          with (@Throw control e0, (tr ++ [Sleep 3000%N])
                       ++ [Poll (poll_url BASE_URL id) (bearer API_KEY)])
          by (symmetry; route_step).
        apply loop_ends_throw; [reflexivity|not_pending]. }
    destruct (get_prop (Some d) (js "task_status")) as [st|e0] eqn:Hst.
    2:{ replace (poll_loop service has BASE_URL (S n) i API_KEY taskId tr)
          with (@Throw control e0, (tr ++ [Sleep 3000%N])
                       ++ [Poll (poll_url BASE_URL id) (bearer API_KEY)])
          by (symmetry; route_step).
        apply loop_ends_throw; [reflexivity|not_pending]. }
    destruct (is_string st (js "SUCCEED")) eqn:Hs.
    { destruct (get_prop (Some d) (js "output_images")) as [images|e0] eqn:Hi.
      2:{ replace (poll_loop service has BASE_URL (S n) i API_KEY taskId tr)
            with (@Throw control e0, (tr ++ [Sleep 3000%N])
                         ++ [Poll (poll_url BASE_URL id) (bearer API_KEY)])
            by (symmetry; route_step).
          apply loop_ends_throw; [reflexivity|not_pending]. }
      destruct (get_prop images (js "url")) as [url|e0] eqn:Hu.
      2:{ replace (poll_loop service has BASE_URL (S n) i API_KEY taskId tr)
            with (@Throw control e0, (tr ++ [Sleep 3000%N])
                         ++ [Poll (poll_url BASE_URL id) (bearer API_KEY)])
            by (symmetry; route_step).
          apply loop_ends_throw; [reflexivity|not_pending]. }
      replace (poll_loop service has BASE_URL (S n) i API_KEY taskId tr)
        with (Ok Returned,
              (((tr ++ [Sleep 3000%N])
                ++ [Poll (poll_url BASE_URL id) (bearer API_KEY)])
               ++ [Emit (complete (js "生成完成！") url)]) ++ [Close])
        by (symmetry; route_step).
      apply loop_ends_done; [reflexivity|not_pending|reflexivity|discriminate|].
      final_frame. }
    destruct (is_string st (js "FAILED")) eqn:Hfl.
    { destruct (reason_or (Some d) (js "未知错误")) as [reason|e0] eqn:Hr.
      2:{ replace (poll_loop service has BASE_URL (S n) i API_KEY taskId tr)
            with (@Throw control e0, (tr ++ [Sleep 3000%N])
                         ++ [Poll (poll_url BASE_URL id) (bearer API_KEY)])
            by (symmetry; route_step).
          apply loop_ends_throw; [reflexivity|not_pending]. }
      replace (poll_loop service has BASE_URL (S n) i API_KEY taskId tr)
        with (Ok Returned,
              (((tr ++ [Sleep 3000%N])
                ++ [Poll (poll_url BASE_URL id) (bearer API_KEY)])
               ++ [Emit (error (js "图片生成失败: " ++ reason))]) ++ [Close])
        by (symmetry; route_step).
      apply loop_ends_done; [reflexivity|not_pending|reflexivity| |final_frame].
      apply error_is_not_timeout, picture_failure_is_not_timeout. }
    erewrite MiddlewareFacts.route_pending_step with (id := id) (st := st);
      try eassumption.
    apply (@loop_ends_next _ tr
             (pending_round (poll_url BASE_URL id) (bearer API_KEY)
                (pending_message (i + 1)))
             _ (pending_rounds (poll_url BASE_URL id) (bearer API_KEY)
                  pending_message (S i))
             _ n _
             (fun j => keeps_polling_ok service
                         (count_polls (tr ++ pending_round (poll_url BASE_URL id)
                                         (bearer API_KEY) (pending_message (i + 1)))
                          + j))
             _
             (fun j => route_final
                         (on_poll service
                            (count_polls (tr ++ pending_round (poll_url BASE_URL id)
                                            (bearer API_KEY)
                                            (pending_message (i + 1)))
                             + j)))).
    + intro k. reflexivity.
    + unfold keeps_polling_ok, replied_ok, is_pending, task_status_of.
      rewrite Nat.add_0_r, Hpoll, Hok. cbn [bind_result andb]. rewrite Hd.
      cbn [bind_result]. rewrite Hst, Hs, Hfl. reflexivity.
    + intro j. rewrite count_polls_after_round. reflexivity.
    + intros j ev. rewrite count_polls_after_round. exact (fun H => H).
    + apply IH. exact Hid.
Qed.

Lemma route_unrendered : forall n i taskId tr err,
  to_string_value taskId = Throw err ->
  poll_loop service has BASE_URL (S n) i API_KEY taskId tr
  = (Throw err, tr ++ [Sleep 3000%N]).
Proof.
  intros n i taskId tr err H. cbn [poll_loop]. unfold sleep. run. reflexivity.
Qed.

(** Every run of the route on a usable string prompt, with a response object
    that has [setHeader], [write] and [end], has one of the six shapes. *)
Lemma route_shape : forall req_body s,
  get_prop req_body (js "prompt") = Ok (Some (JStr s)) ->
  trim s <> [] ->
  exists id e,
    admissible MAX_POLLS e /\ targets service id e
    /\ led_by (keeps_polling_ok service) MAX_POLLS e
    /\ judged (fun k => route_final (on_poll service k)) e
    /\ route describe service has BASE_URL API_KEY req_body []
       = (Ok tt,
          run_trace sse_setup true describe (submit_url BASE_URL)
            (poll_url BASE_URL id) (bearer API_KEY) (trim s) pending_message
            MAX_POLLS e).
Proof.
  intros req_body s Hprompt Htrim.
  destruct (accepted_task (on_submit service)) as [taskId|] eqn:Hacc.
  - destruct (accepted_task_inv _ Hacc) as (rp & d & Hsub & Hok & Hd & Htid).
    erewrite MiddlewareFacts.route_polling with (s := s) (taskId := taskId);
      try eassumption.
    destruct (to_string_value taskId) as [id|err] eqn:Hid.
    + destruct (@settled_loop sse_setup true describe (submit_url BASE_URL)
                  (poll_url BASE_URL id) (bearer API_KEY) (trim s) pending_message
                  MAX_POLLS _ _ _
                  (@route_loop_shape MAX_POLLS 0 taskId id
                     (head_trace BASE_URL API_KEY s) Hid))
        as (e & Hpe & Hadm & Hled & Hjud & He).
      exists id, e. split; [exact Hadm|]. split.
      { destruct e; try discriminate; exists taskId; auto. }
      split; [exact Hled|]. split; [exact Hjud|].
      rewrite <- He.
      destruct (poll_loop service has BASE_URL MAX_POLLS 0 API_KEY taskId
                  (head_trace BASE_URL API_KEY s))
        as [[[|]|err] tr]; unfold settled, caught; cbn [app];
        rewrite <- ?app_assoc; reflexivity.
    + exists [], (Unrendered err). split; [cbn; unfold MAX_POLLS; lia|].
      split; [exact Logic.I|]. split; [apply led_by_idle; reflexivity|]. split; [exact Logic.I|].
      change MAX_POLLS with (S 59) at 1.
      rewrite (@route_unrendered 59 0 taskId (head_trace BASE_URL API_KEY s) err Hid).
      unfold run_trace, caught, head_trace, sse_setup. cbn [app]. reflexivity.
  - exists []. unfold route, try_catch, sendEvent, res_end, res_call.
    generalize MAX_POLLS as budget. intro budget. run.
    rewrite (usable_prompt_accepted s Htrim). run. cbn [call_trim].
    unfold accepted_task in Hacc.
    destruct (on_submit service) as [rp|err] eqn:Hsub.
    2:{ exists (SubmitThrew err). split; [exact Logic.I|]. split; [exact Logic.I|].
        split; [apply led_by_idle; reflexivity|]. split; [exact Logic.I|].
        run. reflexivity. }
    destruct (ok rp) eqn:Hok.
    2:{ destruct (text rp) as [t|err] eqn:Ht.
        - exists (SubmitRefused (js "API 请求失败: " ++ decimalN (http_status rp)
                                 ++ js " " ++ t)).
          split; [apply refusal_is_not_timeout|]. split; [exact Logic.I|].
          split; [apply led_by_idle; reflexivity|]. split; [exact Logic.I|].
          run. cbn [negb]. run. reflexivity.
        - exists (SubmitThrew err). split; [exact Logic.I|]. split; [exact Logic.I|].
          split; [apply led_by_idle; reflexivity|]. split; [exact Logic.I|].
          run. cbn [negb]. run. reflexivity. }
    destruct (parsed rp) as [d|err] eqn:Hd.
    2:{ exists (SubmitThrew err). split; [exact Logic.I|]. split; [exact Logic.I|].
        split; [apply led_by_idle; reflexivity|]. split; [exact Logic.I|].
        run. cbn [negb]. run. reflexivity. }
    destruct (get_prop (Some d) (js "task_id")) as [t|err] eqn:Htid; [discriminate|].
    exists (SubmitThrew err). split; [exact Logic.I|]. split; [exact Logic.I|].
    split; [apply led_by_idle; reflexivity|]. split; [exact Logic.I|].
    run. cbn [negb]. run. reflexivity.
Qed.
End MiddlewareRun.

(* ================================================================== *)
(** ** What every run of a given shape satisfies *)

Lemma count_submits_app : forall t1 t2,
  count_submits (t1 ++ t2) = count_submits t1 + count_submits t2.
Proof.
  induction t1 as [|a t1 IH]; intro t2; [reflexivity|].
  destruct a; cbn; rewrite ?IH; reflexivity.
Qed.

Lemma count_submits_pending_rounds : forall url auth message n i,
  count_submits (pending_rounds url auth message i n) = 0.
Proof. induction n as [|n IH]; intro i; cbn; [reflexivity|apply IH]. Qed.

Lemma headers_are_silent : forall tr,
  forallb is_header tr = true ->
  events_of tr = [] /\ count_polls tr = 0 /\ count_submits tr = 0.
Proof.
  induction tr as [|a tr IH]; intro H; [auto|].
  cbn in H. apply andb_true_iff in H as [Ha Htr].
  destruct a; try discriminate. cbn. auto.
Qed.

Lemma paced_after_headers : forall tr rest,
  forallb is_header tr = true -> paced false (tr ++ rest) = paced false rest.
Proof.
  induction tr as [|a tr IH]; intros rest H; [reflexivity|].
  cbn in H. apply andb_true_iff in H as [Ha Htr].
  destruct a; try discriminate. cbn. auto.
Qed.

Lemma paced_after_rounds : forall url auth message n i rest,
  paced false (pending_rounds url auth message i n ++ rest) = paced false rest.
Proof.
  induction n as [|n IH]; intros i rest; [reflexivity|].
  transitivity (paced false (pending_rounds url auth message (S i) n ++ rest));
    [reflexivity|apply IH].
Qed.

Lemma paced_sound : forall tr slept,
  paced slept tr = true ->
  forall before url auth later,
    tr = before ++ Poll url auth :: later ->
    (before = [] /\ slept = true)
    \/ exists before', before = before' ++ [Sleep 3000%N].
Proof.
  induction tr as [|a tr IH]; intros slept H before url auth later E.
  - destruct before; discriminate.
  - destruct before as [|b before].
    + left. split; [reflexivity|]. cbn in E. injection E as ->.
      cbn in H. apply andb_true_iff in H as [H _]. exact H.
    + right. cbn in E. injection E as -> E.
      assert (Hrest : exists slept', paced slept' tr = true
                        /\ (slept' = true -> b = Sleep 3000%N)).
      { destruct b; cbn in H;
          try (exists false; split; [exact H|discriminate]).
        - apply andb_true_iff in H as [_ H].
          exists false. split; [exact H|discriminate].
        - match type of H with
          | paced ?c tr = true =>
              exists c; split; [exact H|];
              intro Hms; apply N.eqb_eq in Hms; congruence
          end. }
      destruct Hrest as (slept' & Hp & Hs).
      destruct (IH slept' Hp before url auth later E) as [[-> Hst]|[before' ->]].
      * exists []. rewrite (Hs Hst). reflexivity.
      * exists (b :: before'). reflexivity.
Qed.

Lemma paced_well : forall tr, paced false tr = true -> well_paced tr.
Proof.
  intros tr H before url auth later E.
  destruct (@paced_sound tr false H before url auth later E) as [[_ Hf]|Hb];
    [discriminate|exact Hb].
Qed.

Lemma addressed_rounds : forall submit_url poll_url auth prompt message n i,
  Forall (addressed submit_url poll_url auth prompt)
    (pending_rounds poll_url auth message i n).
Proof.
  induction n as [|n IH]; intro i; cbn [pending_rounds pending_round app].
  - constructor.
  - repeat constructor. apply IH.
Qed.

Lemma addressed_headers : forall submit_url poll_url auth prompt tr,
  forallb is_header tr = true ->
  Forall (addressed submit_url poll_url auth prompt) tr.
Proof.
  induction tr as [|a tr IH]; intro H; [constructor|].
  cbn in H. apply andb_true_iff in H as [Ha Htr].
  destruct a; try discriminate. constructor; [exact Logic.I|auto].
Qed.

Section RunFacts.
Variable setup : trace.
Variable logs : bool.
Variable describe : fault -> jsstring.
Variables submit_url poll_url authorization prompt : jsstring.
Variable pending_message : nat -> jsstring.
Variable budget : nat.
Hypothesis setup_headers : forallb is_header setup = true.

Lemma run_frames : forall e,
  events_of (run_trace setup logs describe submit_url poll_url authorization
               prompt pending_message budget e)
  = frames_of describe pending_message budget e.
Proof.
  intro e. unfold run_trace, caught, polled.
  destruct (@headers_are_silent setup setup_headers) as (Hev & _ & _).
  rewrite events_of_app, Hev.
  destruct e, logs; cbn [app events_of frames_of];
    rewrite ?events_of_app, ?events_of_pending_rounds; cbn [events_of app];
    rewrite ?app_nil_r; reflexivity.
Qed.

Lemma run_polls : forall e,
  count_polls (run_trace setup logs describe submit_url poll_url authorization
       prompt pending_message budget e)
  = polls_of budget e.
Proof.
  intro e. unfold run_trace, caught, polled.
  destruct (@headers_are_silent setup setup_headers) as (_ & Hp & _).
  rewrite count_polls_app, Hp.
  destruct e, logs; cbn [app count_polls polls_of];
    rewrite ?count_polls_app, ?count_polls_pending_rounds; cbn; lia.
Qed.

Lemma run_submits : forall e,
  count_submits (run_trace setup logs describe submit_url poll_url authorization
       prompt pending_message budget e)
  = 1.
Proof.
  intro e. unfold run_trace, caught, polled.
  destruct (@headers_are_silent setup setup_headers) as (_ & _ & Hs).
  rewrite count_submits_app, Hs.
  destruct e, logs; cbn [app count_submits];
    rewrite ?count_submits_app, ?count_submits_pending_rounds; reflexivity.
Qed.

Lemma polls_within : forall e, admissible budget e -> polls_of budget e <= budget.
Proof. intros [err|m|err|k err|k ev|]; cbn; intros; lia. Qed.

Lemma run_paced : forall e,
  paced false (run_trace setup logs describe submit_url poll_url authorization
       prompt pending_message budget e)
  = true.
Proof.
  intro e. unfold run_trace, caught, polled.
  rewrite paced_after_headers by exact setup_headers.
  destruct e, logs; cbn [app paced]; rewrite <- ?app_assoc;
    rewrite ?paced_after_rounds; reflexivity.
Qed.

Lemma run_addressed : forall e,
  Forall (addressed submit_url poll_url authorization prompt)
    (run_trace setup logs describe submit_url poll_url authorization prompt
       pending_message budget e).
Proof.
  intro e. unfold run_trace, caught, polled.
  apply Forall_app. split; [apply addressed_headers, setup_headers|].
  destruct e, logs; cbn [app];
    repeat first [ apply addressed_rounds
                 | apply Forall_nil
                 | apply Forall_cons; [cbn; auto|]
                 | apply Forall_app; split ].
Qed.

Lemma timeout_frame_inv : forall e,
  admissible budget e ->
  In (error timeout_text) (frames_of describe pending_message budget e) ->
  e = TimedOut.
Proof.
  assert (Hmap : forall l, ~ In (error timeout_text)
                              (map (fun j => status (pending_message j)) l)).
  { intros l H. apply in_map_iff in H as (j & Hj & _). discriminate. }
  assert (Hserver : forall err,
            error (js "服务器错误: " ++ message_of describe err)
            <> error timeout_text).
  { intro err. apply error_is_not_timeout, server_error_is_not_timeout. }
  intros [err|m|err|k err|k ev|] Hadm Hin; [exfalso..|reflexivity]; cbn in Hin.
  - destruct Hin as [H|[H|[]]]; [discriminate|exact (Hserver _ H)].
  - destruct Hin as [H|[H|[]]]; [discriminate|].
    exact (@error_is_not_timeout m Hadm H).
  - destruct Hin as [H|[H|[H|[]]]]; [discriminate|discriminate|exact (Hserver _ H)].
  - destruct Hin as [H|[H|H]]; [discriminate|discriminate|].
    apply in_app_or in H as [H|[H|[]]]; [exact (Hmap _ H)|exact (Hserver _ H)].
  - destruct Hadm as (_ & _ & Hne).
    destruct Hin as [H|[H|H]]; [discriminate|discriminate|].
    apply in_app_or in H as [H|[H|[]]]; [exact (Hmap _ H)|exact (Hne H)].
Qed.
End RunFacts.

(* ================================================================== *)
(** ** Every accepted request *)

Lemma generate_request_shape : forall describe service API_KEY (body : json) s,
  get_prop (Some body) (js "prompt") = Ok (Some (JStr s)) ->
  is_empty (trim s) = false ->
  exists id e,
    admissible Generate.MAX_POLLS e /\ targets service id e
    /\ led_by (keeps_polling service) Generate.MAX_POLLS e
    /\ judged (fun k => generate_final (on_poll service k)) e
    /\ snd (Generate.onRequestPost describe service API_KEY (Ok body) [])
       = run_trace [] false describe GenerateTrace.submit_url
           (GenerateTrace.poll_url id) (bearer API_KEY) (trim s)
           GenerateTrace.pending_message Generate.MAX_POLLS e.
Proof.
  intros describe service API_KEY body s Hprompt Htrim.
  apply is_empty_false in Htrim.
  rewrite (@GenerateFacts.onRequestPost_accepts service API_KEY describe body s
             Hprompt Htrim).
  destruct (generate_task_shape describe service API_KEY s)
    as (id & e & Hadm & Htar & Hled & Hjud & He).
  exists id, e. rewrite He. auto.
Qed.

Lemma route_request_shape :
  forall describe service has BASE_URL API_KEY (body : json) s,
  has Middleware.m_setHeader = true ->
  has Middleware.m_write = true ->
  has Middleware.m_end = true ->
  get_prop (Some body) (js "prompt") = Ok (Some (JStr s)) ->
  is_empty (trim s) = false ->
  exists id e,
    admissible Middleware.MAX_POLLS e /\ targets service id e
    /\ led_by (keeps_polling_ok service) Middleware.MAX_POLLS e
    /\ judged (fun k => route_final (on_poll service k)) e
    /\ snd (Middleware.route describe service has BASE_URL API_KEY (Some body) [])
       = run_trace MiddlewareTrace.sse_setup true describe
           (MiddlewareTrace.submit_url BASE_URL)
           (MiddlewareTrace.poll_url BASE_URL id) (bearer API_KEY) (trim s)
           MiddlewareTrace.pending_message Middleware.MAX_POLLS e.
Proof.
  intros describe service has BASE_URL API_KEY body s Hset Hwrite Hend Hprompt Htrim.
  apply is_empty_false in Htrim.
  destruct (@route_shape describe service has BASE_URL API_KEY Hset Hwrite Hend
              (Some body) s Hprompt Htrim)
    as (id & e & Hadm & Htar & Hled & Hjud & He).
  exists id, e. rewrite He. auto.
Qed.

(** X7.  The frames of an accepted request to the edge handler follow the
    replies of the remote service: first the submitting status; then, when
    the submit call gave a task, the submitted status, one numbered pending
    status (1, 2, ...) for each of the leading poll replies that report a
    status other than SUCCEED and FAILED, at most 40 of them, and one last
    frame that is no status frame: the timeout after 40 pending replies, and
    otherwise either the frame the first other reply is answered with (the
    image of a SUCCEED, the reason of a FAILED) or the error caught on it. *)
Theorem generate_frames_follow_replies :
  forall describe service API_KEY (body : json) s,
    get_prop (Some body) (js "prompt") = Ok (Some (JStr s)) ->
    is_empty (trim s) = false ->
    exists e,
      admissible Generate.MAX_POLLS e
      /\ led_by (keeps_polling service) Generate.MAX_POLLS e
      /\ judged (fun k => generate_final (on_poll service k)) e
      /\ events_of (snd (Generate.onRequestPost describe service API_KEY (Ok body) []))
         = frames_of describe GenerateTrace.pending_message Generate.MAX_POLLS e.
Proof.
  intros describe service API_KEY body s Hprompt Htrim.
  destruct (generate_request_shape describe service API_KEY body Hprompt Htrim)
    as (id & e & Hadm & _ & Hled & Hjud & ->).
  exists e. split; [exact Hadm|]. split; [exact Hled|]. split; [exact Hjud|].
  apply run_frames. reflexivity.
Qed.

Lemma generate_frames_follow_replies_witness :
  exists e,
    admissible Generate.MAX_POLLS e
    /\ led_by (keeps_polling Scenario.offline) Generate.MAX_POLLS e
    /\ judged (fun k => generate_final (on_poll Scenario.offline k)) e
    /\ events_of (snd (Generate.onRequestPost Scenario.v8 Scenario.offline
                         Scenario.key (Ok (Scenario.request (js "a cat"))) []))
       = frames_of Scenario.v8 GenerateTrace.pending_message Generate.MAX_POLLS e.
Proof.
  apply (@generate_frames_follow_replies Scenario.v8 Scenario.offline Scenario.key
           (Scenario.request (js "a cat")) (js "a cat")
           ltac:(vm_compute; reflexivity) ltac:(vm_compute; reflexivity)).
Defined.

(** X8.  The same for the Express route, on a response object that has
    [setHeader], [write] and [end]: the pending statuses are those of the
    leading poll replies that are HTTP successes reporting a status other
    than SUCCEED and FAILED, at most 60 of them, and the first other reply
    is answered with its status code when it is no HTTP success. *)
Theorem route_frames_follow_replies :
  forall describe service has BASE_URL API_KEY (body : json) s,
    has Middleware.m_setHeader = true ->
    has Middleware.m_write = true ->
    has Middleware.m_end = true ->
    get_prop (Some body) (js "prompt") = Ok (Some (JStr s)) ->
    is_empty (trim s) = false ->
    exists e,
      admissible Middleware.MAX_POLLS e
      /\ led_by (keeps_polling_ok service) Middleware.MAX_POLLS e
      /\ judged (fun k => route_final (on_poll service k)) e
      /\ events_of (snd (Middleware.route describe service has BASE_URL API_KEY
                           (Some body) []))
         = frames_of describe MiddlewareTrace.pending_message
             Middleware.MAX_POLLS e.
Proof.
  intros describe service has BASE_URL API_KEY body s Hset Hwrite Hend Hprompt Htrim.
  destruct (@route_request_shape describe service has BASE_URL API_KEY body s
              Hset Hwrite Hend Hprompt Htrim)
    as (id & e & Hadm & _ & Hled & Hjud & ->).
  exists e. split; [exact Hadm|]. split; [exact Hled|]. split; [exact Hjud|].
  apply run_frames. reflexivity.
Qed.

Lemma route_frames_follow_replies_witness :
  exists e,
    admissible Middleware.MAX_POLLS e
    /\ led_by (keeps_polling_ok Scenario.offline) Middleware.MAX_POLLS e
    /\ judged (fun k => route_final (on_poll Scenario.offline k)) e
    /\ events_of (snd (Middleware.route Scenario.v8 Scenario.offline
                         Middleware.full_res Scenario.base Scenario.key
                         (Some (Scenario.request (js "a cat"))) []))
       = frames_of Scenario.v8 MiddlewareTrace.pending_message
           Middleware.MAX_POLLS e.
Proof.
  apply (@route_frames_follow_replies Scenario.v8 Scenario.offline
           Middleware.full_res Scenario.base Scenario.key
           (Scenario.request (js "a cat")) (js "a cat")
           eq_refl eq_refl eq_refl
           ltac:(vm_compute; reflexivity) ltac:(vm_compute; reflexivity)).
Defined.

(** X9.  An accepted request to the edge handler makes exactly one submit
    call and at most 40 poll calls. *)
Theorem generate_call_budget :
  forall describe service API_KEY (body : json) s,
    get_prop (Some body) (js "prompt") = Ok (Some (JStr s)) ->
    is_empty (trim s) = false ->
    let tr := snd (Generate.onRequestPost describe service API_KEY (Ok body) []) in
    count_submits tr = 1 /\ count_polls tr <= Generate.MAX_POLLS.
Proof.
  intros describe service API_KEY body s Hprompt Htrim tr. subst tr.
  destruct (generate_request_shape describe service API_KEY body Hprompt Htrim)
    as (id & e & Hadm & _ & _ & _ & ->).
  split; [apply run_submits; reflexivity|].
  rewrite run_polls by reflexivity. apply polls_within, Hadm.
Qed.

Lemma generate_call_budget_witness :
  let tr := snd (Generate.onRequestPost Scenario.v8
                   (Scenario.script Scenario.submitted 2 Scenario.succeeded_list)
                   Scenario.key (Ok (Scenario.request (js "a cat"))) []) in
  count_submits tr = 1 /\ count_polls tr <= Generate.MAX_POLLS.
Proof.
  apply (@generate_call_budget Scenario.v8
           (Scenario.script Scenario.submitted 2 Scenario.succeeded_list)
           Scenario.key (Scenario.request (js "a cat")) (js "a cat")
           ltac:(vm_compute; reflexivity) ltac:(vm_compute; reflexivity)).
Defined.

(** X10.  An accepted request to the Express route, on a response object
    that has [setHeader], [write] and [end], makes exactly one submit call
    and at most 60 poll calls. *)
Theorem route_call_budget :
  forall describe service has BASE_URL API_KEY (body : json) s,
    has Middleware.m_setHeader = true ->
    has Middleware.m_write = true ->
    has Middleware.m_end = true ->
    get_prop (Some body) (js "prompt") = Ok (Some (JStr s)) ->
    is_empty (trim s) = false ->
    let tr := snd (Middleware.route describe service has BASE_URL API_KEY
                     (Some body) []) in
    count_submits tr = 1 /\ count_polls tr <= Middleware.MAX_POLLS.
Proof.
  intros describe service has BASE_URL API_KEY body s Hset Hwrite Hend Hprompt Htrim
         tr. subst tr.
  destruct (@route_request_shape describe service has BASE_URL API_KEY body s
              Hset Hwrite Hend Hprompt Htrim)
    as (id & e & Hadm & _ & _ & _ & ->).
  split; [apply run_submits; reflexivity|].
  rewrite run_polls by reflexivity. apply polls_within, Hadm.
Qed.

Lemma route_call_budget_witness :
  let tr := snd (Middleware.route Scenario.v8
                   (Scenario.script Scenario.submitted 2 Scenario.succeeded_object)
                   Middleware.full_res Scenario.base Scenario.key
                   (Some (Scenario.request (js "a cat"))) []) in
  count_submits tr = 1 /\ count_polls tr <= Middleware.MAX_POLLS.
Proof.
  apply (@route_call_budget Scenario.v8
           (Scenario.script Scenario.submitted 2 Scenario.succeeded_object)
           Middleware.full_res Scenario.base Scenario.key
           (Scenario.request (js "a cat")) (js "a cat")
           eq_refl eq_refl eq_refl
           ltac:(vm_compute; reflexivity) ltac:(vm_compute; reflexivity)).
Defined.

(** X11.  The edge handler never polls without waiting: in the trace of an
    accepted request every poll call comes right after a sleep of 3000 ms. *)
Theorem generate_polls_are_paced :
  forall describe service API_KEY (body : json) s,
    get_prop (Some body) (js "prompt") = Ok (Some (JStr s)) ->
    is_empty (trim s) = false ->
    well_paced (snd (Generate.onRequestPost describe service API_KEY (Ok body) [])).
Proof.
  intros describe service API_KEY body s Hprompt Htrim.
  destruct (generate_request_shape describe service API_KEY body Hprompt Htrim)
    as (id & e & _ & _ & _ & _ & ->).
  apply paced_well, run_paced. reflexivity.
Qed.

Lemma generate_polls_are_paced_witness :
  well_paced (snd (Generate.onRequestPost Scenario.v8
                     (Scenario.script Scenario.submitted 2 Scenario.failed)
                     Scenario.key (Ok (Scenario.request (js "a cat"))) [])).
Proof.
  apply (@generate_polls_are_paced Scenario.v8
           (Scenario.script Scenario.submitted 2 Scenario.failed)
           Scenario.key (Scenario.request (js "a cat")) (js "a cat")
           ltac:(vm_compute; reflexivity) ltac:(vm_compute; reflexivity)).
Defined.

(** X12.  Nor does the Express route, on a response object that has
    [setHeader], [write] and [end]: every poll call comes right after a sleep
    of 3000 ms. *)
Theorem route_polls_are_paced :
  forall describe service has BASE_URL API_KEY (body : json) s,
    has Middleware.m_setHeader = true ->
    has Middleware.m_write = true ->
    has Middleware.m_end = true ->
    get_prop (Some body) (js "prompt") = Ok (Some (JStr s)) ->
    is_empty (trim s) = false ->
    well_paced (snd (Middleware.route describe service has BASE_URL API_KEY
                       (Some body) [])).
Proof.
  intros describe service has BASE_URL API_KEY body s Hset Hwrite Hend Hprompt Htrim.
  destruct (@route_request_shape describe service has BASE_URL API_KEY body s
              Hset Hwrite Hend Hprompt Htrim)
    as (id & e & _ & _ & _ & _ & ->).
  apply paced_well, run_paced. reflexivity.
Qed.

Lemma route_polls_are_paced_witness :
  well_paced (snd (Middleware.route Scenario.v8
                     (Scenario.script Scenario.submitted 2 Scenario.unavailable)
                     Middleware.full_res Scenario.base Scenario.key
                     (Some (Scenario.request (js "a cat"))) [])).
Proof.
  apply (@route_polls_are_paced Scenario.v8
           (Scenario.script Scenario.submitted 2 Scenario.unavailable)
           Middleware.full_res Scenario.base Scenario.key
           (Scenario.request (js "a cat")) (js "a cat")
           eq_refl eq_refl eq_refl
           ltac:(vm_compute; reflexivity) ltac:(vm_compute; reflexivity)).
Defined.

(** X13.  Every remote call of an accepted request to the edge handler goes
    where the source says: the submit call to the generations URL with the
    bearer key, the model name and the trimmed prompt; every poll call to
    the tasks URL of one and the same id, with the bearer key; and when a
    poll call is made at all, that id is the text of the [task_id] of the
    submit reply.  Every sleep is one of 3000 ms. *)
Theorem generate_calls_are_addressed :
  forall describe service API_KEY (body : json) s,
    get_prop (Some body) (js "prompt") = Ok (Some (JStr s)) ->
    is_empty (trim s) = false ->
    let tr := snd (Generate.onRequestPost describe service API_KEY (Ok body) []) in
    exists id,
      Forall (addressed GenerateTrace.submit_url (GenerateTrace.poll_url id)
                (bearer API_KEY) (trim s)) tr
      /\ (0 < count_polls tr ->
          exists taskId,
            accepted_task (on_submit service) = Some taskId
            /\ to_string_value taskId = Ok id).
Proof.
  intros describe service API_KEY body s Hprompt Htrim tr. subst tr.
  destruct (generate_request_shape describe service API_KEY body Hprompt Htrim)
    as (id & e & _ & Htar & _ & _ & ->).
  exists id. split; [apply run_addressed; reflexivity|].
  rewrite run_polls by reflexivity.
  destruct e; cbn [polls_of]; intro Hpos; try lia; exact Htar.
Qed.

Lemma generate_calls_are_addressed_witness :
  let service := Scenario.script Scenario.submitted 2 Scenario.succeeded_list in
  let tr := snd (Generate.onRequestPost Scenario.v8 service Scenario.key
                   (Ok (Scenario.request (js " a cat "))) []) in
  exists id,
    Forall (addressed GenerateTrace.submit_url (GenerateTrace.poll_url id)
              (bearer Scenario.key) (trim (js " a cat "))) tr
    /\ (0 < count_polls tr ->
        exists taskId,
          accepted_task (on_submit service) = Some taskId
          /\ to_string_value taskId = Ok id).
Proof.
  intro service.
  apply (@generate_calls_are_addressed Scenario.v8 service Scenario.key
           (Scenario.request (js " a cat ")) (js " a cat ")
           ltac:(vm_compute; reflexivity) ltac:(vm_compute; reflexivity)).
Defined.

(** X14.  The same for the Express route, on a response object that has
    [setHeader], [write] and [end], with the URLs built on the [BASE_URL]
    handed to [getRouteHandler] and the key read from [process.env]. *)
Theorem route_calls_are_addressed :
  forall describe service has BASE_URL API_KEY (body : json) s,
    has Middleware.m_setHeader = true ->
    has Middleware.m_write = true ->
    has Middleware.m_end = true ->
    get_prop (Some body) (js "prompt") = Ok (Some (JStr s)) ->
    is_empty (trim s) = false ->
    let tr := snd (Middleware.route describe service has BASE_URL API_KEY
                     (Some body) []) in
    exists id,
      Forall (addressed (MiddlewareTrace.submit_url BASE_URL)
                (MiddlewareTrace.poll_url BASE_URL id) (bearer API_KEY) (trim s)) tr
      /\ (0 < count_polls tr ->
          exists taskId,
            accepted_task (on_submit service) = Some taskId
            /\ to_string_value taskId = Ok id).
Proof.
  intros describe service has BASE_URL API_KEY body s Hset Hwrite Hend Hprompt Htrim
         tr. subst tr.
  destruct (@route_request_shape describe service has BASE_URL API_KEY body s
              Hset Hwrite Hend Hprompt Htrim)
    as (id & e & _ & Htar & _ & _ & ->).
  exists id. split; [apply run_addressed; reflexivity|].
  rewrite run_polls by reflexivity.
  destruct e; cbn [polls_of]; intro Hpos; try lia; exact Htar.
Qed.

Lemma route_calls_are_addressed_witness :
  let service := Scenario.script Scenario.submitted 2 Scenario.succeeded_object in
  let tr := snd (Middleware.route Scenario.v8 service Middleware.full_res
                   Scenario.base Scenario.key
                   (Some (Scenario.request (js " a cat "))) []) in
  exists id,
    Forall (addressed (MiddlewareTrace.submit_url Scenario.base)
              (MiddlewareTrace.poll_url Scenario.base id) (bearer Scenario.key)
              (trim (js " a cat "))) tr
    /\ (0 < count_polls tr ->
        exists taskId,
          accepted_task (on_submit service) = Some taskId
          /\ to_string_value taskId = Ok id).
Proof.
  intro service.
  apply (@route_calls_are_addressed Scenario.v8 service Middleware.full_res
           Scenario.base Scenario.key
           (Scenario.request (js " a cat ")) (js " a cat ")
           eq_refl eq_refl eq_refl
           ltac:(vm_compute; reflexivity) ltac:(vm_compute; reflexivity)).
Defined.

(** X15.  The edge handler writes the timeout frame only after 40 poll
    calls that all came back with a status other than SUCCEED and FAILED. *)
Theorem generate_timeout_means_all_pending :
  forall describe service API_KEY (body : json) s,
    get_prop (Some body) (js "prompt") = Ok (Some (JStr s)) ->
    is_empty (trim s) = false ->
    let tr := snd (Generate.onRequestPost describe service API_KEY (Ok body) []) in
    In (error timeout_text) (events_of tr) ->
    count_polls tr = Generate.MAX_POLLS
    /\ forall j, j < Generate.MAX_POLLS -> is_pending (on_poll service j) = true.
Proof.
  intros describe service API_KEY body s Hprompt Htrim tr. subst tr.
  destruct (generate_request_shape describe service API_KEY body Hprompt Htrim)
    as (id & e & Hadm & _ & Hled & _ & ->).
  rewrite run_frames by reflexivity. intro Hin.
  rewrite (@timeout_frame_inv _ _ _ _ Hadm Hin) in *.
  split; [apply run_polls; reflexivity|exact (proj1 Hled)].
Qed.

Lemma generate_timeout_means_all_pending_witness :
  let service := Scenario.script Scenario.submitted 100 Scenario.succeeded_list in
  let tr := snd (Generate.onRequestPost Scenario.v8 service Scenario.key
                   (Ok (Scenario.request (js "a cat"))) []) in
  In (error timeout_text) (events_of tr)
  /\ count_polls tr = Generate.MAX_POLLS
  /\ forall j, j < Generate.MAX_POLLS -> is_pending (on_poll service j) = true.
Proof.
  intros service tr.
  assert (Hin : In (error timeout_text) (events_of tr)).
  { replace (events_of tr)
      with (removelast (events_of tr) ++ [error timeout_text])
      by (vm_compute; reflexivity).
    apply in_or_app. right. left. reflexivity. }
  split; [exact Hin|].
  exact (@generate_timeout_means_all_pending Scenario.v8 service Scenario.key
           (Scenario.request (js "a cat")) (js "a cat")
           ltac:(vm_compute; reflexivity) ltac:(vm_compute; reflexivity) Hin).
Defined.

(** X16.  The Express route, on a response object that has [setHeader],
    [write] and [end], writes the timeout frame only after 60 poll calls
    that all came back as HTTP successes with a status other than SUCCEED
    and FAILED. *)
Theorem route_timeout_means_all_pending :
  forall describe service has BASE_URL API_KEY (body : json) s,
    has Middleware.m_setHeader = true ->
    has Middleware.m_write = true ->
    has Middleware.m_end = true ->
    get_prop (Some body) (js "prompt") = Ok (Some (JStr s)) ->
    is_empty (trim s) = false ->
    let tr := snd (Middleware.route describe service has BASE_URL API_KEY
                     (Some body) []) in
    In (error timeout_text) (events_of tr) ->
    count_polls tr = Middleware.MAX_POLLS
    /\ forall j, j < Middleware.MAX_POLLS ->
         replied_ok (on_poll service j) && is_pending (on_poll service j) = true.
Proof.
  intros describe service has BASE_URL API_KEY body s Hset Hwrite Hend Hprompt Htrim
         tr. subst tr.
  destruct (@route_request_shape describe service has BASE_URL API_KEY body s
              Hset Hwrite Hend Hprompt Htrim)
    as (id & e & Hadm & _ & Hled & _ & ->).
  rewrite run_frames by reflexivity. intro Hin.
  rewrite (@timeout_frame_inv _ _ _ _ Hadm Hin) in *.
  split; [apply run_polls; reflexivity|exact (proj1 Hled)].
Qed.

Lemma route_timeout_means_all_pending_witness :
  let service := Scenario.script Scenario.submitted 100 Scenario.succeeded_object in
  let tr := snd (Middleware.route Scenario.v8 service Middleware.full_res
                   Scenario.base Scenario.key
                   (Some (Scenario.request (js "a cat"))) []) in
  In (error timeout_text) (events_of tr)
  /\ count_polls tr = Middleware.MAX_POLLS
  /\ forall j, j < Middleware.MAX_POLLS ->
       replied_ok (on_poll service j) && is_pending (on_poll service j) = true.
Proof.
  intros service tr.
  assert (Hin : In (error timeout_text) (events_of tr)).
  { replace (events_of tr)
      with (removelast (events_of tr) ++ [error timeout_text])
      by (vm_compute; reflexivity).
    apply in_or_app. right. left. reflexivity. }
  split; [exact Hin|].
  exact (@route_timeout_means_all_pending Scenario.v8 service Middleware.full_res
           Scenario.base Scenario.key
           (Scenario.request (js "a cat")) (js "a cat")
           eq_refl eq_refl eq_refl
           ltac:(vm_compute; reflexivity) ltac:(vm_compute; reflexivity) Hin).
Defined.

Lemma complete_frame_inv :
  forall describe pending_message budget e m u,
    In (complete m u) (frames_of describe pending_message budget e) ->
    exists k, e = Done k (complete m u).
Proof.
  assert (Hmap : forall pending_message m u l,
            ~ In (complete m u)
                 (map (fun j : nat => status (pending_message j)) l)).
  { intros pm m u l H. apply in_map_iff in H as (j & Hj & _). discriminate. }
  intros describe pending_message budget [err|t|err|k err|k ev|] m u Hin;
    cbn in Hin.
  - destruct Hin as [H|[H|[]]]; discriminate.
  - destruct Hin as [H|[H|[]]]; discriminate.
  - destruct Hin as [H|[H|[H|[]]]]; discriminate.
  - destruct Hin as [H|[H|H]]; [discriminate|discriminate|].
    apply in_app_or in H as [H|[H|[]]]; [destruct (Hmap _ _ _ _ H)|discriminate].
  - destruct Hin as [H|[H|H]]; [discriminate|discriminate|].
    apply in_app_or in H as [H|[H|[]]]; [destruct (Hmap _ _ _ _ H)|].
    exists k. rewrite H. reflexivity.
  - destruct Hin as [H|[H|H]]; [discriminate|discriminate|].
    apply in_app_or in H as [H|[H|[]]]; [destruct (Hmap _ _ _ _ H)|discriminate].
Qed.

(** X17.  The edge handler reports completion only on the word of the
    remote service: a complete frame is written only when a poll reply,
    coming after pending replies only and within the 40 polls, reports the
    status SUCCEED; its message is the fixed one and its image URL is what
    that reply has at [output_images[0].url]. *)
Theorem generate_completes_only_on_succeed :
  forall describe service API_KEY (body : json) s,
    get_prop (Some body) (js "prompt") = Ok (Some (JStr s)) ->
    is_empty (trim s) = false ->
    forall m u,
      In (complete m u)
         (events_of (snd (Generate.onRequestPost describe service API_KEY
                            (Ok body) []))) ->
      m = js "生成完成！"
      /\ exists k rp d st images first,
           k < Generate.MAX_POLLS
           /\ (forall j, j < k -> is_pending (on_poll service j) = true)
           /\ on_poll service k = Ok rp
           /\ parsed rp = Ok d
           /\ get_prop (Some d) (js "task_status") = Ok st
           /\ is_string st (js "SUCCEED") = true
           /\ get_prop (Some d) (js "output_images") = Ok images
           /\ get_first images = Ok first
           /\ get_prop first (js "url") = Ok u.
Proof.
  intros describe service API_KEY body s Hprompt Htrim m u.
  destruct (generate_request_shape describe service API_KEY body Hprompt Htrim)
    as (id & e & Hadm & _ & Hled & Hjud & ->).
  rewrite run_frames by reflexivity. intro Hin.
  destruct (@complete_frame_inv _ _ _ _ _ _ Hin) as [k ->].
  destruct Hadm as (Hk & _ & _). destruct Hled as [Hall _].
  destruct Hjud as (rp & d & st & Hpoll & Hd & Hst
                    & [(Hs & images & first & url & Hi & Hf & Hu & Hev)
                      |(_ & _ & reason & _ & Hev)]); [|discriminate].
  injection Hev as -> ->. split; [reflexivity|].
  exists k, rp, d, st, images, first. auto 10.
Qed.

Lemma generate_completes_only_on_succeed_witness :
  let service := Scenario.script Scenario.submitted 2 Scenario.succeeded_list in
  let m := js "生成完成！" in
  let u := Some Scenario.image in
  In (complete m u)
     (events_of (snd (Generate.onRequestPost Scenario.v8 service Scenario.key
                        (Ok (Scenario.request (js "a cat"))) [])))
  /\ m = js "生成完成！"
  /\ exists k rp d st images first,
       k < Generate.MAX_POLLS
       /\ (forall j, j < k -> is_pending (on_poll service j) = true)
       /\ on_poll service k = Ok rp
       /\ parsed rp = Ok d
       /\ get_prop (Some d) (js "task_status") = Ok st
       /\ is_string st (js "SUCCEED") = true
       /\ get_prop (Some d) (js "output_images") = Ok images
       /\ get_first images = Ok first
       /\ get_prop first (js "url") = Ok u.
Proof.
  intros service m u.
  assert (Hin : In (complete m u)
                   (events_of (snd (Generate.onRequestPost Scenario.v8 service
                                      Scenario.key
                                      (Ok (Scenario.request (js "a cat"))) [])))).
  { match goal with
    | |- In ?x ?l =>
        replace l with (removelast l ++ [x]) by (vm_compute; reflexivity)
    end.
    apply in_or_app. right. left. reflexivity. }
  split; [exact Hin|].
  exact (@generate_completes_only_on_succeed Scenario.v8 service Scenario.key
           (Scenario.request (js "a cat")) (js "a cat")
           ltac:(vm_compute; reflexivity) ltac:(vm_compute; reflexivity) m u Hin).
Defined.

(** X18.  Nor does the Express route, on a response object that has
    [setHeader], [write] and [end]: a complete frame is written only when a
    poll reply, coming after pending replies only and within the 60 polls, is
    an HTTP success that reports the status SUCCEED; its image URL is what
    that reply has at [output_images.url]. *)
Theorem route_completes_only_on_succeed :
  forall describe service has BASE_URL API_KEY (body : json) s,
    has Middleware.m_setHeader = true ->
    has Middleware.m_write = true ->
    has Middleware.m_end = true ->
    get_prop (Some body) (js "prompt") = Ok (Some (JStr s)) ->
    is_empty (trim s) = false ->
    forall m u,
      In (complete m u)
         (events_of (snd (Middleware.route describe service has BASE_URL API_KEY
                            (Some body) []))) ->
      m = js "生成完成！"
      /\ exists k rp d st images,
           k < Middleware.MAX_POLLS
           /\ (forall j, j < k ->
                 replied_ok (on_poll service j) && is_pending (on_poll service j)
                 = true)
           /\ on_poll service k = Ok rp
           /\ ok rp = true
           /\ parsed rp = Ok d
           /\ get_prop (Some d) (js "task_status") = Ok st
           /\ is_string st (js "SUCCEED") = true
           /\ get_prop (Some d) (js "output_images") = Ok images
           /\ get_prop images (js "url") = Ok u.
Proof.
  intros describe service has BASE_URL API_KEY body s Hset Hwrite Hend Hprompt Htrim
         m u.
  destruct (@route_request_shape describe service has BASE_URL API_KEY body s
              Hset Hwrite Hend Hprompt Htrim)
    as (id & e & Hadm & _ & Hled & Hjud & ->).
  rewrite run_frames by reflexivity. intro Hin.
  destruct (@complete_frame_inv _ _ _ _ _ _ Hin) as [k ->].
  destruct Hadm as (Hk & _ & _). destruct Hled as [Hall _].
  destruct Hjud as (rp & Hpoll
                    & [(_ & Hev)
                      |(Hok & d & st & Hd & Hst
                        & [(Hs & images & url & Hi & Hu & Hev)
                          |(_ & _ & reason & _ & Hev)])]);
    [discriminate| |discriminate].
  injection Hev as -> ->. split; [reflexivity|].
  exists k, rp, d, st, images. auto 10.
Qed.

Lemma route_completes_only_on_succeed_witness :
  let service := Scenario.script Scenario.submitted 2 Scenario.succeeded_object in
  let m := js "生成完成！" in
  let u := Some Scenario.image in
  In (complete m u)
     (events_of (snd (Middleware.route Scenario.v8 service Middleware.full_res
                        Scenario.base Scenario.key
                        (Some (Scenario.request (js "a cat"))) [])))
  /\ m = js "生成完成！"
  /\ exists k rp d st images,
       k < Middleware.MAX_POLLS
       /\ (forall j, j < k ->
             replied_ok (on_poll service j) && is_pending (on_poll service j)
             = true)
       /\ on_poll service k = Ok rp
       /\ ok rp = true
       /\ parsed rp = Ok d
       /\ get_prop (Some d) (js "task_status") = Ok st
       /\ is_string st (js "SUCCEED") = true
       /\ get_prop (Some d) (js "output_images") = Ok images
       /\ get_prop images (js "url") = Ok u.
Proof.
  intros service m u.
  assert (Hin : In (complete m u)
                   (events_of (snd (Middleware.route Scenario.v8 service
                                      Middleware.full_res Scenario.base
                                      Scenario.key
                                      (Some (Scenario.request (js "a cat"))) [])))).
  { match goal with
    | |- In ?x ?l =>
        replace l with (removelast l ++ [x]) by (vm_compute; reflexivity)
    end.
    apply in_or_app. right. left. reflexivity. }
  split; [exact Hin|].
  exact (@route_completes_only_on_succeed Scenario.v8 service Middleware.full_res
           Scenario.base Scenario.key
           (Scenario.request (js "a cat")) (js "a cat")
           eq_refl eq_refl eq_refl
           ltac:(vm_compute; reflexivity) ltac:(vm_compute; reflexivity) m u Hin).
Defined.

(* ================================================================== *)
(** ** Logging *)

Lemma no_log_in_rounds : forall url auth message n i,
  existsb is_log (pending_rounds url auth message i n) = false.
Proof. induction n as [|n IH]; intro i; cbn; [reflexivity|apply IH]. Qed.

Lemma reported_after_rounds : forall describe url auth message n i rest,
  logs_are_reported describe rest ->
  logs_are_reported describe (pending_rounds url auth message i n ++ rest).
Proof.
  induction n as [|n IH]; intros i rest H; cbn; [exact H|]. apply IH, H.
Qed.

Lemma reported_after_headers : forall describe tr rest,
  forallb is_header tr = true ->
  logs_are_reported describe rest ->
  logs_are_reported describe (tr ++ rest).
Proof.
  induction tr as [|a tr IH]; intros rest H Hrest; [exact Hrest|].
  cbn in H. apply andb_true_iff in H as [Ha Htr].
  destruct a; try discriminate. cbn. auto.
Qed.

Lemma run_never_logs :
  forall describe submit_url poll_url authorization prompt pending_message budget e,
    existsb is_log
      (run_trace [] false describe submit_url poll_url authorization prompt
         pending_message budget e) = false.
Proof.
  intros. unfold run_trace, caught, polled.
  destruct e; cbn [app existsb is_log orb];
    rewrite ?existsb_app, ?no_log_in_rounds; reflexivity.
Qed.

Lemma run_reports_logs :
  forall setup logs describe submit_url poll_url authorization prompt
         pending_message budget e,
    forallb is_header setup = true ->
    logs_are_reported describe
      (run_trace setup logs describe submit_url poll_url authorization prompt
         pending_message budget e).
Proof.
  intros setup logs describe submit_url poll_url authorization prompt
         pending_message budget e Hsetup.
  unfold run_trace, caught, polled. apply reported_after_headers; [exact Hsetup|].
  destruct e, logs; cbn [app logs_are_reported]; rewrite <- ?app_assoc;
    try apply reported_after_rounds; cbn; auto.
Qed.

(** X19.  What the two catch blocks do with an error: the edge handler never
    calls [console.error]; in the Express route, on a response object that
    has [setHeader], [write] and [end], a call of [console.error] is followed
    by the error frame that carries the message of the logged error and by
    the close, and by nothing else. *)
Theorem caught_errors_are_reported :
  forall describe service API_KEY (body : json) s,
    get_prop (Some body) (js "prompt") = Ok (Some (JStr s)) ->
    is_empty (trim s) = false ->
    existsb is_log
      (snd (Generate.onRequestPost describe service API_KEY (Ok body) [])) = false
    /\
    (forall has BASE_URL,
     has Middleware.m_setHeader = true ->
     has Middleware.m_write = true ->
     has Middleware.m_end = true ->
     logs_are_reported describe
       (snd (Middleware.route describe service has BASE_URL API_KEY
               (Some body) []))).
Proof.
  intros describe service API_KEY body s Hprompt Htrim. split.
  - destruct (generate_request_shape describe service API_KEY body Hprompt Htrim)
      as (id & e & _ & _ & _ & _ & ->).
    apply run_never_logs.
  - intros has BASE_URL Hset Hwrite Hend.
    destruct (@route_request_shape describe service has BASE_URL API_KEY body s
                Hset Hwrite Hend Hprompt Htrim)
      as (id & e & _ & _ & _ & _ & ->).
    apply run_reports_logs. reflexivity.
Qed.

Lemma caught_errors_are_reported_witness :
  logs_are_reported Scenario.v8
    (snd (Middleware.route Scenario.v8 Scenario.offline Middleware.full_res
            Scenario.base Scenario.key
            (Some (Scenario.request (js "a cat"))) [])).
Proof.
  apply (proj2 (@caught_errors_are_reported Scenario.v8 Scenario.offline
                  Scenario.key (Scenario.request (js "a cat")) (js "a cat")
                  ltac:(vm_compute; reflexivity) ltac:(vm_compute; reflexivity))
           Middleware.full_res Scenario.base eq_refl eq_refl eq_refl).
Defined.

(* ================================================================== *)
(** ** The prompt check, for every prompt *)

Lemma trim_start_all_blank : forall s,
  forallb is_white_space (trim_start s) = true -> forallb is_white_space s = true.
Proof.
  induction s as [|c s IH]; cbn; intro H; [reflexivity|].
  destruct (is_white_space c) eqn:Hc; [exact (IH H)|].
  cbn in H. rewrite Hc in H. discriminate.
Qed.

Lemma forallb_rev : forall (f : N -> bool) l, forallb f (rev l) = forallb f l.
Proof.
  intros f l. induction l as [|c l IH]; [reflexivity|].
  cbn. rewrite forallb_app, IH. cbn. rewrite andb_true_r. apply andb_comm.
Qed.

Lemma trim_empty_blank : forall s, trim s = [] -> forallb is_white_space s = true.
Proof.
  intros s H. unfold trim in H.
  assert (H1 : trim_start (rev (trim_start s)) = []).
  { destruct (trim_start (rev (trim_start s))) as [|c l]; [reflexivity|].
    cbn in H. destruct (rev l); discriminate. }
  apply trim_start_all_blank. rewrite <- forallb_rev.
  apply trim_start_all_blank. rewrite H1. reflexivity.
Qed.

Lemma prompt_rejected_iff : forall prompt,
  prompt_rejected prompt = Ok true <-> stopped_prompt prompt.
Proof.
  intro prompt. unfold prompt_rejected, stopped_prompt. split.
  - destruct (falsy prompt) eqn:Hf; [auto|]. intro H. right.
    destruct prompt as [[| | |s| |]|]; try discriminate.
    exists s. split; [reflexivity|]. cbn in H.
    destruct (trim s) eqn:Ht; [|discriminate]. apply trim_empty_blank, Ht.
  - intros [H|(s & -> & H)]; [rewrite H; reflexivity|].
    destruct (falsy (Some (JStr s))); [reflexivity|].
    cbn. rewrite (trim_blank s H). reflexivity.
Qed.

Lemma prompt_accepted_inv : forall prompt,
  prompt_rejected prompt = Ok false ->
  exists s, prompt = Some (JStr s) /\ is_empty (trim s) = false.
Proof.
  intros prompt H. unfold prompt_rejected in H.
  destruct (falsy prompt); [discriminate|].
  destruct prompt as [[| | |s| |]|]; try discriminate.
  exists s. split; [reflexivity|]. cbn in H. congruence.
Qed.

(** X20.  The 400 rejection is what the edge handler returns exactly for the
    prompts that are falsy (missing, [null], [false], a zero, the empty
    string) or strings of white space only; every other prompt gets either
    the stream or a TypeError.  The same prompts, and no other, make the
    Express route answer with [status(400)] and the JSON error, on a response
    object that has the methods the route calls. *)
Theorem rejection_iff_stopped_prompt :
  forall describe service API_KEY (body : json) prompt,
    get_prop (Some body) (js "prompt") = Ok prompt ->
    (fst (Generate.onRequestPost describe service API_KEY (Ok body) [])
     = Ok GenerateTrace.rejection
     <-> stopped_prompt prompt)
    /\
    (forall has BASE_URL,
       has Middleware.m_status = true ->
       has Middleware.m_json = true ->
       has Middleware.m_setHeader = true ->
       has Middleware.m_write = true ->
       has Middleware.m_end = true ->
       (Middleware.route describe service has BASE_URL API_KEY (Some body) []
        = (Ok tt, [ResStatus 400%N; ResJson error_body])
        <-> stopped_prompt prompt)).
Proof.
  intros describe service API_KEY body prompt Hprompt. split.
  - rewrite <- prompt_rejected_iff. unfold Generate.onRequestPost. run.
    destruct (prompt_rejected prompt) as [[|]|err]; run; cbn [fst].
    + split; reflexivity.
    + unfold Generate.detach, bind, ret. cbn [fst].
      split; [|discriminate]. intro H. injection H as H. discriminate.
    + split; discriminate.
  - intros has BASE_URL Hstatus Hjson Hset Hwrite Hend.
    rewrite <- prompt_rejected_iff.
    destruct (prompt_rejected prompt) as [[|]|err] eqn:Hrej.
    + unfold Middleware.route, Middleware.res_call. run. split; reflexivity.
    + split; [|discriminate]. intro H. exfalso.
      destruct (prompt_accepted_inv _ Hrej) as (s & -> & Htrim).
      destruct (@route_request_shape describe service has BASE_URL API_KEY body s
                  Hset Hwrite Hend Hprompt Htrim)
        as (id & e & _ & _ & _ & _ & He).
      rewrite H in He. cbn [snd] in He. discriminate.
    + unfold Middleware.route. run. split; discriminate.
Qed.

Lemma rejection_iff_stopped_prompt_witness :
  let body := JObj [(js "prompt", JBool false)] in
  fst (Generate.onRequestPost Scenario.v8 Scenario.offline Scenario.key (Ok body) [])
  = Ok GenerateTrace.rejection
  <-> stopped_prompt (Some (JBool false)).
Proof.
  intro body.
  apply (proj1 (@rejection_iff_stopped_prompt Scenario.v8 Scenario.offline
                  Scenario.key body (Some (JBool false))
                  ltac:(vm_compute; reflexivity))).
Defined.
